(** * sam3-lab: the persistence / debounce engine and the webhook sender

    A shallow embedding of [scenario_sleeping_detector.py] (class
    [SleepingDetector]) and [webhook_sender.py] (class [WebhookSender]),
    followed by the properties of the specification stated on them.

    Modelling conventions.
    - A [datetime] is an integer count of microseconds, a [Z], counted from
      1970-01-01T00:00:00; a [timedelta(seconds=n)] with an [int] [n] is
      [n * 10^6] microseconds. Instants are compared and subtracted exactly.
      The [OverflowError] of Python outside the years 1 to 9999, or beyond
      10^9 days, is modelled where a configured length enters the
      arithmetic (the cutoff of [_check_persistence]) and throughout the
      module [Pink]. The fixed cutoff of 60 s and the fixed cooldown of
      30 s of the sleeping detector are computed without it: they are
      dates for every call from the second minute of the year 1 to the
      last half minute of the year 9999.
    - Python floats are binary64 values, [PrimFloat.float]; arithmetic and
      comparisons on them are the IEEE ones of the kernel. Decimal literals
      of the source that are not binary64 values are written as the binary64
      value Python reads them as (0.7 is [0x1.6666666666666p-1], 1.2 is
      [0x1.3333333333333p+0]).
    - A Python exception is a value [Raise e] of the type [result]; mutations
      made before the exception is raised persist, as in Python.
    - What the SAM3 processor answers for a frame is an input of the model
      (type [Frame]); what the HTTP endpoint answers to each attempt is an
      input too (type [Endpoint]), and so is what the timer of the host
      does with a wait (class [Host]). Printing is not modelled. *)

(** Beyond the two classes above, the development embeds the sibling
    detector of [test_pink_detector.py] (module [Pink]), the frame loop of
    [rtsp_stream.py] (module [Rtsp]) and [signal_handler] and
    [process_frame] of [main.BACKUP.py] (module [Main]), with the same
    conventions. What OpenCV computes for a frame and what the clocks read
    are inputs of the model. *)

From Stdlib Require Import ZArith List Bool String Lia Floats.
Import ListNotations.

Local Open Scope Z_scope.

(** ** Python results and exceptions *)

Inductive exn : Type :=
| ValueError
| ZeroDivisionError
| OverflowError
| OSError
| Timeout            (* requests.exceptions.Timeout *)
| ConnectionError    (* requests.exceptions.ConnectionError *)
| OtherException.    (* any other subclass of Exception *)

Inductive result (A : Type) : Type :=
| Ok (a : A)
| Raise (e : exn).

Arguments Ok {A} a.
Arguments Raise {A} e.

(** ** The host *)

(** [time.sleep] ends in a wait on a timer of the operating system. Whether
    the timer takes a wait depends on the platform and on the reading of
    its clock when the wait starts: on Linux a wait has to end before the
    monotonic clock reaches 9223372036 seconds, and [time.sleep] raises
    [OSError] for a longer one. The host, the build of CPython with the
    operating system under it, is an input of the model: [timer n] is what
    [time.sleep] does with a length it has converted to [n] nanoseconds,
    [0 <= n <= 2^63], return or raise. A host answers the same to the same
    wait: a hypothesis [timer n = Ok tt] is about every wait of [n]
    nanoseconds of the run considered. *)
Class Host : Type := { timer : Z -> result unit }.

(** ** Numbers *)

Module PyNum.

(** [float(n)] for an [int] [n]: the nearest binary64 value (exact when
    [|n| < 2^53]). *)
Definition int_to_float (n : Z) : float :=
  SF2Prim (binary_normalize prec emax n 0 false).

(** The integer carried by a finite non-zero float [(-1)^s * m * 2^e] is
    its signed mantissa. *)
Definition signed (s : bool) (m : positive) : Z :=
  if s then Z.neg m else Z.pos m.

(** [n >= x] for an [int] [n] and a [float] [x]. Python compares the two
    exactly, without converting [n]; a NaN compares false. *)
Definition int_ge_float (n : Z) (x : float) : bool :=
  match Prim2SF x with
  | S754_nan => false
  | S754_infinity s => s
  | S754_zero _ => 0 <=? n
  | S754_finite s m e =>
      if 0 <=? e then signed s m * 2 ^ e <=? n
      else signed s m <=? n * 2 ^ (- e)
  end.

(** [math.ceil(x)]; it raises on NaN and on the infinities. *)
Definition ceil (x : float) : option Z :=
  match Prim2SF x with
  | S754_nan | S754_infinity _ => None
  | S754_zero _ => Some 0
  | S754_finite s m e =>
      if 0 <=? e then Some (signed s m * 2 ^ e)
      else Some (- ((- signed s m) / 2 ^ (- e)))
  end.

(** [a / b] on two [int]s: true division, [ZeroDivisionError] when [b] is
    [0]. For operands below [2^53] in absolute value, the correctly
    rounded quotient is the binary64 quotient of the converted operands;
    beyond, Python rounds the exact quotient, and raises [OverflowError]
    when it is beyond the floats, which the quotient of the rounded
    operands may miss. *)
Definition int_truediv (a b : Z) : result float :=
  if b =? 0 then Raise ZeroDivisionError
  else Ok (PrimFloat.div (int_to_float a) (int_to_float b)).

End PyNum.

(** ** Dates *)

Definition datetime := Z.

(** [timedelta(seconds=n)], in microseconds. *)
Definition timedelta_seconds (n : Z) : Z := n * 1000000.

(** [datetime.min], the first microsecond of year 1, and [datetime.max],
    the last one of year 9999. *)
Definition datetime_min : datetime := -62135596800000000.
Definition datetime_max : datetime := 253402300799999999.

(** Whether [timedelta(seconds=n)] can be built: its days, [n // 86400],
    must not exceed 999999999 in absolute value. *)
Definition timedelta_in_range (n : Z) : bool :=
  (-999999999 <=? n / 86400) && (n / 86400 <=? 999999999).

(** Whether an instant is a [datetime]. *)
Definition datetime_in_range (t : Z) : bool :=
  (datetime_min <=? t) && (t <=? datetime_max).

(** [t - timedelta(seconds=n)] and [t + timedelta(seconds=n)]:
    [OverflowError] when the timedelta cannot be built or the result falls
    outside the years 1 to 9999. *)
Definition datetime_minus_seconds (t : datetime) (n : Z) : result datetime :=
  if negb (timedelta_in_range n) then Raise OverflowError
  else if datetime_in_range (t - timedelta_seconds n)
       then Ok (t - timedelta_seconds n)
       else Raise OverflowError.

Definition datetime_plus_seconds (t : datetime) (n : Z) : result datetime :=
  if negb (timedelta_in_range n) then Raise OverflowError
  else if datetime_in_range (t + timedelta_seconds n)
       then Ok (t + timedelta_seconds n)
       else Raise OverflowError.

(** ** The detector: data *)

Inductive Orientation : Type := horizontal | vertical.

Definition Orientation_eqb (a b : Orientation) : bool :=
  match a, b with
  | horizontal, horizontal | vertical, vertical => true
  | _, _ => false
  end.

(** The answer of [processor.set_text_prompt] for one prompt: the three
    sequences read with [output.get(..., [])]. A mask is kept as its shape,
    the only thing the detector reads of it. *)
Record Output : Type := mkOutput {
  masks : list (list Z);
  scores : list float;
  boxes : list (list float)
}.

(** A frame, seen through the processor: whether preparing the image raises,
    and the answer (or the exception) for each text prompt. *)
Record Frame : Type := mkFrame {
  set_image : result unit;
  set_text_prompt : string -> result Output
}.

(** The dict [best_detection] as the scan of the scores builds it. *)
Record Candidate : Type := mkCandidate {
  c_prompt : string;
  c_score : float;
  c_box : option (list float);
  c_mask_shape : option (list Z);
  c_timestamp : datetime
}.

(** The same dict once the key ["orientation"] is set; the history holds
    only such dicts. *)
Record Detection : Type := mkDetection {
  candidate : Candidate;
  orientation : Orientation
}.

Definition d_timestamp (d : Detection) : datetime := c_timestamp (candidate d).
Definition d_score (d : Detection) : float := c_score (candidate d).

(** The alert of [_create_alert]: the fields that depend on the inputs (the
    constant texts are left out; ["when"] is kept as the instant rather than
    its ISO rendering). *)
Record Alert : Type := mkAlert {
  when : datetime;
  bounding_box : option (list float);
  alert_orientation : Orientation;
  prompt_used : string;
  confidence_score : float;
  detection_count_in_period : nat;
  alert_persistence_seconds : Z
}.

(** The constructor's arguments (the processor is the [Frame] input). *)
Record Config : Type := mkConfig {
  confidence_threshold : float;
  persistence_seconds : Z;
  check_interval : Z
}.

(** The mutable fields of a [SleepingDetector]. *)
Record State : Type := mkState {
  detections_history : list Detection;
  last_check_time : option datetime;
  alert_cooldown_until : option datetime
}.

Definition init : State := mkState [] None None.

Definition sleep_prompts : list string :=
  [ "person sleeping"; "person lying down"; "person laying down" ]%string.

(** ** A state-and-exception monad for the method bodies *)

Definition M (A : Type) : Type := State -> State * result A.

Definition ret {A} (a : A) : M A := fun s => (s, Ok a).
Definition bind {A B} (m : M A) (k : A -> M B) : M B :=
  fun s => match m s with
           | (s', Ok a) => k a s'
           | (s', Raise e) => (s', Raise e)
           end.
Definition lift {A} (r : result A) : M A := fun s => (s, r).
Definition get : M State := fun s => (s, Ok s).
Definition put (s : State) : M unit := fun _ => (s, Ok tt).

Declare Scope py_scope.
Delimit Scope py_scope with py.
Notation "x <- m ;; k" := (bind m (fun x => k))
  (at level 61, m at next level, right associativity) : py_scope.
Notation "m ;;; k" := (bind m (fun _ => k))
  (at level 61, right associativity) : py_scope.
Local Open Scope py_scope.

(** ** The detector: methods *)

(** [should_check_frame]. [elapsed] is [total_seconds()] of the difference,
    a float, compared with the [int] [check_interval]. On microseconds the
    test is [current_time - last >= check_interval * 10^6]. The quotient by
    [10^6] is correctly rounded and Python compares a float with an [int]
    exactly, so that the test of the code and the test on microseconds
    agree wherever the float separates two spans one microsecond apart
    around the interval: for every span below [2^53] microseconds (some 285
    years), and for every check_interval from [-2^34] (excluded) to [2^34]
    seconds. A span that reaches the interval on microseconds passes the
    test of the code as well, whatever the interval; beyond [2^34] seconds
    the code also lets through a span a few microseconds short of the
    interval, which the test on microseconds refuses. *)
Definition should_check_frame (cfg : Config) (self : State)
    (current_time : datetime) : bool :=
  match last_check_time self with
  | None => true
  | Some last => timedelta_seconds (check_interval cfg) <=? current_time - last
  end.

(** The local [aspect_ratio] of [_analyze_orientation], for the box
    [x1, y1, x2, y2]: [width / height if height > 0 else 0]. *)
Definition aspect_ratio (x1 y1 x2 y2 : float) : float :=
  let width := PrimFloat.abs (x2 - x1)%float in
  let height := PrimFloat.abs (y2 - y1)%float in
  if (0 <? height)%float then (width / height)%float else 0%float.

(** [_analyze_orientation]. Unpacking anything but four values raises
    [ValueError]; the literal [1.2] is the float [0x1.3333333333333p+0]. *)
Definition _analyze_orientation (box : list float) : result Orientation :=
  match box with
  | [x1; y1; x2; y2] =>
      if (0x1.3333333333333p+0 <? aspect_ratio x1 y1 x2 y2)%float
      then Ok horizontal
      else Ok vertical
  | _ => Raise ValueError
  end.

(** [_add_to_history]: append, then keep the last 60 seconds counted from
    the appended detection. *)
Definition _add_to_history (detection : Detection) : M unit :=
  fun self =>
    let appended := detections_history self ++ [detection] in
    let cutoff_time := d_timestamp detection - timedelta_seconds 60 in
    (mkState (filter (fun d => cutoff_time <? d_timestamp d) appended)
             (last_check_time self) (alert_cooldown_until self),
     Ok tt).

(** The list [recent_detections] of [_check_persistence], for a cutoff. *)
Definition recent_since (cutoff_time : datetime) (history : list Detection)
    : list Detection :=
  filter (fun d => (cutoff_time <? d_timestamp d)
                   && Orientation_eqb (orientation d) horizontal)
         history.

(** The detections that [_check_persistence] counts. *)
Definition recent_detections (cfg : Config) (history : list Detection)
    (current_time : datetime) : list Detection :=
  recent_since (current_time - timedelta_seconds (persistence_seconds cfg))
               history.

(** The right-hand side of the last comparison of [_check_persistence]:
    [(persistence_seconds / check_interval) * 0.7]. *)
Definition threshold (cfg : Config) : result float :=
  match PyNum.int_truediv (persistence_seconds cfg) (check_interval cfg) with
  | Ok q => Ok (q * 0x1.6666666666666p-1)%float
  | Raise e => Raise e
  end.

(** [_check_persistence]. The cutoff is computed first, and raises
    [OverflowError] when it is not a [datetime]; the quotient of the last
    line may raise [ZeroDivisionError]. *)
Definition _check_persistence (cfg : Config) (current_time : datetime)
    : M bool :=
  fun self =>
    if (List.length (detections_history self) <? 2)%nat then (self, Ok false)
    else
      match datetime_minus_seconds current_time (persistence_seconds cfg) with
      | Raise e => (self, Raise e)
      | Ok cutoff_time =>
          let recent := recent_since cutoff_time (detections_history self) in
          match threshold cfg with
          | Ok t =>
              (self, Ok (PyNum.int_ge_float (Z.of_nat (List.length recent)) t))
          | Raise e => (self, Raise e)
          end
      end.

(** [_create_alert]. *)
Definition _create_alert (cfg : Config) (self : State) (detection : Detection)
    (timestamp : datetime) : Alert :=
  {| when := timestamp;
     bounding_box := c_box (candidate detection);
     alert_orientation := orientation detection;
     prompt_used := c_prompt (candidate detection);
     confidence_score := d_score detection;
     detection_count_in_period := List.length (detections_history self);
     alert_persistence_seconds := persistence_seconds cfg |}.

(** The inner loop of [detect_sleeping_person]: the scores of one prompt,
    from index [i] on. The accumulator is [(best_score, best_detection)]. *)
Fixpoint scan_scores (cfg : Config) (prompt : string) (out : Output)
    (timestamp : datetime) (i : nat) (rest : list float)
    (acc : float * option Candidate) : float * option Candidate :=
  match rest with
  | [] => acc
  | score :: rest' =>
      let acc' :=
        if ((confidence_threshold cfg <? score) && (fst acc <? score))%float
        then (score,
              Some {| c_prompt := prompt;
                      c_score := score;
                      c_box := nth_error (boxes out) i;
                      c_mask_shape := nth_error (masks out) i;
                      c_timestamp := timestamp |})
        else acc in
      scan_scores cfg prompt out timestamp (S i) rest' acc'
  end.

(** The outer loop: one call of the processor per prompt; an exception of
    the processor leaves the loop. *)
Fixpoint scan_prompts (cfg : Config) (frame : Frame) (timestamp : datetime)
    (prompts : list string) (acc : float * option Candidate)
    : result (float * option Candidate) :=
  match prompts with
  | [] => Ok acc
  | prompt :: prompts' =>
      match set_text_prompt frame prompt with
      | Raise e => Raise e
      | Ok out =>
          scan_prompts cfg frame timestamp prompts'
            (scan_scores cfg prompt out timestamp 0 (scores out) acc)
      end
  end.

(** The detection the current frame yields: the first strictly highest
    score above the threshold, over all prompts. *)
Definition best_detection (cfg : Config) (frame : Frame) (timestamp : datetime)
    : result (option Candidate) :=
  match set_image frame with
  | Raise e => Raise e
  | Ok _ =>
      match scan_prompts cfg frame timestamp sleep_prompts (0%float, None) with
      | Raise e => Raise e
      | Ok (_, best) => Ok best
      end
  end.

(** A list is truthy when it is not empty. *)
Definition truthy_box (b : option (list float)) : option (list float) :=
  match b with
  | Some (x :: l) => Some (x :: l)
  | _ => None
  end.

(** The body of the [try] of [detect_sleeping_person]. *)
Definition detect_body (cfg : Config) (frame : Frame) (timestamp : datetime)
    : M (option Alert) :=
  best <- lift (best_detection cfg frame timestamp) ;;
  match best with
  | None => ret None
  | Some cand =>
      match truthy_box (c_box cand) with
      | None => ret None
      | Some box =>
          o <- lift (_analyze_orientation box) ;;
          let detection := {| candidate := cand; orientation := o |} in
          if Orientation_eqb o horizontal then
            _add_to_history detection ;;;
            persisted <- _check_persistence cfg timestamp ;;
            if persisted then
              self <- get ;;
              let alert := _create_alert cfg self detection timestamp in
              put (mkState (detections_history self) (last_check_time self)
                           (Some (timestamp + timedelta_seconds 30))) ;;;
              ret (Some alert)
            else ret None
          else ret None
      end
  end.

(** Whether the cooldown test of [detect_sleeping_person] suppresses the
    call. *)
Definition in_cooldown (self : State) (timestamp : datetime) : bool :=
  match alert_cooldown_until self with
  | Some until => timestamp <? until
  | None => false
  end.

(** [detect_sleeping_person]: the new state and the returned value ([None]
    or the alert). *)
Definition detect_sleeping_person (cfg : Config) (self : State) (frame : Frame)
    (timestamp : datetime) : State * option Alert :=
  if negb (should_check_frame cfg self timestamp) then (self, None)
  else
    let self := mkState (detections_history self) (Some timestamp)
                        (alert_cooldown_until self) in
    if in_cooldown self timestamp then (self, None)
    else
      match detect_body cfg frame timestamp self with
      | (self', Ok r) => (self', r)
      | (self', Raise _) => (self', None)
      end.

(** A run of the detector: the calls in order, the state threaded. *)
Fixpoint run (cfg : Config) (self : State) (calls : list (Frame * datetime))
    : State * list (option Alert) :=
  match calls with
  | [] => (self, [])
  | (frame, timestamp) :: calls' =>
      let (self', r) := detect_sleeping_person cfg self frame timestamp in
      let (self'', rs) := run cfg self' calls' in
      (self'', r :: rs)
  end.

(** ** The webhook sender *)

Record WebhookSender : Type := mkWebhookSender {
  webhook_url : string;
  timeout : Z;
  retry_attempts : Z;
  retry_delay : Z
}.

(** What [requests.post] does at each attempt, numbered from 1: it returns a
    response, of which the status code is kept, or it raises. *)
Definition Endpoint := Z -> result Z.

(** What [send_alert] does to the outside world. *)
Inductive event : Type :=
| Posted (attempt : Z) (outcome : result Z)
| Slept (seconds : Z).

(** [response.status_code in [200, 201, 202]]. *)
Definition accepted (status : Z) : bool :=
  (status =? 200) || (status =? 201) || (status =? 202).

(** [time.sleep(seconds)] for an [int]. The length is first converted to
    nanoseconds on 64 bits, which raises [OverflowError] beyond 9223372036
    seconds in absolute value; a negative length then raises [ValueError];
    the wait is then the timer's, and is recorded when the timer
    returns. *)
Definition sleep {host : Host} (seconds : Z) (trace : list event)
    : result (list event) :=
  if (seconds <? -9223372036) || (9223372036 <? seconds)
  then Raise OverflowError
  else if seconds <? 0 then Raise ValueError
  else match timer (seconds * 1000000000) with
       | Ok _ => Ok (trace ++ [Slept seconds])
       | Raise e => Raise e
       end.

(** [range(a, b)]: the [b - a] integers from [a] on, none when [b <= a]. *)
Fixpoint range_from (a : Z) (n : nat) : list Z :=
  match n with
  | O => []
  | S n' => a :: range_from (a + 1) n'
  end.

Definition range (a b : Z) : list Z := range_from a (Z.to_nat (b - a)).

(** The [for] loop of [send_alert] over the attempt numbers still to come;
    [trace] holds the events so far. Every exception of the [try] is caught
    by one of the three handlers; the [sleep] is outside the [try]. Falling
    out of the loop returns [False]. *)
Fixpoint attempts_loop {host : Host} (self : WebhookSender)
    (endpoint : Endpoint) (todo : list Z) (trace : list event)
    : result bool * list event :=
  match todo with
  | [] => (Ok false, trace)
  | attempt :: todo' =>
      let outcome := endpoint attempt in
      let trace := trace ++ [Posted attempt outcome] in
      let delivered :=
        match outcome with
        | Ok status => accepted status
        | Raise _ => false
        end in
      if delivered then (Ok true, trace)
      else if attempt <? retry_attempts self then
        match sleep (retry_delay self) trace with
        | Ok trace' => attempts_loop self endpoint todo' trace'
        | Raise e => (Raise e, trace)
        end
      else attempts_loop self endpoint todo' trace
  end.

(** [send_alert]: the returned value (or the exception that escapes) and the
    events, in order. The payload does not influence either. *)
Definition send_alert {host : Host} (self : WebhookSender)
    (endpoint : Endpoint) : result bool * list event :=
  attempts_loop self endpoint (range 1 (retry_attempts self + 1)) [].

(** The number of attempts in a trace. *)
Definition attempts_made (trace : list event) : nat :=
  List.length (filter (fun e => match e with Posted _ _ => true | Slept _ => false end) trace).

(** The events of a failed attempt: the request, and the wait that follows
    it unless the attempt is the last one. *)
Definition failed_attempt_events (self : WebhookSender) (endpoint : Endpoint)
    (attempt : Z) : list event :=
  if attempt <? retry_attempts self
  then [Posted attempt (endpoint attempt); Slept (retry_delay self)]
  else [Posted attempt (endpoint attempt)].

(** An attempt fails when the status is not an accepted one or when the
    request raises. *)
Definition failed (outcome : result Z) : Prop :=
  match outcome with
  | Ok status => accepted status = false
  | Raise _ => True
  end.

(** ** Concrete configurations, frames and endpoints used below *)

Module Scenario.

(** Seconds on the clock, as an instant. *)
Definition at_s (n : Z) : datetime := timedelta_seconds n.

(** The defaults of the constructor. *)
Definition defaults : Config := mkConfig 0x1.3333333333333p-2%float 10 2.

(** A configuration whose count threshold is below 1. *)
Definition short_persistence : Config :=
  mkConfig 0x1.3333333333333p-2%float 2 2.

(** A box 100 wide and 40 high. *)
Definition lying_box : list float := [0; 0; 100; 40]%float.

(** A box of height 0. *)
Definition flat_box : list float := [0; 5; 10; 5]%float.

Definition one_detection (score : float) (box : list float) : Output :=
  mkOutput [[480; 640]] [score] [box].

Definition nothing : Output := mkOutput [] [] [].

(** A frame on which the first prompt finds one object and the other
    prompts find none. *)
Definition frame_with (score : float) (box : list float) : Frame :=
  mkFrame (Ok tt)
    (fun prompt =>
       if String.eqb prompt "person sleeping"
       then Ok (one_detection score box)
       else Ok nothing).

(** A lying person seen with the given score. *)
Definition lying (score : float) : Frame := frame_with score lying_box.

(** A frame on which nothing is found. *)
Definition empty_frame : Frame := mkFrame (Ok tt) (fun _ => Ok nothing).

(** The detection stored for [lying score] at second [n]. *)
Definition sample (score : float) (n : Z) : Detection :=
  mkDetection
    (mkCandidate "person sleeping" score (Some lying_box) (Some [480; 640])
                 (at_s n))
    horizontal.

Definition half : float := 0.5%float.
Definition low : float := 0x1.999999999999ap-4%float. (* 0.1 *)
Definition high : float := 0x1.ccccccccccccdp-1%float. (* 0.9 *)

(** Histories of qualifying samples at seconds 0, 2, 4, (6, 8). *)
Definition three_samples : list Detection :=
  [sample half 0; sample half 2; sample half 4].
Definition four_samples : list Detection :=
  three_samples ++ [sample half 6].
Definition five_samples : list Detection :=
  four_samples ++ [sample half 8].

(** The detector after one lying person seen at second 0. *)
Definition after_first (cfg : Config) : State :=
  fst (run cfg init [(lying half, at_s 0)]).

(** The detector after lying persons seen at seconds 0, 2 and 4, the first
    with the highest score. *)
Definition after_three : State :=
  fst (run defaults init
         [(lying high, at_s 0); (lying half, at_s 2); (lying half, at_s 4)]).

(** The detector after the alert at second 6 that follows. *)
Definition after_alert : State :=
  fst (detect_sleeping_person defaults after_three (lying half) (at_s 6)).

(** An endpoint that answers 500 twice and then 200. *)
Definition recovering : Endpoint :=
  fun attempt => if attempt <=? 2 then Ok 500 else Ok 200.

(** An endpoint that times out at every attempt. *)
Definition down : Endpoint := fun _ => Raise Timeout.

Definition sender : WebhookSender :=
  mkWebhookSender "https://example.invalid/hook" 10 3 2.

End Scenario.

(** ** Reading a call of the detector by cases *)

(** The history after [_add_to_history]. *)
Definition history_after_add (self : State) (detection : Detection)
    : list Detection :=
  filter (fun d => d_timestamp detection - timedelta_seconds 60 <? d_timestamp d)
         (detections_history self ++ [detection]).

(** The cases of a call, read off the code. Either the call is throttled,
    or it is suppressed by the cooldown, or it gets through both gates and
    then: it appends nothing, or it appends the detection of the frame
    without alerting, or it appends it and alerts. *)
Inductive outcome (cfg : Config) (self : State) (frame : Frame) (timestamp : datetime)
    : State -> option Alert -> Prop :=
| Throttled :
    should_check_frame cfg self timestamp = false ->
    outcome cfg self frame timestamp self None
| Suppressed :
    should_check_frame cfg self timestamp = true ->
    in_cooldown self timestamp = true ->
    outcome cfg self frame timestamp
      (mkState (detections_history self) (Some timestamp)
               (alert_cooldown_until self))
      None
| NotStored :
    should_check_frame cfg self timestamp = true ->
    in_cooldown self timestamp = false ->
    (forall cand box,
        best_detection cfg frame timestamp = Ok (Some cand) ->
        truthy_box (c_box cand) = Some box ->
        _analyze_orientation box <> Ok horizontal) ->
    outcome cfg self frame timestamp
      (mkState (detections_history self) (Some timestamp)
               (alert_cooldown_until self))
      None
| Stored cand box :
    should_check_frame cfg self timestamp = true ->
    in_cooldown self timestamp = false ->
    best_detection cfg frame timestamp = Ok (Some cand) ->
    truthy_box (c_box cand) = Some box ->
    _analyze_orientation box = Ok horizontal ->
    let detection := mkDetection cand horizontal in
    let history := history_after_add self detection in
    let stored := mkState history (Some timestamp) (alert_cooldown_until self) in
    snd (_check_persistence cfg timestamp stored) <> Ok true ->
    outcome cfg self frame timestamp stored None
| Fired cand box :
    should_check_frame cfg self timestamp = true ->
    in_cooldown self timestamp = false ->
    best_detection cfg frame timestamp = Ok (Some cand) ->
    truthy_box (c_box cand) = Some box ->
    _analyze_orientation box = Ok horizontal ->
    let detection := mkDetection cand horizontal in
    let history := history_after_add self detection in
    let stored := mkState history (Some timestamp) (alert_cooldown_until self) in
    snd (_check_persistence cfg timestamp stored) = Ok true ->
    outcome cfg self frame timestamp
      (mkState history (Some timestamp)
               (Some (timestamp + timedelta_seconds 30)))
      (Some (_create_alert cfg stored detection timestamp)).

(** ** Invariants used below *)

(** The cooldown is set and ends no earlier than [bound]. *)
Definition cooling_until (bound : datetime) (self : State) : Prop :=
  exists until, alert_cooldown_until self = Some until /\ bound <= until.

(** A stored sample is one whose box was classified horizontal. *)
Definition lying_sample (d : Detection) : Prop :=
  orientation d = horizontal
  /\ exists box, c_box (candidate d) = Some box
                 /\ _analyze_orientation box = Ok horizontal.

(** ** Further notions on the detector *)

(** The entries of a history follow each other by at least [gap]. *)
Definition spaced (gap : Z) (history : list Detection) : Prop :=
  ForallOrdPairs (fun a b => d_timestamp a + gap <= d_timestamp b) history.

(** No entry of the history is later than the last accepted call; a detector
    that has accepted no call has an empty history. *)
Definition seen_by_last_check (self : State) : Prop :=
  match last_check_time self with
  | Some last => Forall (fun d => d_timestamp d <= last) (detections_history self)
  | None => detections_history self = []
  end.

(** A frame on which no prompt yields a score above the threshold. *)
Definition quiet_frame (cfg : Config) (frame : Frame) : Prop :=
  forall prompt out score,
    In prompt sleep_prompts ->
    set_text_prompt frame prompt = Ok out ->
    In score (scores out) ->
    (confidence_threshold cfg <? score)%float = false.

(** The candidate is read at one index of the answer to one prompt. *)
Definition taken_from (frame : Frame) (prompts : list string) (c : Candidate)
    : Prop :=
  exists prompt out i,
    In prompt prompts
    /\ set_text_prompt frame prompt = Ok out
    /\ nth_error (scores out) i = Some (c_score c)
    /\ c_box c = nth_error (boxes out) i
    /\ c_mask_shape c = nth_error (masks out) i
    /\ c_prompt c = prompt.

(** A frame for which the processor raises, on the image or on one of the
    prompts. *)
Definition failing_frame (frame : Frame) : Prop :=
  (exists e, set_image frame = Raise e)
  \/ (exists prompt e, In prompt sleep_prompts
                       /\ set_text_prompt frame prompt = Raise e).

Module MoreScenarios.

(** The processor raises on the second prompt. *)
Definition broken_frame : Frame :=
  mkFrame (Ok tt)
    (fun prompt =>
       if String.eqb prompt "person lying down" then Raise OtherException
       else Ok (Scenario.one_detection Scenario.half Scenario.lying_box)).

(** A box with three coordinates. *)
Definition short_box : list float := [0; 0; 100]%float.

(** The defaults with check_interval = 0. *)
Definition zero_interval : Config :=
  mkConfig 0x1.3333333333333p-2%float 10 0.

(** The defaults with check_interval = 3. *)
Definition every_three : Config :=
  mkConfig 0x1.3333333333333p-2%float 10 3.

(** A persistence of 90 s checked every second. *)
Definition long_persistence : Config :=
  mkConfig 0x1.3333333333333p-2%float 90 1.

Definition five_calls : list (Frame * datetime) :=
  [(Scenario.lying Scenario.half, Scenario.at_s 0);
   (Scenario.lying Scenario.half, Scenario.at_s 2);
   (Scenario.lying Scenario.half, Scenario.at_s 4);
   (Scenario.lying Scenario.half, Scenario.at_s 6);
   (Scenario.lying Scenario.half, Scenario.at_s 8)].

(** Lying persons every 2 s from second 0 to second 44. *)
Definition long_run : list (Frame * datetime) :=
  map (fun k => (Scenario.lying Scenario.half, Scenario.at_s (2 * Z.of_nat k)))
      (seq 0 23).

End MoreScenarios.

(** Any two entries of a history are less than 60 s apart. *)
Definition within_retention (history : list Detection) : Prop :=
  ForallPairs
    (fun a b => d_timestamp b - timedelta_seconds 60 < d_timestamp a) history.

(** ** Further notions on the webhook sender *)

(** Whether the attempt numbered [attempt] is answered with an accepted
    status. *)
Definition delivered_at (endpoint : Endpoint) (attempt : Z) : bool :=
  match endpoint attempt with
  | Ok status => accepted status
  | Raise _ => false
  end.

(** [test_connection]: one request and no retry; [True] on an accepted
    status, [False] on any other status and on any exception. *)
Definition test_connection (self : WebhookSender) (endpoint : Endpoint)
    : result bool * list event :=
  let outcome := endpoint 1 in
  (Ok match outcome with
      | Ok status => accepted status
      | Raise _ => false
      end,
   [Posted 1 outcome]).

(** The trace ends with a wait. *)
Definition ends_with_wait (trace : list event) : Prop :=
  exists before seconds, trace = before ++ [Slept seconds].

Module MoreSenders.

(** A sender with a negative delay. *)
Definition hasty : WebhookSender :=
  mkWebhookSender "https://example.invalid/hook" 10 3 (-1).

(** A sender that may not try at all. *)
Definition idle : WebhookSender :=
  mkWebhookSender "https://example.invalid/hook" 10 0 2.

(** A sender with a single attempt. *)
Definition single : WebhookSender :=
  mkWebhookSender "https://example.invalid/hook" 10 1 2.

(** A sender whose delay is one second more than [time.sleep] converts. *)
Definition patient : WebhookSender :=
  mkWebhookSender "https://example.invalid/hook" 10 3 9223372037.

(** A sender whose delay is negative beyond what [time.sleep] converts. *)
Definition reckless : WebhookSender :=
  mkWebhookSender "https://example.invalid/hook" 10 3 (-9223372037).

(** A sender whose delay is the longest that [time.sleep] converts. *)
Definition lasting : WebhookSender :=
  mkWebhookSender "https://example.invalid/hook" 10 3 9223372036.

End MoreSenders.

(** ** More of Python's numbers *)

Module PyFloat.

(** [x > n] for a [float] [x] and an [int] [n], compared exactly; a NaN
    compares false. *)
Definition gt_int (x : float) (n : Z) : bool :=
  match Prim2SF x with
  | S754_nan => false
  | S754_infinity s => negb s
  | S754_zero _ => n <? 0
  | S754_finite s m e =>
      if 0 <=? e then n <? PyNum.signed s m * 2 ^ e
      else n * 2 ^ (- e) <? PyNum.signed s m
  end.

(** [int(x)]: truncation towards zero; [ValueError] on a NaN and
    [OverflowError] on an infinity. *)
Definition to_int (x : float) : result Z :=
  match Prim2SF x with
  | S754_nan => Raise ValueError
  | S754_infinity _ => Raise OverflowError
  | S754_zero _ => Ok 0
  | S754_finite s m e =>
      if 0 <=? e then Ok (PyNum.signed s m * 2 ^ e)
      else Ok (Z.quot (PyNum.signed s m) (2 ^ (- e)))
  end.

(** [min(x, y)]: the first argument unless the second is smaller. *)
Definition min (x y : float) : float := if (y <? x)%float then y else x.

(** [max(0, x)] with the [int] 0 first: [x] when [x > 0], else 0. *)
Definition max_zero (x : float) : float := if (0 <? x)%float then x else 0%float.

(** The conversion of an [int] operand of a float operation:
    [OverflowError] when the nearest float is beyond the largest one. *)
Definition of_int (n : Z) : result float :=
  let x := PyNum.int_to_float n in
  if PrimFloat.is_infinity x then Raise OverflowError else Ok x.

End PyFloat.

(** ** The pink detector ([test_pink_detector.py], class [PinkDetector]) *)

Module Pink.

(** What OpenCV finds for one contour: [cv2.contourArea] and
    [cv2.boundingRect], the latter as [(x, y, w, h)]. *)
Record Contour : Type := mkContour {
  contourArea : float;
  boundingRect : Z * Z * Z * Z
}.

(** A frame, seen through OpenCV: the contours of the pink mask in the
    order of [cv2.findContours], or the exception one of the calls raises. *)
Definition Frame : Type := result (list Contour).

Record Detection : Type := mkDetection {
  timestamp : datetime;
  area : float;
  box : list Z;
  score : float
}.

(** The alert of [_create_alert]: the fields that depend on the inputs. *)
Record Alert : Type := mkAlert {
  when : datetime;
  bounding_box : list Z;
  area_pixels : float;
  confidence_score : float;
  alert_area_threshold : Z;
  detection_count_in_period : nat;
  alert_persistence_seconds : Z
}.

Record Config : Type := mkConfig {
  area_threshold : Z;
  persistence_seconds : Z;
  check_interval : Z
}.

Record State : Type := mkState {
  detections_history : list Detection;
  last_check_time : option datetime;
  alert_cooldown_until : option datetime
}.

Definition init : State := mkState [] None None.

(** [should_check_frame], as in the sleeping detector. *)
Definition should_check_frame (cfg : Config) (self : State)
    (current_time : datetime) : bool :=
  match last_check_time self with
  | None => true
  | Some last => timedelta_seconds (check_interval cfg) <=? current_time - last
  end.

(** [_add_to_history]. The detection is appended before the cutoff is
    computed: it stays in the history when the cutoff raises
    [OverflowError], and nothing is pruned then. *)
Definition _add_to_history (self : State) (detection : Detection)
    : State * result unit :=
  let appended := detections_history self ++ [detection] in
  match datetime_minus_seconds (timestamp detection) 60 with
  | Raise e =>
      (mkState appended (last_check_time self) (alert_cooldown_until self),
       Raise e)
  | Ok cutoff_time =>
      (mkState (filter (fun d => cutoff_time <? timestamp d) appended)
               (last_check_time self) (alert_cooldown_until self),
       Ok tt)
  end.

(** The list [recent_detections] of [_check_persistence], for a cutoff. *)
Definition recent_since (cutoff_time : datetime) (history : list Detection)
    : list Detection :=
  filter (fun d => cutoff_time <? timestamp d) history.

(** [required = max(1, int((persistence_seconds / check_interval) * 0.7))]. *)
Definition required (cfg : Config) : result Z :=
  match PyNum.int_truediv (persistence_seconds cfg) (check_interval cfg) with
  | Raise e => Raise e
  | Ok q =>
      match PyFloat.to_int (q * 0x1.6666666666666p-1)%float with
      | Raise e => Raise e
      | Ok k => Ok (Z.max 1 k)
      end
  end.

(** [_check_persistence]; it reads the state and may raise: [OverflowError]
    when the cutoff is not a [datetime], then what [required] raises. *)
Definition _check_persistence (cfg : Config) (current_time : datetime)
    (self : State) : result bool :=
  if (List.length (detections_history self) <? 2)%nat then Ok false
  else
    match datetime_minus_seconds current_time (persistence_seconds cfg) with
    | Raise e => Raise e
    | Ok cutoff_time =>
        let recent := recent_since cutoff_time (detections_history self) in
        match required cfg with
        | Ok r => Ok (r <=? Z.of_nat (List.length recent))
        | Raise e => Raise e
        end
    end.

(** [_create_alert]. *)
Definition _create_alert (cfg : Config) (self : State) (detection : Detection)
    (now : datetime) : Alert :=
  {| when := now;
     bounding_box := box detection;
     area_pixels := area detection;
     confidence_score := score detection;
     alert_area_threshold := area_threshold cfg;
     detection_count_in_period := List.length (detections_history self);
     alert_persistence_seconds := persistence_seconds cfg |}.

(** A contour whose area exceeds the threshold. *)
Definition large (cfg : Config) (contour : Contour) : bool :=
  PyFloat.gt_int (contourArea contour) (area_threshold cfg).

(** The detection built for a large contour. *)
Definition detection_of (contour : Contour) (now : datetime) : Detection :=
  let '(x, y, w, h) := boundingRect contour in
  {| timestamp := now;
     area := contourArea contour;
     box := [x; y; x + w; y + h];
     score := PyFloat.min (contourArea contour / 50000)%float 1%float |}.

(** The [for] loop of [detect_pink_object] over the contours still to come:
    the state it leaves, and what the body of the [try] returns or raises. *)
Fixpoint scan_contours (cfg : Config) (now : datetime)
    (contours : list Contour) (self : State)
    : State * result (option Alert) :=
  match contours with
  | [] => (self, Ok None)
  | contour :: contours' =>
      if large cfg contour then
        let detection := detection_of contour now in
        match _add_to_history self detection with
        | (self, Raise e) => (self, Raise e)
        | (self, Ok _) =>
            match _check_persistence cfg now self with
            | Raise e => (self, Raise e)
            | Ok true =>
                let alert := _create_alert cfg self detection now in
                match datetime_plus_seconds now 10 with
                | Raise e => (self, Raise e)
                | Ok until =>
                    (mkState (detections_history self) (last_check_time self)
                             (Some until),
                     Ok (Some alert))
                end
            | Ok false => scan_contours cfg now contours' self
            end
        end
      else scan_contours cfg now contours' self
  end.

Definition in_cooldown (self : State) (now : datetime) : bool :=
  match alert_cooldown_until self with
  | Some until => now <? until
  | None => false
  end.

(** [detect_pink_object]. *)
Definition detect_pink_object (cfg : Config) (self : State) (frame : Frame)
    (now : datetime) : State * option Alert :=
  if negb (should_check_frame cfg self now) then (self, None)
  else
    let self := mkState (detections_history self) (Some now)
                        (alert_cooldown_until self) in
    if in_cooldown self now then (self, None)
    else
      match frame with
      | Raise _ => (self, None)
      | Ok contours =>
          match scan_contours cfg now contours self with
          | (self', Ok r) => (self', r)
          | (self', Raise _) => (self', None)
          end
      end.

Fixpoint run (cfg : Config) (self : State) (calls : list (Frame * datetime))
    : State * list (option Alert) :=
  match calls with
  | [] => (self, [])
  | (frame, now) :: calls' =>
      let (self', r) := detect_pink_object cfg self frame now in
      let (self'', rs) := run cfg self' calls' in
      (self'', r :: rs)
  end.

(** The cooldown is set and ends no earlier than [bound]. *)
Definition cooling_until (bound : datetime) (self : State) : Prop :=
  exists until, alert_cooldown_until self = Some until /\ bound <= until.

(** The number of entries of a history stamped [now]. *)
Definition stamped (now : datetime) (history : list Detection) : nat :=
  List.length (filter (fun d => timestamp d =? now) history).

(** The defaults of the constructor. *)
Definition defaults : Config := mkConfig 500 3 1.

(** A contour of 20000 pixels. *)
Definition blob (x : Z) : Contour := mkContour 20000%float (x, 10, 200, 100).

(** A contour of 100 pixels. *)
Definition speck : Contour := mkContour 100%float (0, 0, 10, 10).

End Pink.

(** ** The stream ([rtsp_stream.py], class [RTSPStream]) *)

Module Rtsp.

(** The OpenCV capture, as the stream uses it: whether it opened, what the
    calls of [read] still to come answer ([Some frame] when [ret] is true),
    and whether [release] was called. An exhausted capture answers
    [ret = False]. *)
Record Capture (F : Type) : Type := mkCapture {
  isOpened : bool;
  reads : list (option F);
  released : bool
}.
Arguments mkCapture {F}.
Arguments isOpened {F}.
Arguments reads {F}.
Arguments released {F}.

Record RTSPStream (F : Type) : Type := mkStream {
  fps_target : Z;
  cap : option (Capture F)
}.
Arguments mkStream {F}.
Arguments fps_target {F}.
Arguments cap {F}.

(** How a call of the callback ends: it returns, it raises an exception, or
    a [KeyboardInterrupt] arrives while it runs. *)
Inductive Signal : Type :=
| Returned
| Thrown (e : exn)
| Interrupted.

(** The callback acts on a world of its own, of type [W]. *)
Definition Callback (F W : Type) : Type := F -> datetime -> W -> W * Signal.

(** What the clocks read during one turn of the loop: [time.time()] at its
    start, [datetime.now()] after the capture, [time.time()] after the
    callback. *)
Record Tick : Type := mkTick {
  start_time : float;
  timestamp : datetime;
  end_time : float
}.

(** How [process_stream] ends, what it leaves, and what it did. *)
Record Ending (F W : Type) : Type := mkEnding {
  raised : result unit;
  world : W;
  pending : list (option F);
  handed : list (F * datetime);
  naps : list float
}.
Arguments mkEnding {F W}.
Arguments raised {F W}.
Arguments world {F W}.
Arguments pending {F W}.
Arguments handed {F W}.
Arguments naps {F W}.

(** [connect]: the capture the device gives is kept in [self.cap] before it
    is tested. *)
Definition connect {F} (self : RTSPStream F) (device : Capture F)
    : RTSPStream F * result bool :=
  let self := mkStream (fps_target self) (Some device) in
  if negb (isOpened device) then (self, Raise OtherException)
  else (self, Ok true).

(** [get_frame]. *)
Definition get_frame {F} (self : RTSPStream F)
    : RTSPStream F * result (option F) :=
  match cap self with
  | None => (self, Raise OtherException)
  | Some c =>
      match reads c with
      | [] => (self, Ok None)
      | answer :: rest =>
          (mkStream (fps_target self)
                    (Some (mkCapture (isOpened c) rest (released c))),
           Ok answer)
      end
  end.

(** [disconnect]. *)
Definition disconnect {F} (self : RTSPStream F) : RTSPStream F :=
  match cap self with
  | Some c => mkStream (fps_target self)
                       (Some (mkCapture (isOpened c) (reads c) true))
  | None => self
  end.

(** [max_frames and frame_count >= max_frames]: [None] and 0 are falsy. *)
Definition limit_reached (max_frames : option Z) (frame_count : nat) : bool :=
  match max_frames with
  | None => false
  | Some m => negb (m =? 0) && (m <=? Z.of_nat frame_count)
  end.

(** [time.sleep(seconds)] for a [float]. A NaN raises [ValueError]. The
    length is then converted to nanoseconds, [seconds * 1e9] rounded away
    from zero, on 64 bits: [OverflowError] when the product is below
    [-2^63] or above [2^63] (the floats of that size are integers, so that
    the rounding does not move the test). A negative count of nanoseconds
    then raises [ValueError]; the wait is then the timer's. What a count
    of exactly [2^63] does differs between versions of CPython
    ([ValueError] in 3.11, whose conversion wraps it to [-2^63]) and lies
    with the host as well. *)
Definition sleep {host : Host} (seconds : float) : result unit :=
  if PrimFloat.is_nan seconds then Raise ValueError
  else
    let nanoseconds := (seconds * 1000000000)%float in
    if (nanoseconds <? -9223372036854775808)%float
       || (9223372036854775808 <? nanoseconds)%float
    then Raise OverflowError
    else if (nanoseconds <? 0)%float then Raise ValueError
    else match PyNum.ceil nanoseconds with
         | Some n => timer n
         | None => Raise OverflowError
         end.

(** The wait asked for at the end of a turn. *)
Definition sleep_time (frame_interval : float) (tick : Tick) : float :=
  let elapsed := (end_time tick - start_time tick)%float in
  PyFloat.max_zero (frame_interval - elapsed)%float.

(** The [while True] of [process_stream], for a connected stream, over the
    answers of the capture still to come. Turn [n] reads the clocks
    [clock n]. *)
Fixpoint stream_loop {host : Host} {F W} (frame_interval : float)
    (max_frames : option Z)
    (callback : Callback F W) (clock : nat -> Tick)
    (answers : list (option F)) (frame_count : nat) (w : W)
    (done : list (F * datetime)) (slept : list float) : Ending F W :=
  match answers with
  | [] => mkEnding (Ok tt) w [] done slept
  | None :: rest => mkEnding (Ok tt) w rest done slept
  | Some frame :: rest =>
      let tick := clock frame_count in
      let done := done ++ [(frame, timestamp tick)] in
      match callback frame (timestamp tick) w with
      | (w', Thrown e) => mkEnding (Raise e) w' rest done slept
      | (w', Interrupted) => mkEnding (Ok tt) w' rest done slept
      | (w', Returned) =>
          let frame_count := S frame_count in
          if limit_reached max_frames frame_count
          then mkEnding (Ok tt) w' rest done slept
          else
            let nap := sleep_time frame_interval tick in
            let slept := slept ++ [nap] in
            match sleep nap with
            | Raise e => mkEnding (Raise e) w' rest done slept
            | Ok _ =>
                stream_loop frame_interval max_frames callback clock rest
                            frame_count w' done slept
            end
      end
  end.

(** [1.0 / self.fps_target]: the [int] is converted to a float, which
    raises [OverflowError] beyond the floats, and a zero divisor raises
    [ZeroDivisionError]. *)
Definition frame_interval {F} (self : RTSPStream F) : result float :=
  match PyFloat.of_int (fps_target self) with
  | Raise e => Raise e
  | Ok fps =>
      if (fps =? 0)%float then Raise ZeroDivisionError else Ok (1 / fps)%float
  end.

(** [process_stream]: the stream it leaves and how it ends. The division
    [1.0 / self.fps_target] is outside the [try]: when it raises, nothing
    is read and [disconnect] is not run. The [finally] runs [disconnect]
    in every other case. *)
Definition process_stream {host : Host} {F W} (self : RTSPStream F)
    (callback : Callback F W) (max_frames : option Z) (clock : nat -> Tick)
    (w : W) : RTSPStream F * Ending F W :=
  match frame_interval self with
  | Raise e =>
      (self, mkEnding (Raise e) w
                      match cap self with Some c => reads c | None => [] end
                      [] [])
  | Ok frame_interval =>
      match cap self with
      | None => (disconnect self, mkEnding (Raise OtherException) w [] [] [])
      | Some c =>
          let e := stream_loop frame_interval max_frames callback clock
                               (reads c) 0 w [] [] in
          (disconnect (mkStream (fps_target self)
                                (Some (mkCapture (isOpened c) (pending e)
                                                 (released c)))),
           e)
      end
  end.

(** The frames at the head of a list of answers, up to the first failed
    read. *)
Fixpoint leading {F} (answers : list (option F)) : list F :=
  match answers with
  | Some frame :: rest => frame :: leading rest
  | _ => []
  end.

(** The frames a loop may still hand over when [count] were handed: all of
    them without a limit or with the limit 0, else as many as the limit less
    [count], and at least one. *)
Definition quota {F} (max_frames : option Z) (count : nat) (frames : list F)
    : list F :=
  match max_frames with
  | None => frames
  | Some m =>
      if m =? 0 then frames
      else firstn (Z.to_nat (Z.max 1 (m - Z.of_nat count))) frames
  end.

(** The callback always returns. *)
Definition returns {F W} (callback : Callback F W) : Prop :=
  forall frame now w, snd (callback frame now w) = Returned.

(** [time.sleep] accepts the wait of every turn. *)
Definition accepted_waits {host : Host} (frame_interval : float)
    (clock : nat -> Tick) : Prop :=
  forall n, sleep (sleep_time frame_interval (clock n)) = Ok tt.

(** A clock that ticks every 0.25 s of work, one second apart. *)
Definition steady : nat -> Tick :=
  fun n => mkTick 100 (timedelta_seconds (Z.of_nat n)) 100.25.


(** A callback that counts the frames it gets. *)
Definition counting : Callback nat nat := fun _ _ w => (S w, Returned).

(** A capture with three frames, then a failed read, then one more. *)
Definition camera : Capture nat :=
  mkCapture true [Some 7; Some 8; Some 9; None; Some 10]%nat false.

End Rtsp.

(** ** The orchestrator ([main.BACKUP.py], [signal_handler] and
    [process_frame]) *)

Module Main.

(** What [process_frame] reads and writes besides the frame: the flag
    [shutdown_requested], the sleeping detector, what the webhook sender did
    for each alert, and the alerts saved in the local log. *)
Record Pipeline : Type := mkPipeline {
  shutdown_requested : bool;
  detector : State;
  deliveries : list (Alert * list event);
  logs : list Alert
}.

(** The surroundings of [process_frame]: the two configured objects, how
    the endpoint answers the attempts for the alert raised at an instant,
    and whether saving the log of that alert raises. *)
Record Setup : Type := mkSetup {
  detector_config : Config;
  webhook : WebhookSender;
  endpoint_at : datetime -> Endpoint;
  save_log_at : datetime -> result unit
}.

(** [signal_handler]. *)
Definition signal_handler (p : Pipeline) : Pipeline :=
  mkPipeline true (detector p) (deliveries p) (logs p).

(** [process_frame], with the one detector that [main] builds. The [try]
    catches what [send_alert] and the saving of the log raise. *)
Definition process_frame {host : Host} (setup : Setup)
    : Rtsp.Callback Frame Pipeline :=
  fun frame now p =>
    if shutdown_requested p then (p, Rtsp.Returned)
    else
      let (detector', alert) :=
        detect_sleeping_person (detector_config setup) (detector p) frame now in
      match alert with
      | None =>
          (mkPipeline false detector' (deliveries p) (logs p), Rtsp.Returned)
      | Some a =>
          let (sent, trace) := send_alert (webhook setup) (endpoint_at setup now) in
          let delivered := deliveries p ++ [(a, trace)] in
          match sent, save_log_at setup now with
          | Ok _, Ok _ =>
              (mkPipeline false detector' delivered (logs p ++ [a]),
               Rtsp.Returned)
          | _, _ => (mkPipeline false detector' delivered (logs p), Rtsp.Returned)
          end
      end.

(** [process_frame] on the frames of some calls, in order. *)
Fixpoint feed {host : Host} (setup : Setup) (p : Pipeline)
    (calls : list (Frame * datetime)) : Pipeline :=
  match calls with
  | [] => p
  | (frame, now) :: calls' =>
      feed setup (fst (process_frame setup frame now p)) calls'
  end.

(** The alerts among the results of a run. *)
Fixpoint alerts (results : list (option Alert)) : list Alert :=
  match results with
  | [] => []
  | Some a :: rest => a :: alerts rest
  | None :: rest => alerts rest
  end.

Definition fresh : Pipeline := mkPipeline false init [] [].

Definition setup : Setup :=
  mkSetup Scenario.defaults Scenario.sender (fun _ => Scenario.recovering)
          (fun _ => Ok tt).

(** A capture that shows a lying person three times, then fails. *)
Definition bedroom : Rtsp.Capture Frame :=
  Rtsp.mkCapture true
    [Some (Scenario.lying Scenario.half); Some (Scenario.lying Scenario.half);
     Some (Scenario.lying Scenario.half); None]
    false.

End Main.

Module MoreSetups.


(** A pipeline whose detector has seen three lying persons. *)
Definition primed : Main.Pipeline :=
  Main.mkPipeline false Scenario.after_three [] [].

(** The surroundings with an endpoint that is down. *)
Definition offline : Main.Setup :=
  Main.mkSetup Scenario.defaults Scenario.sender (fun _ => Scenario.down)
               (fun _ => Ok tt).

(** The same with a sender whose retry_delay is negative. *)
Definition offline_hasty : Main.Setup :=
  Main.mkSetup Scenario.defaults MoreSenders.hasty (fun _ => Scenario.down)
               (fun _ => Ok tt).

(** The same with a sender whose retry_delay is 9223372037 s. *)
Definition offline_patient : Main.Setup :=
  Main.mkSetup Scenario.defaults MoreSenders.patient (fun _ => Scenario.down)
               (fun _ => Ok tt).

(** The same with the longest retry_delay that [time.sleep] converts. *)
Definition offline_lasting : Main.Setup :=
  Main.mkSetup Scenario.defaults MoreSenders.lasting (fun _ => Scenario.down)
               (fun _ => Ok tt).

End MoreSetups.

(** ** Hosts *)

Module Hosts.

(** CPython 3.11 on a Linux host whose monotonic clock reads [reading]
    nanoseconds when a wait starts: the timer takes a wait that ends before
    the clock reaches 9223372036 seconds, and raises [OSError] for a longer
    one. A length of [2^63] nanoseconds, which only a [float] gives, does
    not reach the timer: its conversion to 64 bits wraps to [-2^63], and
    [time.sleep] raises the [ValueError] of a negative length. *)
Definition linux (reading : Z) : Host :=
  {| timer := fun n =>
       if 9223372036854775808 <=? n then Raise ValueError
       else if reading + n <? 9223372036 * 1000000000 then Ok tt
       else Raise OSError |}.

(** The host of the closed statements below that name none: the clock
    reads 13962 seconds. *)
#[global] Instance server : Host := linux 13962000000000.

End Hosts.

(** * Properties *)

(** ** Numbers *)

Module PyNumFacts.
Import PyNum.

(** Ceiling division: [- ((- v) / d)] is the least integer [c] with
    [v <= c * d]. *)
Lemma ceil_div_le (v d n : Z) :
  0 < d -> (- ((- v) / d) <=? n) = (v <=? n * d).
Proof.
  intros Hd.
  destruct (Z.leb_spec v (n * d)) as [Hle | Hgt].
  - apply Z.leb_le.
    assert (- n <= (- v) / d) by (apply Z.div_le_lower_bound; lia).
    lia.
  - apply Z.leb_gt.
    assert ((- v) / d < - n) by (apply Z.div_lt_upper_bound; lia).
    lia.
Qed.

(** An [int] is at least a float exactly when it is at least the float's
    ceiling. *)
Lemma int_ge_float_ceil (n : Z) (x : float) (c : Z) :
  ceil x = Some c -> int_ge_float n x = (c <=? n).
Proof.
  unfold ceil, int_ge_float.
  destruct (Prim2SF x) as [s | s | | s m e]; try discriminate.
  - intros [= <-]. reflexivity.
  - destruct (0 <=? e) eqn:He; intros [= <-].
    + reflexivity.
    + symmetry. apply ceil_div_le.
      apply Z.pow_pos_nonneg; [lia | apply Z.leb_gt in He; lia].
Qed.

End PyNumFacts.

(** ** The detector: what a call can do *)

Section DetectorFacts.

Variable cfg : Config.

(** A throttled call returns [None] and leaves the state as it is. *)
Lemma detect_throttled self frame timestamp :
  should_check_frame cfg self timestamp = false ->
  detect_sleeping_person cfg self frame timestamp = (self, None).
Proof.
  intros H. unfold detect_sleeping_person. rewrite H. reflexivity.
Qed.

Lemma check_persistence_state timestamp self :
  fst (_check_persistence cfg timestamp self) = self.
Proof.
  unfold _check_persistence.
  destruct (_ <? _)%nat; [reflexivity |].
  destruct (datetime_minus_seconds _ _); [| reflexivity].
  destruct (threshold cfg); reflexivity.
Qed.

(** A cutoff that is computed is the instant less the length. *)
Lemma datetime_minus_seconds_ok t n cutoff :
  datetime_minus_seconds t n = Ok cutoff -> cutoff = t - timedelta_seconds n.
Proof.
  unfold datetime_minus_seconds.
  destruct (negb (timedelta_in_range n)); [discriminate |].
  destruct (datetime_in_range _); [| discriminate].
  intros [= <-]. reflexivity.
Qed.

(** It is computed when the length is one of a [timedelta] and the result
    is a [datetime]. *)
Lemma datetime_minus_seconds_in_range t n :
  timedelta_in_range n = true ->
  datetime_in_range (t - timedelta_seconds n) = true ->
  datetime_minus_seconds t n = Ok (t - timedelta_seconds n).
Proof.
  intros Hn Ht. unfold datetime_minus_seconds. rewrite Hn, Ht. reflexivity.
Qed.

Lemma detect_outcome self frame timestamp :
  let (self', r) := detect_sleeping_person cfg self frame timestamp in
  outcome cfg self frame timestamp self' r.
Proof.
  unfold detect_sleeping_person.
  destruct (should_check_frame cfg self timestamp) eqn:Hgate; cbn [negb];
    [| now apply Throttled].
  destruct (in_cooldown _ timestamp) eqn:Hcool;
    [now apply Suppressed |].
  change (in_cooldown self timestamp = false) in Hcool.
  unfold detect_body, bind, lift, ret, get, put.
  destruct (best_detection cfg frame timestamp) as [[cand |] | e] eqn:Hbest;
    try (apply NotStored; [assumption | assumption | intros; congruence]).
  destruct (truthy_box (c_box cand)) as [box |] eqn:Hbox;
    [| apply NotStored; [assumption | assumption | intros; congruence]].
  destruct (_analyze_orientation box) as [[|] | e] eqn:Hor;
    try (apply NotStored; [assumption | assumption | intros; congruence]).
  cbn [Orientation_eqb _add_to_history detections_history last_check_time
       alert_cooldown_until].
  match goal with
  | |- context [_check_persistence cfg timestamp ?st] =>
      pose proof (check_persistence_state timestamp st) as Hst;
      destruct (_check_persistence cfg timestamp st) as [st' [[|] | e]] eqn:Hper;
      cbn [fst] in Hst; subst st'
  end.
  - eapply (Fired _ _ _ _ cand box); try eassumption.
    cbv zeta. unfold history_after_add. rewrite Hper. reflexivity.
  - eapply (Stored _ _ _ _ cand box); try eassumption.
    cbv zeta. unfold history_after_add. rewrite Hper. cbn. congruence.
  - eapply (Stored _ _ _ _ cand box); try eassumption.
    cbv zeta. unfold history_after_add. rewrite Hper. cbn. congruence.
Qed.

End DetectorFacts.

(** Case analysis on a call: one goal per constructor of [outcome], with the
    facts of the case named [Hg] (interval gate), [Hc] (cooldown), [Hno]
    (nothing to store), [Hb] (the candidate [c]), [Ht] (its box [b]), [Ho]
    (the orientation) and [Hp] (the persistence test). *)
Ltac call_cases cfg self frame now :=
  let Hout := fresh "Hout" in
  pose proof (detect_outcome cfg self frame now) as Hout;
  destruct (detect_sleeping_person cfg self frame now) as [? ?];
  inversion Hout as [Hg | Hg Hc | Hg Hc Hno | c b Hg Hc Hb Ht Ho d h st Hp
                     | c b Hg Hc Hb Ht Ho d h st Hp];
  subst.

(** ** Cooldown *)

Section Cooldown.

Variable cfg : Config.

(** A call never shortens a cooldown, and returns [None] when its
    timestamp is before the end of the cooldown. *)
Lemma cooling_step bound self frame timestamp :
  cooling_until bound self ->
  cooling_until bound (fst (detect_sleeping_person cfg self frame timestamp))
  /\ (timestamp < bound ->
      snd (detect_sleeping_person cfg self frame timestamp) = None).
Proof.
  intros (until & Hset & Hle).
  assert (Hcool : in_cooldown self timestamp = false -> until <= timestamp).
  { unfold in_cooldown. rewrite Hset. intros H. apply Z.ltb_ge in H. exact H. }
  call_cases cfg self frame timestamp;
    try subst st; unfold cooling_until; cbn [fst snd alert_cooldown_until].
  - split; [exists until; split; assumption | reflexivity].
  - split; [exists until; split; assumption | reflexivity].
  - split; [exists until; split; assumption | reflexivity].
  - split; [exists until; split; assumption | reflexivity].
  - specialize (Hcool Hc). unfold timedelta_seconds. split.
    + exists (timestamp + 30 * 1000000). split; [reflexivity | lia].
    + intros Hlt. lia.
Qed.

Lemma cooling_run bound calls : forall self,
  cooling_until bound self ->
  Forall2 (fun call r => snd call < bound -> r = None)
          calls (snd (run cfg self calls)).
Proof.
  induction calls as [| [frame timestamp] calls IH]; intros self Hc; cbn [run].
  - constructor.
  - destruct (cooling_step bound self frame timestamp Hc) as [Hc' Hnone].
    destruct (detect_sleeping_person cfg self frame timestamp) as [self' r].
    cbn [fst snd] in Hc', Hnone.
    specialize (IH self' Hc').
    destruct (run cfg self' calls) as [self'' rs]. cbn [snd] in IH |- *.
    constructor; [exact Hnone | exact IH].
Qed.

(** C1. Cooldown idempotence: when a call at [T] returns an alert, the
    state it leaves has [alert_cooldown_until = T + 30 s] (the cooldown
    duration of the code), and in every continuation of the run each call
    whose timestamp is strictly before [T + 30 s] returns [None], whatever
    the frames show. *)
Theorem cooldown_idempotence self frame T self1 alert :
  detect_sleeping_person cfg self frame T = (self1, Some alert) ->
  alert_cooldown_until self1 = Some (T + timedelta_seconds 30)
  /\ forall calls,
       Forall2 (fun call r => snd call < T + timedelta_seconds 30 -> r = None)
               calls (snd (run cfg self1 calls)).
Proof.
  intros Hfire.
  pose proof (detect_outcome cfg self frame T) as Hout.
  rewrite Hfire in Hout.
  inversion Hout; subst. cbn [alert_cooldown_until].
  split; [reflexivity |].
  intros calls. apply cooling_run.
  exists (T + timedelta_seconds 30). split; [reflexivity | lia].
Qed.

End Cooldown.

(** A run with an alert: the fourth lying person in a row, at second 6,
    raises it, and the cooldown runs until second 36. *)
Lemma cooldown_idempotence_witness :
  alert_cooldown_until Scenario.after_alert = Some (Scenario.at_s 36)
  /\ forall calls,
       Forall2 (fun call r => snd call < Scenario.at_s 36 -> r = None)
               calls (snd (run Scenario.defaults Scenario.after_alert calls)).
Proof.
  exact (cooldown_idempotence Scenario.defaults Scenario.after_three
           (Scenario.lying Scenario.half) (Scenario.at_s 6)
           Scenario.after_alert
           (mkAlert (Scenario.at_s 6) (Some Scenario.lying_box) horizontal
                    "person sleeping" Scenario.half 4 10)
           eq_refl).
Defined.

(** ** The persistence test *)

Section Persistence.

Variable cfg : Config.

(** What a positive [_check_persistence] means. *)
Lemma check_persistence_true now self :
  snd (_check_persistence cfg now self) = Ok true ->
  (2 <= List.length (detections_history self))%nat
  /\ exists thr,
       threshold cfg = Ok thr
       /\ PyNum.int_ge_float
            (Z.of_nat (List.length
               (recent_detections cfg (detections_history self) now)))
            thr = true.
Proof.
  unfold _check_persistence.
  destruct (_ <? 2)%nat eqn:Hlen; cbn [snd]; [discriminate |].
  apply Nat.ltb_ge in Hlen.
  destruct (datetime_minus_seconds now (persistence_seconds cfg))
    as [cutoff | e] eqn:Hcut; cbn [snd]; [| discriminate].
  apply datetime_minus_seconds_ok in Hcut. subst cutoff.
  destruct (threshold cfg) as [thr | e]; cbn [snd]; [| discriminate].
  intros [= Hge]. split; [exact Hlen |].
  exists thr. split; [reflexivity | exact Hge].
Qed.

(** An alert comes with a positive [_check_persistence] on the state the
    call leaves. *)
Lemma fired_persisted self frame now self' alert :
  detect_sleeping_person cfg self frame now = (self', Some alert) ->
  snd (_check_persistence cfg now self') = Ok true.
Proof.
  intros Hfire.
  pose proof (detect_outcome cfg self frame now) as Hout.
  rewrite Hfire in Hout.
  inversion Hout as [ | | | | c b Hg Hc Hb Ht Ho d h st Hp]; subst.
  unfold _check_persistence in Hp |- *.
  cbn [detections_history] in Hp |- *.
  destruct (_ <? 2)%nat; [exact Hp |].
  destruct (datetime_minus_seconds _ _); [| exact Hp].
  destruct (threshold cfg); exact Hp.
Qed.

(** The threshold, when the quotient is defined, is the product written in
    the source. *)
Lemma threshold_formula thr :
  threshold cfg = Ok thr ->
  check_interval cfg <> 0
  /\ thr = (PyNum.int_to_float (persistence_seconds cfg)
            / PyNum.int_to_float (check_interval cfg)
            * 0x1.6666666666666p-1)%float.
Proof.
  unfold threshold, PyNum.int_truediv.
  destruct (check_interval cfg =? 0) eqn:Hci; [discriminate |].
  intros [= <-]. split; [| reflexivity].
  apply Z.eqb_neq. exact Hci.
Qed.

End Persistence.

(** Fed through [detect_sleeping_person] from the initial state, lying
    persons at seconds 0, 2, 4, 6, 8 raise the alert as soon as four samples
    are there, at second 6; the call of second 8 falls in the cooldown. *)
Lemma five_lying_frames_run :
  snd (run Scenario.defaults init
         [(Scenario.lying Scenario.half, Scenario.at_s 0);
          (Scenario.lying Scenario.half, Scenario.at_s 2);
          (Scenario.lying Scenario.half, Scenario.at_s 4);
          (Scenario.lying Scenario.half, Scenario.at_s 6);
          (Scenario.lying Scenario.half, Scenario.at_s 8)])
  = [None; None; None;
     Some (mkAlert (Scenario.at_s 6) (Some Scenario.lying_box) horizontal
                   "person sleeping" Scenario.half 4 10);
     None].
Proof. vm_compute. reflexivity. Qed.

(** C2. Persistence count threshold. Write [count] for the number of
    samples of the history that are horizontal and have timestamp > now -
    persistence_seconds (strictly), and [thr] for the float
    [(persistence_seconds / check_interval) * 0.7].
    (1) A call returns an alert only when check_interval is not 0 and
    [count >= thr], hence only when [count] is at least the ceiling
    [required] of [thr].
    (2) Once the history holds two samples, and for a configuration whose
    cutoff now - persistence_seconds is a datetime and whose check_interval
    is not 0 and converts exactly to a float, [_check_persistence] answers
    exactly whether [count] reaches [required].
    (3) [thr] is 3.5 and [required] 4 with persistence_seconds = 10 and
    check_interval = 2; they are 2.3333333333333335 and 3 with 10 and 3, and
    62.99999999999999 and 63 with 90 and 1.
    (4) With the defaults: five qualifying samples at seconds 0, 2, 4, 6, 8
    evaluated at second 8 pass the test, and from the state that holds the
    first four the call at second 8 that brings the fifth returns an alert;
    three qualifying samples at seconds 0, 2, 4 evaluated at second 8 do not
    pass, and a call at second 8 returns [None].
    (5) The window is open on the side of the past: of the samples at
    seconds 0, 2, 4, 6 evaluated with the defaults, all four count at second
    9, and the one of second 0 does not count at second 10, where the test
    fails.
    (6) With persistence_seconds = 10 and check_interval = 3, lying persons
    seen at seconds 0, 3 and 6 raise the alert at second 6, on the third
    sample. *)
Theorem persistence_count_threshold :
  (forall cfg self frame now self' alert,
      detect_sleeping_person cfg self frame now = (self', Some alert) ->
      let count :=
        Z.of_nat (List.length
          (filter (fun d =>
                     (now - timedelta_seconds (persistence_seconds cfg)
                      <? d_timestamp d)
                     && Orientation_eqb (orientation d) horizontal)
                  (detections_history self'))) in
      let thr :=
        (PyNum.int_to_float (persistence_seconds cfg)
         / PyNum.int_to_float (check_interval cfg)
         * 0x1.6666666666666p-1)%float in
      check_interval cfg <> 0
      /\ PyNum.int_ge_float count thr = true
      /\ forall required, PyNum.ceil thr = Some required -> required <= count)
  /\ (forall cfg now self required,
         check_interval cfg <> 0 ->
         Z.abs (check_interval cfg) < 2 ^ 53 ->
         timedelta_in_range (persistence_seconds cfg) = true ->
         datetime_in_range (now - timedelta_seconds (persistence_seconds cfg))
         = true ->
         PyNum.ceil (PyNum.int_to_float (persistence_seconds cfg)
                     / PyNum.int_to_float (check_interval cfg)
                     * 0x1.6666666666666p-1)%float
         = Some required ->
         (2 <= List.length (detections_history self))%nat ->
         snd (_check_persistence cfg now self)
         = Ok (required
               <=? Z.of_nat (List.length
                     (filter (fun d =>
                                (now - timedelta_seconds (persistence_seconds cfg)
                                 <? d_timestamp d)
                                && Orientation_eqb (orientation d) horizontal)
                             (detections_history self)))))
  /\ (threshold Scenario.defaults = Ok 3.5%float
      /\ PyNum.ceil 3.5 = Some 4)
  /\ (threshold MoreScenarios.every_three = Ok 0x1.2aaaaaaaaaaabp+1%float
      /\ PyNum.ceil 0x1.2aaaaaaaaaaabp+1 = Some 3)
  /\ (threshold MoreScenarios.long_persistence = Ok 0x1.f7fffffffffffp+5%float
      /\ PyNum.ceil 0x1.f7fffffffffffp+5 = Some 63)
  /\ snd (_check_persistence Scenario.defaults (Scenario.at_s 8)
            (mkState Scenario.five_samples (Some (Scenario.at_s 8)) None))
     = Ok true
  /\ snd (detect_sleeping_person Scenario.defaults
            (mkState Scenario.four_samples (Some (Scenario.at_s 6)) None)
            (Scenario.lying Scenario.half) (Scenario.at_s 8))
     = Some (mkAlert (Scenario.at_s 8) (Some Scenario.lying_box) horizontal
                     "person sleeping" Scenario.half 5 10)
  /\ snd (_check_persistence Scenario.defaults (Scenario.at_s 8)
            (mkState Scenario.three_samples (Some (Scenario.at_s 4)) None))
     = Ok false
  /\ snd (detect_sleeping_person Scenario.defaults
            (mkState Scenario.three_samples (Some (Scenario.at_s 4)) None)
            Scenario.empty_frame (Scenario.at_s 8))
     = None
  /\ snd (_check_persistence Scenario.defaults (Scenario.at_s 9)
            (mkState Scenario.four_samples (Some (Scenario.at_s 6)) None))
     = Ok true
  /\ snd (_check_persistence Scenario.defaults (Scenario.at_s 10)
            (mkState Scenario.four_samples (Some (Scenario.at_s 6)) None))
     = Ok false
  /\ snd (run MoreScenarios.every_three init
            [(Scenario.lying Scenario.half, Scenario.at_s 0);
             (Scenario.lying Scenario.half, Scenario.at_s 3);
             (Scenario.lying Scenario.half, Scenario.at_s 6)])
     = [None; None;
        Some (mkAlert (Scenario.at_s 6) (Some Scenario.lying_box) horizontal
                      "person sleeping" Scenario.half 3 10)].
Proof.
  split; [| split; [| repeat split; vm_compute; reflexivity]].
  - intros cfg self frame now self' alert Hfire. cbv zeta.
    apply fired_persisted in Hfire.
    apply check_persistence_true in Hfire as (_ & thr & Hthr & Hge).
    apply threshold_formula in Hthr as [Hci ->].
    split; [exact Hci | split; [exact Hge |]].
    intros required Hceil.
    rewrite (PyNumFacts.int_ge_float_ceil _ _ _ Hceil) in Hge.
    apply Z.leb_le. exact Hge.
  - intros cfg now self required Hci _ Hp Hcut Hceil Hlen.
    unfold _check_persistence.
    apply Nat.ltb_ge in Hlen. rewrite Hlen.
    rewrite (datetime_minus_seconds_in_range _ _ Hp Hcut).
    unfold threshold, PyNum.int_truediv.
    apply Z.eqb_neq in Hci. rewrite Hci. cbn [snd].
    rewrite (PyNumFacts.int_ge_float_ceil _ _ _ Hceil). reflexivity.
Qed.

(** The alert at second 6 of the run of [Scenario.after_alert] meets the
    hypothesis of the first part: four samples lie in the window, and four
    are required. The history of five samples and the defaults meet those of
    the second. *)
Lemma persistence_count_threshold_witness :
  (check_interval Scenario.defaults <> 0
   /\ PyNum.int_ge_float
        (Z.of_nat (List.length
           (filter (fun d =>
                      (Scenario.at_s 6 - timedelta_seconds 10 <? d_timestamp d)
                      && Orientation_eqb (orientation d) horizontal)
                   (detections_history Scenario.after_alert))))
        (PyNum.int_to_float 10 / PyNum.int_to_float 2
         * 0x1.6666666666666p-1)%float
      = true
   /\ forall required,
        PyNum.ceil (PyNum.int_to_float 10 / PyNum.int_to_float 2
                    * 0x1.6666666666666p-1)%float = Some required ->
        required
        <= Z.of_nat (List.length
             (filter (fun d =>
                        (Scenario.at_s 6 - timedelta_seconds 10 <? d_timestamp d)
                        && Orientation_eqb (orientation d) horizontal)
                     (detections_history Scenario.after_alert))))
  /\ snd (_check_persistence Scenario.defaults (Scenario.at_s 8)
            (mkState Scenario.five_samples (Some (Scenario.at_s 8)) None))
     = Ok (4 <=? 5).
Proof.
  split.
  - apply (proj1 persistence_count_threshold Scenario.defaults
             Scenario.after_three (Scenario.lying Scenario.half)
             (Scenario.at_s 6) Scenario.after_alert
             (mkAlert (Scenario.at_s 6) (Some Scenario.lying_box) horizontal
                      "person sleeping" Scenario.half 4 10)).
    reflexivity.
  - apply (proj1 (proj2 persistence_count_threshold) Scenario.defaults
             (Scenario.at_s 8)
             (mkState Scenario.five_samples (Some (Scenario.at_s 8)) None)
             4).
    + discriminate.
    + reflexivity.
    + reflexivity.
    + reflexivity.
    + reflexivity.
    + cbn. lia.
Defined.

(** ** The minimum of two samples and the sample an alert carries *)

Section FiredFacts.

Variable cfg : Config.

(** The candidates the scan of a frame builds carry the timestamp of the
    call and a score above the confidence threshold. *)
Lemma scan_scores_candidate prompt out now rest : forall i acc,
  (forall c, snd acc = Some c ->
             c_timestamp c = now
             /\ (confidence_threshold cfg <? c_score c)%float = true) ->
  forall c, snd (scan_scores cfg prompt out now i rest acc) = Some c ->
            c_timestamp c = now
            /\ (confidence_threshold cfg <? c_score c)%float = true.
Proof.
  induction rest as [| score rest IH]; intros i acc Hacc; cbn [scan_scores].
  - exact Hacc.
  - apply IH.
    destruct ((confidence_threshold cfg <? score) && (fst acc <? score))%float
      eqn:Hbetter.
    + intros c [= <-]. cbn. split; [reflexivity |].
      apply andb_prop in Hbetter. apply Hbetter.
    + exact Hacc.
Qed.

Lemma scan_prompts_candidate frame now prompts : forall acc acc',
  scan_prompts cfg frame now prompts acc = Ok acc' ->
  (forall c, snd acc = Some c ->
             c_timestamp c = now
             /\ (confidence_threshold cfg <? c_score c)%float = true) ->
  forall c, snd acc' = Some c ->
            c_timestamp c = now
            /\ (confidence_threshold cfg <? c_score c)%float = true.
Proof.
  induction prompts as [| prompt prompts IH]; intros acc acc'; cbn [scan_prompts].
  - intros [= <-] Hacc. exact Hacc.
  - destruct (set_text_prompt frame prompt) as [out | e]; [| discriminate].
    intros Hscan Hacc. eapply IH; [exact Hscan |].
    apply scan_scores_candidate. exact Hacc.
Qed.

Lemma best_detection_candidate frame now cand :
  best_detection cfg frame now = Ok (Some cand) ->
  c_timestamp cand = now
  /\ (confidence_threshold cfg <? c_score cand)%float = true.
Proof.
  unfold best_detection.
  destruct (set_image frame); [| discriminate].
  destruct (scan_prompts cfg frame now sleep_prompts (0%float, None))
    as [[best_score best] | e] eqn:Hscan; [| discriminate].
  intros [= ->].
  eapply (scan_prompts_candidate _ _ _ _ _ Hscan); [| reflexivity].
  cbn. discriminate.
Qed.

(** The appended detection survives the pruning of [_add_to_history]: it
    is the last entry of the new history. *)
Lemma history_after_add_last self detection :
  history_after_add self detection
  = filter (fun d => d_timestamp detection - timedelta_seconds 60 <? d_timestamp d)
           (detections_history self)
    ++ [detection].
Proof.
  unfold history_after_add. rewrite filter_app. cbn [filter].
  replace (_ <? d_timestamp detection) with true; [reflexivity |].
  symmetry. apply Z.ltb_lt. unfold timedelta_seconds. lia.
Qed.

(** Every retained sample is younger than 60 s, counted from the appended
    detection. *)
Lemma history_after_add_pruned self detection :
  Forall (fun d => d_timestamp detection - timedelta_seconds 60 < d_timestamp d)
         (history_after_add self detection).
Proof.
  unfold history_after_add. apply Forall_forall. intros d Hin.
  apply filter_In in Hin. apply Z.ltb_lt. apply Hin.
Qed.

End FiredFacts.

(** C4, as the code has it. An alert requires the History Window as the call
    leaves it (the samples retained for 60 s, the new one included) to hold
    at least 2 samples; the samples need not lie in the persistence window. *)
Theorem minimum_two_in_history cfg self frame now self' alert :
  detect_sleeping_person cfg self frame now = (self', Some alert) ->
  (2 <= List.length (detections_history self'))%nat.
Proof.
  intros Hfire. apply fired_persisted in Hfire.
  apply check_persistence_true in Hfire. apply Hfire.
Qed.

Lemma minimum_two_in_history_witness :
  (2 <= List.length (detections_history Scenario.after_alert))%nat.
Proof.
  apply (minimum_two_in_history Scenario.defaults Scenario.after_three
           (Scenario.lying Scenario.half) (Scenario.at_s 6)
           Scenario.after_alert
           (mkAlert (Scenario.at_s 6) (Some Scenario.lying_box) horizontal
                    "person sleeping" Scenario.half 4 10)).
  reflexivity.
Defined.

(** C4 as stated fails. With persistence_seconds = 2 and check_interval = 2
    the count threshold is [(2 / 2) * 0.7 = 0.7]: a lying person seen at
    second 0 and again at second 10 raises an alert at second 10, although a
    single sample lies in the persistence window (the history holds two). *)
Lemma minimum_sample_guard_counterexample :
  snd (detect_sleeping_person Scenario.short_persistence
         (Scenario.after_first Scenario.short_persistence)
         (Scenario.lying Scenario.half) (Scenario.at_s 10))
  = Some (mkAlert (Scenario.at_s 10) (Some Scenario.lying_box) horizontal
                  "person sleeping" Scenario.half 2 2)
  /\ recent_detections Scenario.short_persistence
       (detections_history
          (fst (detect_sleeping_person Scenario.short_persistence
                  (Scenario.after_first Scenario.short_persistence)
                  (Scenario.lying Scenario.half) (Scenario.at_s 10))))
       (Scenario.at_s 10)
     = [Scenario.sample Scenario.half 10].
Proof.
  split; vm_compute; reflexivity.
Qed.

(** C5, as the code has it. The alert carries the detection of the current
    frame: the candidate [best_detection] returns for this call, whose score
    is above the threshold and whose timestamp is that of the call; it is
    also the sample this call has just appended, the last entry of the
    history. *)
Theorem alert_carries_current_sample cfg self frame now self' alert :
  detect_sleeping_person cfg self frame now = (self', Some alert) ->
  exists cand older,
    best_detection cfg frame now = Ok (Some cand)
    /\ c_timestamp cand = now
    /\ (confidence_threshold cfg <? c_score cand)%float = true
    /\ detections_history self' = older ++ [mkDetection cand horizontal]
    /\ confidence_score alert = c_score cand
    /\ bounding_box alert = c_box cand
    /\ prompt_used alert = c_prompt cand
    /\ when alert = now.
Proof.
  intros Hfire.
  pose proof (detect_outcome cfg self frame now) as Hout.
  rewrite Hfire in Hout.
  inversion Hout as [ | | | | c b Hg Hc Hb Ht Ho d h st Hp]; subst.
  destruct (best_detection_candidate cfg frame now c Hb) as [Hts Hscore].
  exists c. eexists. split; [exact Hb |].
  split; [exact Hts |]. split; [exact Hscore |].
  split; [apply history_after_add_last |].
  repeat split.
Qed.

Lemma alert_carries_current_sample_witness :
  exists cand older,
    best_detection Scenario.defaults (Scenario.lying Scenario.half)
      (Scenario.at_s 6) = Ok (Some cand)
    /\ c_timestamp cand = Scenario.at_s 6
    /\ (confidence_threshold Scenario.defaults <? c_score cand)%float = true
    /\ detections_history Scenario.after_alert
       = older ++ [mkDetection cand horizontal]
    /\ Scenario.half = c_score cand
    /\ Some Scenario.lying_box = c_box cand
    /\ "person sleeping"%string = c_prompt cand
    /\ Scenario.at_s 6 = Scenario.at_s 6.
Proof.
  apply (alert_carries_current_sample Scenario.defaults Scenario.after_three
           (Scenario.lying Scenario.half) (Scenario.at_s 6)
           Scenario.after_alert
           (mkAlert (Scenario.at_s 6) (Some Scenario.lying_box) horizontal
                    "person sleeping" Scenario.half 4 10)).
  reflexivity.
Defined.

(** C5 as stated fails. In the run of [Scenario.after_alert] the sample of
    second 0 has score 0.9 and still lies in the persistence window at second
    6, yet the alert of second 6 carries the score 0.5 of the frame of second
    6. *)
Lemma best_sample_counterexample :
  snd (detect_sleeping_person Scenario.defaults Scenario.after_three
         (Scenario.lying Scenario.half) (Scenario.at_s 6))
  = Some (mkAlert (Scenario.at_s 6) (Some Scenario.lying_box) horizontal
                  "person sleeping" Scenario.half 4 10)
  /\ In (Scenario.sample Scenario.high 0)
        (recent_detections Scenario.defaults
           (detections_history Scenario.after_alert) (Scenario.at_s 6))
  /\ (Scenario.half <? d_score (Scenario.sample Scenario.high 0))%float = true.
Proof.
  split; [vm_compute; reflexivity |].
  split; [vm_compute; left; reflexivity | vm_compute; reflexivity].
Qed.

(** ** Ingestion: the interval gate, the cooldown and the pruning *)

Section Ingestion.

Variable cfg : Config.

(** A call that passes the interval gate records its timestamp. *)
Lemma accepted_call_sets_last_check self frame now :
  should_check_frame cfg self now = true ->
  last_check_time (fst (detect_sleeping_person cfg self frame now)) = Some now.
Proof.
  intros Hgate.
  pose proof (detect_outcome cfg self frame now) as Hout.
  destruct (detect_sleeping_person cfg self frame now) as [self' r].
  inversion Hout; subst; try congruence; reflexivity.
Qed.

(** A call outside the gates whose frame yields a horizontal detection
    appends it and prunes. *)
Lemma detect_appends self frame now cand box :
  should_check_frame cfg self now = true ->
  in_cooldown self now = false ->
  best_detection cfg frame now = Ok (Some cand) ->
  truthy_box (c_box cand) = Some box ->
  _analyze_orientation box = Ok horizontal ->
  detections_history (fst (detect_sleeping_person cfg self frame now))
  = history_after_add self (mkDetection cand horizontal).
Proof.
  intros Hgate Hcool Hbest Hbox Hor.
  call_cases cfg self frame now;
    try congruence.
  - exfalso. exact (Hno cand box Hbest Hbox Hor).
  - assert (c = cand) by congruence. subst c. reflexivity.
  - assert (c = cand) by congruence. subst c. reflexivity.
Qed.

(** Any other call leaves the history as it is and returns [None]. *)
Lemma detect_keeps_history self frame now :
  should_check_frame cfg self now = false
  \/ in_cooldown self now = true
  \/ (forall cand box,
         best_detection cfg frame now = Ok (Some cand) ->
         truthy_box (c_box cand) = Some box ->
         _analyze_orientation box <> Ok horizontal) ->
  detections_history (fst (detect_sleeping_person cfg self frame now))
  = detections_history self
  /\ snd (detect_sleeping_person cfg self frame now) = None.
Proof.
  intros Hcase.
  call_cases cfg self frame now;
    cbn [fst snd detections_history]; try (split; reflexivity);
    exfalso;
    (destruct Hcase as [Hcase | [Hcase | Hcase]];
     [congruence | congruence | exact (Hcase c b Hb Ht Ho)]).
Qed.

Lemma truthy_box_some b box : truthy_box b = Some box -> b = Some box.
Proof.
  destruct b as [[| x l] |]; cbn; intros H; congruence.
Qed.

(** Every call keeps the history made of samples classified horizontal. *)
Lemma lying_sample_step self frame now :
  Forall lying_sample (detections_history self) ->
  Forall lying_sample
         (detections_history (fst (detect_sleeping_person cfg self frame now))).
Proof.
  intros Hall.
  call_cases cfg self frame now;
    try subst st; try subst h; cbn [fst detections_history];
    try exact Hall;
    (unfold history_after_add; apply Forall_forall; intros x Hin;
     apply filter_In in Hin; destruct Hin as [Hin _];
     apply in_app_or in Hin; destruct Hin as [Hin | [<- | []]];
     [ exact (proj1 (Forall_forall _ _) Hall x Hin)
     | split; [reflexivity |]; exists b; split;
       [apply truthy_box_some; exact Ht | exact Ho] ]).
Qed.

Lemma lying_sample_run calls : forall self,
  Forall lying_sample (detections_history self) ->
  Forall lying_sample (detections_history (fst (run cfg self calls))).
Proof.
  induction calls as [| [frame now] calls IH]; intros self Hall; cbn [run].
  - exact Hall.
  - pose proof (lying_sample_step self frame now Hall) as Hstep.
    destruct (detect_sleeping_person cfg self frame now) as [self' r].
    specialize (IH self' Hstep).
    destruct (run cfg self' calls) as [self'' rs]. exact IH.
Qed.

End Ingestion.

(** C6, as the code has it. The pruning is part of the insertion: after a
    call that appends its sample (it passes the interval gate and the
    cooldown, and the frame yields a detection above the threshold whose box
    is horizontal), the history is the old one plus the sample, pruned, and
    no retained sample has timestamp <= now - 60 s. *)
Theorem pruning_on_insertion cfg self frame now cand box :
  should_check_frame cfg self now = true ->
  in_cooldown self now = false ->
  best_detection cfg frame now = Ok (Some cand) ->
  truthy_box (c_box cand) = Some box ->
  _analyze_orientation box = Ok horizontal ->
  detections_history (fst (detect_sleeping_person cfg self frame now))
  = history_after_add self (mkDetection cand horizontal)
  /\ Forall (fun d => now - timedelta_seconds 60 < d_timestamp d)
            (detections_history (fst (detect_sleeping_person cfg self frame now))).
Proof.
  intros Hgate Hcool Hbest Hbox Hor.
  rewrite (detect_appends cfg self frame now cand box Hgate Hcool Hbest Hbox Hor).
  split; [reflexivity |].
  destruct (best_detection_candidate cfg frame now cand Hbest) as [Hts _].
  pose proof (history_after_add_pruned self (mkDetection cand horizontal)) as Hp.
  unfold d_timestamp at 1 in Hp. cbn [candidate] in Hp. rewrite Hts in Hp.
  exact Hp.
Qed.

Lemma pruning_on_insertion_witness :
  detections_history
    (fst (detect_sleeping_person Scenario.defaults
            (Scenario.after_first Scenario.defaults)
            (Scenario.lying Scenario.half) (Scenario.at_s 100)))
  = history_after_add (Scenario.after_first Scenario.defaults)
      (Scenario.sample Scenario.half 100)
  /\ Forall (fun d => Scenario.at_s 100 - timedelta_seconds 60 < d_timestamp d)
            (detections_history
               (fst (detect_sleeping_person Scenario.defaults
                       (Scenario.after_first Scenario.defaults)
                       (Scenario.lying Scenario.half) (Scenario.at_s 100)))).
Proof.
  apply (pruning_on_insertion Scenario.defaults
           (Scenario.after_first Scenario.defaults)
           (Scenario.lying Scenario.half) (Scenario.at_s 100)
           (candidate (Scenario.sample Scenario.half 100))
           Scenario.lying_box);
    reflexivity.
Defined.

(** C6 as stated fails. A sample is stored at second 0; the call at second
    100 passes the interval gate, but its frame scores 0.1, below the
    threshold 0.3, so nothing is appended and nothing is pruned: the sample
    of second 0 is still retained, although 0 <= 100 - 60. *)
Lemma monotonic_pruning_counterexample :
  detect_sleeping_person Scenario.defaults
    (Scenario.after_first Scenario.defaults)
    (Scenario.lying Scenario.low) (Scenario.at_s 100)
  = (mkState [Scenario.sample Scenario.half 0] (Some (Scenario.at_s 100)) None,
     None)
  /\ d_timestamp (Scenario.sample Scenario.half 0)
     <= Scenario.at_s 100 - timedelta_seconds 60.
Proof.
  split; vm_compute; [reflexivity | discriminate].
Qed.

(** C7, as the code has it. The gate measures from the last call that passed
    it: when a call at [now1] passes the interval gate and the next call
    comes at [now2] with now2 - now1 < check_interval seconds, the second
    call returns [None] and leaves the whole state as it was. The interval
    is taken in the range where the float [total_seconds()] of the code
    separates spans one microsecond apart, from -2^34 (excluded) to 2^34
    seconds: there the comparison of the code and the comparison on
    microseconds agree. *)
Theorem throttling_after_accepted_call cfg self frame1 now1 frame2 now2 :
  - 2 ^ 34 < check_interval cfg <= 2 ^ 34 ->
  should_check_frame cfg self now1 = true ->
  now2 - now1 < timedelta_seconds (check_interval cfg) ->
  detect_sleeping_person cfg
    (fst (detect_sleeping_person cfg self frame1 now1)) frame2 now2
  = (fst (detect_sleeping_person cfg self frame1 now1), None).
Proof.
  intros _ Hgate Hlt.
  apply detect_throttled. unfold should_check_frame.
  rewrite (accepted_call_sets_last_check cfg self frame1 now1 Hgate).
  apply Z.leb_gt. exact Hlt.
Qed.

Lemma throttling_after_accepted_call_witness :
  detect_sleeping_person Scenario.defaults
    (fst (detect_sleeping_person Scenario.defaults init
            (Scenario.lying Scenario.half) (Scenario.at_s 0)))
    (Scenario.lying Scenario.half) (Scenario.at_s 1)
  = (fst (detect_sleeping_person Scenario.defaults init
            (Scenario.lying Scenario.half) (Scenario.at_s 0)),
     None).
Proof.
  apply (throttling_after_accepted_call Scenario.defaults init
           (Scenario.lying Scenario.half) (Scenario.at_s 0)
           (Scenario.lying Scenario.half) (Scenario.at_s 1)).
  - cbn. lia.
  - reflexivity.
  - vm_compute. reflexivity.
Defined.

(** C7 as stated fails. With check_interval = 2 the last accepted call is at
    second 0. The call at second 1 is dropped; the call at second 2 follows
    it by 1 s < 2 s, yet it passes the gate (2 - 0 >= 2), sets
    [last_check_time] to second 2 and inserts its sample. *)
Lemma throttling_counterexample :
  Scenario.at_s 2 - Scenario.at_s 1
    < timedelta_seconds (check_interval Scenario.defaults)
  /\ detect_sleeping_person Scenario.defaults
       (Scenario.after_first Scenario.defaults)
       (Scenario.lying Scenario.half) (Scenario.at_s 1)
     = (Scenario.after_first Scenario.defaults, None)
  /\ detect_sleeping_person Scenario.defaults
       (Scenario.after_first Scenario.defaults)
       (Scenario.lying Scenario.half) (Scenario.at_s 2)
     = (mkState [Scenario.sample Scenario.half 0; Scenario.sample Scenario.half 2]
                (Some (Scenario.at_s 2)) None,
        None)
  /\ last_check_time (Scenario.after_first Scenario.defaults)
     = Some (Scenario.at_s 0).
Proof.
  repeat split; vm_compute; reflexivity.
Qed.

(** C8, as the code has it. A call that passes the interval gate sets
    [last_check_time := now]. During the cooldown that is all it does: the
    sample is not stored and the call returns [None]. Outside the cooldown, a
    detection above the threshold whose box is horizontal is appended. *)
Theorem ingestion_outside_cooldown cfg self frame now :
  should_check_frame cfg self now = true ->
  last_check_time (fst (detect_sleeping_person cfg self frame now)) = Some now
  /\ (in_cooldown self now = true ->
      detect_sleeping_person cfg self frame now
      = (mkState (detections_history self) (Some now)
                 (alert_cooldown_until self), None))
  /\ (in_cooldown self now = false ->
      forall cand box,
        best_detection cfg frame now = Ok (Some cand) ->
        truthy_box (c_box cand) = Some box ->
        _analyze_orientation box = Ok horizontal ->
        detections_history (fst (detect_sleeping_person cfg self frame now))
        = history_after_add self (mkDetection cand horizontal)
        /\ In (mkDetection cand horizontal)
              (detections_history (fst (detect_sleeping_person cfg self frame now)))).
Proof.
  intros Hgate. split; [apply accepted_call_sets_last_check; exact Hgate |].
  split.
  - intros Hcool. unfold detect_sleeping_person. rewrite Hgate. cbn [negb].
    change (in_cooldown (mkState (detections_history self) (Some now)
                                 (alert_cooldown_until self)) now)
      with (in_cooldown self now).
    rewrite Hcool. reflexivity.
  - intros Hcool cand box Hbest Hbox Hor.
    rewrite (detect_appends cfg self frame now cand box Hgate Hcool Hbest Hbox Hor).
    split; [reflexivity |].
    rewrite history_after_add_last. apply in_or_app. right. left. reflexivity.
Qed.

Lemma ingestion_outside_cooldown_witness :
  last_check_time
    (fst (detect_sleeping_person Scenario.defaults Scenario.after_alert
            (Scenario.lying Scenario.half) (Scenario.at_s 8)))
  = Some (Scenario.at_s 8)
  /\ detect_sleeping_person Scenario.defaults Scenario.after_alert
       (Scenario.lying Scenario.half) (Scenario.at_s 8)
     = (mkState (detections_history Scenario.after_alert)
                (Some (Scenario.at_s 8))
                (alert_cooldown_until Scenario.after_alert), None).
Proof.
  destruct (ingestion_outside_cooldown Scenario.defaults Scenario.after_alert
              (Scenario.lying Scenario.half) (Scenario.at_s 8) eq_refl)
    as (Hlast & Hcool & _).
  split; [exact Hlast | exact (Hcool eq_refl)].
Defined.

(** C8 as stated fails. After the alert of second 6 the cooldown runs until
    second 36. The call at second 8 passes the interval gate, its frame shows
    a lying person with score 0.5 > 0.3, and the sample is not stored: the
    history keeps the four samples it had. *)
Lemma cooldown_ingestion_counterexample :
  should_check_frame Scenario.defaults Scenario.after_alert (Scenario.at_s 8)
  = true
  /\ best_detection Scenario.defaults (Scenario.lying Scenario.half)
       (Scenario.at_s 8)
     = Ok (Some (candidate (Scenario.sample Scenario.half 8)))
  /\ _analyze_orientation Scenario.lying_box = Ok horizontal
  /\ alert_cooldown_until Scenario.after_alert = Some (Scenario.at_s 36)
  /\ detect_sleeping_person Scenario.defaults Scenario.after_alert
       (Scenario.lying Scenario.half) (Scenario.at_s 8)
     = (mkState [Scenario.sample Scenario.high 0; Scenario.sample Scenario.half 2;
                 Scenario.sample Scenario.half 4; Scenario.sample Scenario.half 6]
                (Some (Scenario.at_s 8)) (Some (Scenario.at_s 36)),
        None).
Proof.
  repeat split; vm_compute; reflexivity.
Qed.

(** ** Orientation *)

(** C10. Degenerate-box totality. (1) [_analyze_orientation] answers, without
    raising, on every box [x1, y1, x2, y2]. (2) When the height is not
    positive (height 0, or not a number) no division happens: the aspect
    ratio is 0 and the box is "vertical". (3) A box is "horizontal" exactly
    when its height is positive and width / height > 1.2. (4) A call whose
    frame yields a box that is not classified "horizontal" leaves the history
    as it is and returns [None]. (5) In every run from the initial state,
    each sample of the history has a box classified "horizontal". *)
Theorem degenerate_box_totality :
  (forall x1 y1 x2 y2,
      _analyze_orientation [x1; y1; x2; y2] = Ok horizontal
      \/ _analyze_orientation [x1; y1; x2; y2] = Ok vertical)
  /\ (forall x1 y1 x2 y2,
         (0 <? PrimFloat.abs (y2 - y1))%float = false ->
         aspect_ratio x1 y1 x2 y2 = 0%float
         /\ _analyze_orientation [x1; y1; x2; y2] = Ok vertical)
  /\ (forall x1 y1 x2 y2,
         _analyze_orientation [x1; y1; x2; y2] = Ok horizontal
         <-> (0 <? PrimFloat.abs (y2 - y1))%float = true
             /\ (0x1.3333333333333p+0
                 <? PrimFloat.abs (x2 - x1) / PrimFloat.abs (y2 - y1))%float
                = true)
  /\ (forall cfg self frame now,
         (forall cand box,
             best_detection cfg frame now = Ok (Some cand) ->
             truthy_box (c_box cand) = Some box ->
             _analyze_orientation box <> Ok horizontal) ->
         detections_history (fst (detect_sleeping_person cfg self frame now))
         = detections_history self
         /\ snd (detect_sleeping_person cfg self frame now) = None)
  /\ (forall cfg calls,
         Forall lying_sample (detections_history (fst (run cfg init calls)))).
Proof.
  split; [| split; [| split; [| split]]].
  - intros x1 y1 x2 y2. unfold _analyze_orientation.
    destruct (_ <? aspect_ratio x1 y1 x2 y2)%float; [left | right]; reflexivity.
  - intros x1 y1 x2 y2 Hflat.
    unfold _analyze_orientation, aspect_ratio. rewrite Hflat.
    split; reflexivity.
  - intros x1 y1 x2 y2. unfold _analyze_orientation, aspect_ratio.
    destruct (0 <? PrimFloat.abs (y2 - y1))%float.
    + destruct (_ <? _)%float; split.
      * intros _. split; reflexivity.
      * reflexivity.
      * discriminate.
      * intros [_ H]. discriminate.
    + split.
      * vm_compute. discriminate.
      * intros [H _]. discriminate.
  - intros cfg self frame now Hnot.
    apply detect_keeps_history. right. right. exact Hnot.
  - intros cfg calls. apply lying_sample_run. constructor.
Qed.

(** A box of height 0 meets the hypothesis of the second part, and a frame
    showing such a box that of the fourth. *)
Lemma degenerate_box_totality_witness :
  (aspect_ratio 0 5 10 5 = 0%float
   /\ _analyze_orientation Scenario.flat_box = Ok vertical)
  /\ (detections_history
        (fst (detect_sleeping_person Scenario.defaults Scenario.after_three
                (Scenario.frame_with Scenario.half Scenario.flat_box)
                (Scenario.at_s 6)))
      = detections_history Scenario.after_three
      /\ snd (detect_sleeping_person Scenario.defaults Scenario.after_three
                (Scenario.frame_with Scenario.half Scenario.flat_box)
                (Scenario.at_s 6))
         = None).
Proof.
  split.
  - apply (proj1 (proj2 degenerate_box_totality) 0 5 10 5)%float.
    reflexivity.
  - apply (proj1 (proj2 (proj2 (proj2 degenerate_box_totality)))
             Scenario.defaults Scenario.after_three
             (Scenario.frame_with Scenario.half Scenario.flat_box)
             (Scenario.at_s 6)).
    intros cand box Hbest Hbox.
    injection Hbest as <-. injection Hbox as <-.
    discriminate.
Defined.

(** ** The webhook sender *)

Section Delivery.

Context {host : Host}.
Variable self : WebhookSender.
Variable endpoint : Endpoint.

Lemma range_from_app a n m :
  range_from a (n + m) = range_from a n ++ range_from (a + Z.of_nat n) m.
Proof.
  revert a. induction n as [| n IH]; intros a.
  - cbn. f_equal. lia.
  - cbn [Nat.add range_from app]. rewrite IH. do 3 f_equal. lia.
Qed.

Lemma range_from_bounds a n k :
  In k (range_from a n) -> a <= k < a + Z.of_nat n.
Proof.
  revert a. induction n as [| n IH]; intros a; cbn [range_from In].
  - intros [].
  - intros [<- | Hin]; [lia |]. apply IH in Hin. lia.
Qed.

Lemma range_from_length a n : List.length (range_from a n) = n.
Proof.
  revert a. induction n as [| n IH]; intros a; cbn; [| rewrite IH]; reflexivity.
Qed.

Lemma attempts_made_app t1 t2 :
  attempts_made (t1 ++ t2) = (attempts_made t1 + attempts_made t2)%nat.
Proof.
  unfold attempts_made. rewrite filter_app. apply length_app.
Qed.

Lemma attempts_made_failed todo :
  attempts_made (flat_map (failed_attempt_events self endpoint) todo)
  = List.length todo.
Proof.
  induction todo as [| k todo IH]; [reflexivity |].
  cbn [flat_map List.length]. rewrite attempts_made_app, IH.
  unfold failed_attempt_events. destruct (k <? retry_attempts self); reflexivity.
Qed.

(** Before the last attempt, a failed attempt is always followed by the
    wait. *)
Lemma failed_attempt_events_inner todo :
  (forall j, In j todo -> j < retry_attempts self) ->
  flat_map (failed_attempt_events self endpoint) todo
  = flat_map (fun j => [Posted j (endpoint j); Slept (retry_delay self)]) todo.
Proof.
  induction todo as [| j todo IH]; intros Hlt; [reflexivity |].
  cbn [flat_map]. rewrite IH by (intros i Hi; apply Hlt; right; exact Hi).
  f_equal. unfold failed_attempt_events.
  replace (j <? retry_attempts self) with true; [reflexivity |].
  symmetry. apply Z.ltb_lt. apply Hlt. left. reflexivity.
Qed.

(** [time.sleep] returns on a length from 0 to 9223372036 seconds that the
    timer of the host takes. *)
Lemma sleep_accepted seconds trace :
  0 <= seconds <= 9223372036 ->
  timer (seconds * 1000000000) = Ok tt ->
  sleep seconds trace = Ok (trace ++ [Slept seconds]).
Proof.
  intros Hs Htimer. unfold sleep.
  replace (seconds <? -9223372036) with false by (symmetry; apply Z.ltb_ge; lia).
  replace (9223372036 <? seconds) with false by (symmetry; apply Z.ltb_ge; lia).
  replace (seconds <? 0) with false by (symmetry; apply Z.ltb_ge; lia).
  rewrite Htimer. reflexivity.
Qed.

(** A wait that returns is recorded at the end of the trace. *)
Lemma sleep_returns seconds trace trace' :
  sleep seconds trace = Ok trace' -> trace' = trace ++ [Slept seconds].
Proof.
  unfold sleep.
  destruct (_ || _); [discriminate |].
  destruct (seconds <? 0); [discriminate |].
  destruct (timer _); [| discriminate].
  intros [= <-]. reflexivity.
Qed.

(** [time.sleep] raises on a length outside 0 to 9223372036 seconds, and on
    a length the timer of the host refuses. *)
Lemma sleep_refused seconds trace :
  seconds < 0 \/ 9223372036 < seconds
  \/ (exists e, timer (seconds * 1000000000) = Raise e) ->
  exists e, sleep seconds trace = Raise e.
Proof.
  intros Hs. unfold sleep.
  destruct (Z.ltb_spec seconds (-9223372036)); cbn [orb];
    [eexists; reflexivity |].
  destruct (Z.ltb_spec 9223372036 seconds); [eexists; reflexivity |].
  destruct (Z.ltb_spec seconds 0); [eexists; reflexivity |].
  destruct Hs as [Hs | [Hs | [e He]]]; [lia | lia |].
  rewrite He. eexists. reflexivity.
Qed.

(** The loop goes through a stretch of failing attempts, leaving the
    events of each in the trace. *)
Lemma attempts_loop_failing :
  0 <= retry_delay self <= 9223372036 ->
  timer (retry_delay self * 1000000000) = Ok tt ->
  forall pre rest trace,
    (forall k, In k pre -> failed (endpoint k)) ->
    attempts_loop self endpoint (pre ++ rest) trace
    = attempts_loop self endpoint rest
        (trace ++ flat_map (failed_attempt_events self endpoint) pre).
Proof.
  intros Hdelay Htimer. induction pre as [| k pre IH]; intros rest trace Hfail.
  - cbn. rewrite app_nil_r. reflexivity.
  - cbn [app attempts_loop flat_map].
    assert (Hk : match endpoint k with
                 | Ok status => accepted status
                 | Raise _ => false
                 end = false).
    { specialize (Hfail k (or_introl eq_refl)). unfold failed in Hfail.
      destruct (endpoint k); [exact Hfail | reflexivity]. }
    rewrite Hk. unfold failed_attempt_events at 1.
    destruct (k <? retry_attempts self).
    + rewrite (sleep_accepted _ _ Hdelay Htimer).
      rewrite IH by (intros j Hj; apply Hfail; right; exact Hj).
      f_equal. rewrite <- !app_assoc. reflexivity.
    + rewrite IH by (intros j Hj; apply Hfail; right; exact Hj).
      f_equal. rewrite <- !app_assoc. reflexivity.
Qed.

(** C3, as the code has it. Against an endpoint whose every attempt fails
    (a status outside 200, 201, 202, or an exception of the request), and
    with a retry_delay that [time.sleep] takes (a length from 0 to
    9223372036 seconds that the timer of the host accepts), [send_alert]
    returns [False] without raising; its events are, for each attempt from
    1 to retry_attempts in order, the request followed by a wait of
    retry_delay unless the attempt is the last; the requests are
    retry_attempts in number. *)
Theorem delivery_retry_bound :
  0 <= retry_delay self <= 9223372036 ->
  timer (retry_delay self * 1000000000) = Ok tt ->
  (forall k, failed (endpoint k)) ->
  send_alert self endpoint
  = (Ok false,
     flat_map (fun k => if k <? retry_attempts self
                        then [Posted k (endpoint k); Slept (retry_delay self)]
                        else [Posted k (endpoint k)])
              (range 1 (retry_attempts self + 1)))
  /\ attempts_made (snd (send_alert self endpoint))
     = Z.to_nat (retry_attempts self).
Proof.
  intros Hdelay Htimer Hfail.
  assert (Hsend : send_alert self endpoint
                  = (Ok false,
                     flat_map (failed_attempt_events self endpoint)
                              (range 1 (retry_attempts self + 1)))).
  { unfold send_alert.
    rewrite <- (app_nil_r (range 1 (retry_attempts self + 1))) at 1.
    rewrite attempts_loop_failing;
      [reflexivity | exact Hdelay | exact Htimer |].
    intros k _. apply Hfail. }
  split; [exact Hsend |].
  rewrite Hsend. cbn [snd]. rewrite attempts_made_failed.
  unfold range. rewrite range_from_length. f_equal. lia.
Qed.

(** Success at the [k]-th attempt: the earlier attempts fail, each followed
    by the wait, and the accepted request is the last event. *)
Lemma delivery_succeeds_at k status :
  1 <= k <= retry_attempts self ->
  0 <= retry_delay self <= 9223372036 ->
  timer (retry_delay self * 1000000000) = Ok tt ->
  (forall j, 1 <= j < k -> failed (endpoint j)) ->
  endpoint k = Ok status ->
  accepted status = true ->
  send_alert self endpoint
  = (Ok true,
     flat_map (fun j => [Posted j (endpoint j); Slept (retry_delay self)])
              (range 1 k)
     ++ [Posted k (Ok status)])
  /\ attempts_made (snd (send_alert self endpoint)) = Z.to_nat k.
Proof.
  intros Hk Hdelay Htimer Hfail Hok Hacc.
  assert (Hsplit : range 1 (retry_attempts self + 1)
                   = range 1 k ++ k :: range (k + 1) (retry_attempts self + 1)).
  { unfold range.
    replace (Z.to_nat (retry_attempts self + 1 - 1))
      with (Z.to_nat (k - 1)
            + S (Z.to_nat (retry_attempts self + 1 - (k + 1))))%nat by lia.
    rewrite range_from_app. cbn [range_from].
    do 2 f_equal; [lia |]. f_equal. lia. }
  assert (Hpre : flat_map (failed_attempt_events self endpoint) (range 1 k)
                 = flat_map (fun j => [Posted j (endpoint j);
                                       Slept (retry_delay self)])
                            (range 1 k)).
  { apply failed_attempt_events_inner. intros j Hj.
    apply range_from_bounds in Hj. lia. }
  assert (Hsend : send_alert self endpoint
                  = (Ok true,
                     flat_map (failed_attempt_events self endpoint) (range 1 k)
                     ++ [Posted k (Ok status)])).
  { unfold send_alert. rewrite Hsplit.
    rewrite attempts_loop_failing.
    - cbn [attempts_loop app]. rewrite Hok, Hacc. reflexivity.
    - exact Hdelay.
    - exact Htimer.
    - intros j Hj. apply range_from_bounds in Hj. apply Hfail. lia. }
  split.
  - rewrite Hsend, Hpre. reflexivity.
  - rewrite Hsend. cbn [snd].
    rewrite attempts_made_app, attempts_made_failed.
    unfold range. rewrite range_from_length. cbn. lia.
Qed.

End Delivery.

(** C3 as stated fails. The delay 9223372037 is not negative, and the
    endpoint times out at every attempt; the wait after the first attempt
    raises [OverflowError], outside the [try] and before the timer of the
    host is asked: [send_alert] raises after a single request instead of
    returning [False] after three, on every host. One second less is
    converted, and refused by the timer of the Linux host whose clock reads
    13962 s: there the wait raises [OSError], after a single request
    too. *)
Lemma delivery_retry_bound_counterexample :
  0 <= retry_delay MoreSenders.patient
  /\ (forall k, failed (Scenario.down k))
  /\ retry_attempts MoreSenders.patient = 3
  /\ (forall host : Host,
        send_alert MoreSenders.patient Scenario.down
        = (Raise OverflowError, [Posted 1 (Raise Timeout)]))
  /\ 0 <= retry_delay MoreSenders.lasting
  /\ retry_attempts MoreSenders.lasting = 3
  /\ @send_alert (Hosts.linux 13962000000000) MoreSenders.lasting Scenario.down
     = (Raise OSError, [Posted 1 (Raise Timeout)]).
Proof.
  split; [cbn; lia |]. split; [intros k; exact I |].
  split; [reflexivity |]. split; [intros host; reflexivity |].
  split; [cbn; lia |]. split; reflexivity.
Qed.

(** C9, as the code has it. With a retry_delay that [time.sleep] takes (a
    length from 0 to 9223372036 seconds that the timer of the host
    accepts): when the attempts before the [k]-th fail and the [k]-th, with
    [k <= retry_attempts], is answered with a status among 200, 201, 202,
    [send_alert] returns [True] after exactly [k] requests, having waited
    after each of the failed ones, and does nothing after the accepted one.
    With retry_attempts = 3, retry_delay = 2 and the answers 500, 500, 200
    it returns [True] after exactly 3 requests, the third answered 200, on
    every host whose timer takes a wait of 2 s. *)
Theorem delivery_success_path :
  (forall (host : Host) self endpoint k status,
      1 <= k <= retry_attempts self ->
      0 <= retry_delay self <= 9223372036 ->
      timer (retry_delay self * 1000000000) = Ok tt ->
      (forall j, 1 <= j < k -> failed (endpoint j)) ->
      endpoint k = Ok status ->
      accepted status = true ->
      send_alert self endpoint
      = (Ok true,
         flat_map (fun j => [Posted j (endpoint j); Slept (retry_delay self)])
                  (range 1 k)
         ++ [Posted k (Ok status)])
      /\ attempts_made (snd (send_alert self endpoint)) = Z.to_nat k)
  /\ (forall host : Host,
         timer 2000000000 = Ok tt ->
         send_alert Scenario.sender Scenario.recovering
         = (Ok true,
            [Posted 1 (Ok 500); Slept 2; Posted 2 (Ok 500); Slept 2;
             Posted 3 (Ok 200)])
         /\ attempts_made (snd (send_alert Scenario.sender Scenario.recovering))
            = 3%nat).
Proof.
  split.
  - intros host self endpoint k status. apply delivery_succeeds_at.
  - intros host Htimer.
    destruct (delivery_succeeds_at Scenario.sender Scenario.recovering 3 200)
      as [Hsend Hcount].
    + cbn. lia.
    + cbn. lia.
    + exact Htimer.
    + intros j Hj. unfold Scenario.recovering.
      replace (j <=? 2) with true by (symmetry; apply Z.leb_le; lia).
      reflexivity.
    + reflexivity.
    + reflexivity.
    + split; [exact Hsend | exact Hcount].
Qed.

(** The Linux host whose clock reads 13962 s takes a wait of 2 s. *)
Lemma delivery_success_path_witness :
  (send_alert Scenario.sender Scenario.recovering
   = (Ok true,
      flat_map (fun j => [Posted j (Scenario.recovering j);
                          Slept (retry_delay Scenario.sender)])
               (range 1 3)
      ++ [Posted 3 (Ok 200)])
   /\ attempts_made (snd (send_alert Scenario.sender Scenario.recovering))
      = Z.to_nat 3)
  /\ (send_alert Scenario.sender Scenario.recovering
      = (Ok true,
         [Posted 1 (Ok 500); Slept 2; Posted 2 (Ok 500); Slept 2;
          Posted 3 (Ok 200)])
      /\ attempts_made (snd (send_alert Scenario.sender Scenario.recovering))
         = 3%nat).
Proof.
  split.
  - apply (proj1 delivery_success_path Hosts.server Scenario.sender
             Scenario.recovering 3 200).
    + cbn. lia.
    + cbn. lia.
    + reflexivity.
    + intros j Hj. unfold Scenario.recovering.
      replace (j <=? 2) with true by (symmetry; apply Z.leb_le; lia).
      reflexivity.
    + reflexivity.
    + reflexivity.
  - apply (proj2 delivery_success_path Hosts.server). reflexivity.
Defined.

(** C9 as stated fails. The third attempt is answered 200 and the first
    two 500, with retry_attempts = 3; the delay 9223372037 is not negative,
    but the wait after the first attempt raises [OverflowError], before the
    timer of the host is asked: on every host [send_alert] raises after a
    single request and never reaches the attempt that would be accepted.
    One second less is converted, and refused by the timer of the Linux
    host whose clock reads 13962 s: there the wait raises [OSError], after
    a single request too. *)
Lemma delivery_success_path_counterexample :
  1 <= 3 <= retry_attempts MoreSenders.patient
  /\ 0 <= retry_delay MoreSenders.patient
  /\ (forall j, 1 <= j < 3 -> failed (Scenario.recovering j))
  /\ Scenario.recovering 3 = Ok 200
  /\ accepted 200 = true
  /\ (forall host : Host,
        send_alert MoreSenders.patient Scenario.recovering
        = (Raise OverflowError, [Posted 1 (Ok 500)]))
  /\ 1 <= 3 <= retry_attempts MoreSenders.lasting
  /\ 0 <= retry_delay MoreSenders.lasting
  /\ @send_alert (Hosts.linux 13962000000000) MoreSenders.lasting
                 Scenario.recovering
     = (Raise OSError, [Posted 1 (Ok 500)]).
Proof.
  split; [cbn; lia |]. split; [cbn; lia |]. split.
  - intros j Hj. unfold Scenario.recovering.
    replace (j <=? 2) with true by (symmetry; apply Z.leb_le; lia).
    reflexivity.
  - split; [reflexivity |]. split; [reflexivity |].
    split; [intros host; reflexivity |].
    split; [cbn; lia |]. split; [cbn; lia | reflexivity].
Qed.

Lemma delivery_retry_bound_witness :
  send_alert Scenario.sender Scenario.down
  = (Ok false,
     [Posted 1 (Raise Timeout); Slept 2; Posted 2 (Raise Timeout); Slept 2;
      Posted 3 (Raise Timeout)])
  /\ attempts_made (snd (send_alert Scenario.sender Scenario.down)) = 3%nat.
Proof.
  apply (delivery_retry_bound Scenario.sender Scenario.down).
  - cbn. lia.
  - reflexivity.
  - intros k. exact I.
Defined.

(** * Further properties of the detector *)

Section Runs.

Variable cfg : Config.

(** What holds of each call and its result holds along a run. *)
Lemma run_Forall2 (P : Frame * datetime -> option Alert -> Prop) :
  (forall self frame now,
      P (frame, now) (snd (detect_sleeping_person cfg self frame now))) ->
  forall calls self, Forall2 P calls (snd (run cfg self calls)).
Proof.
  intros Hstep. induction calls as [| [frame now] calls IH]; intros self;
    cbn [run].
  - constructor.
  - specialize (Hstep self frame now).
    destruct (detect_sleeping_person cfg self frame now) as [self' r].
    specialize (IH self').
    destruct (run cfg self' calls) as [self'' rs].
    constructor; assumption.
Qed.

(** An invariant of every call is an invariant of every run. *)
Lemma run_invariant (I : State -> Prop) :
  (forall self frame now,
      I self -> I (fst (detect_sleeping_person cfg self frame now))) ->
  forall calls self, I self -> I (fst (run cfg self calls)).
Proof.
  intros Hstep. induction calls as [| [frame now] calls IH]; intros self Hi;
    cbn [run].
  - exact Hi.
  - specialize (Hstep self frame now Hi).
    destruct (detect_sleeping_person cfg self frame now) as [self' r].
    specialize (IH self' Hstep).
    destruct (run cfg self' calls) as [self'' rs]. exact IH.
Qed.

Lemma Forall2_nth_error_r {A B} (P : A -> B -> Prop) l1 l2 :
  Forall2 P l1 l2 ->
  forall j y, nth_error l2 j = Some y ->
  exists x, nth_error l1 j = Some x /\ P x y.
Proof.
  induction 1 as [| x y l1 l2 Hxy _ IH]; intros [| j] z; cbn; try discriminate.
  - intros [= <-]. exists x. split; [reflexivity | exact Hxy].
  - apply IH.
Qed.

(** An alert is stamped with the timestamp of its call. *)
Lemma alert_when self frame now self' alert :
  detect_sleeping_person cfg self frame now = (self', Some alert) ->
  when alert = now.
Proof.
  intros Hfire.
  pose proof (detect_outcome cfg self frame now) as Hout.
  rewrite Hfire in Hout. inversion Hout; subst. reflexivity.
Qed.

(** The alerts of a run are at least 30 s apart: of two alerts, the later
    in the run is stamped no earlier than 30 s after the other. *)
Theorem alerts_thirty_seconds_apart : forall calls self i j a b,
  (i < j)%nat ->
  nth_error (snd (run cfg self calls)) i = Some (Some a) ->
  nth_error (snd (run cfg self calls)) j = Some (Some b) ->
  when a + timedelta_seconds 30 <= when b.
Proof.
  induction calls as [| [frame now] calls IH]; intros self i j a b Hij;
    cbn [run].
  - destruct i; discriminate.
  - pose proof (cooling_step cfg (now + timedelta_seconds 30) self frame now)
      as Hcool.
    pose proof (detect_outcome cfg self frame now) as Hout.
    destruct (detect_sleeping_person cfg self frame now) as [self' r] eqn:Hcall.
    pose proof (cooling_run cfg (now + timedelta_seconds 30) calls self') as Hrun.
    assert (Hw : Forall2 (fun call r => forall x, r = Some x -> when x = snd call)
                         calls (snd (run cfg self' calls))).
    { apply run_Forall2. intros s f' t' x Hx.
      destruct (detect_sleeping_person cfg s f' t') as [s' r'] eqn:Hd.
      cbn [snd] in Hx. subst r'. cbn [snd].
      exact (alert_when s f' t' s' x Hd). }
    specialize (IH self').
    destruct (run cfg self' calls) as [self'' rs] eqn:Hrest.
    cbn [snd] in *.
    destruct j as [| j]; [lia |].
    destruct i as [| i]; cbn [nth_error].
    + intros [= ->] Hb.
      assert (Hset : cooling_until (now + timedelta_seconds 30) self').
      { inversion Hout; subst. exists (now + timedelta_seconds 30).
        split; [reflexivity | lia]. }
      specialize (Hrun Hset).
      destruct (Forall2_nth_error_r _ _ _ Hrun j _ Hb) as ([f t] & Hcallj & Hnone).
      destruct (Forall2_nth_error_r _ _ _ Hw j _ Hb) as (call & Hcall' & Hwb).
      assert (Hsame : Some call = Some (f, t))
        by exact (eq_trans (eq_sym Hcall') Hcallj).
      injection Hsame as ->.
      specialize (Hwb b eq_refl). cbn [snd] in Hwb, Hnone.
      rewrite (alert_when self frame now self' a Hcall).
      destruct (Z.lt_ge_cases t (now + timedelta_seconds 30)) as [Hlt | Hge];
        [specialize (Hnone Hlt); discriminate | lia].
    + intros Ha Hb. apply (IH i j a b); [lia | exact Ha | exact Hb].
Qed.

(** With check_interval = 0 the division of [_check_persistence] raises as
    soon as the history holds two samples, and the exception is swallowed:
    no call of any run returns an alert. *)
Theorem zero_interval_never_alerts :
  check_interval cfg = 0 ->
  forall calls self, Forall (fun r => r = None) (snd (run cfg self calls)).
Proof.
  intros Hzero calls self.
  assert (Hall : Forall2 (fun _ r => r = None) calls (snd (run cfg self calls))).
  { apply run_Forall2. intros s frame now.
    destruct (detect_sleeping_person cfg s frame now) as [s' [alert |]] eqn:Hcall;
      [| reflexivity].
    exfalso. apply fired_persisted in Hcall.
    apply check_persistence_true in Hcall as (_ & thr & Hthr & _).
    unfold threshold, PyNum.int_truediv in Hthr. rewrite Hzero in Hthr.
    discriminate. }
  induction Hall; constructor; assumption.
Qed.

End Runs.

(** In the run of lying persons every 2 s, the alerts come at seconds 6 and
    42. *)
Lemma alerts_thirty_seconds_apart_witness :
  Scenario.at_s 6 + timedelta_seconds 30 <= Scenario.at_s 42.
Proof.
  apply (alerts_thirty_seconds_apart Scenario.defaults
           MoreScenarios.long_run init 3 21
           (mkAlert (Scenario.at_s 6) (Some Scenario.lying_box) horizontal
                    "person sleeping" Scenario.half 4 10)
           (mkAlert (Scenario.at_s 42) (Some Scenario.lying_box) horizontal
                    "person sleeping" Scenario.half 8 10)).
  - lia.
  - vm_compute. reflexivity.
  - vm_compute. reflexivity.
Defined.

Lemma zero_interval_never_alerts_witness :
  Forall (fun r => r = None)
         (snd (run MoreScenarios.zero_interval init MoreScenarios.five_calls)).
Proof.
  apply (zero_interval_never_alerts MoreScenarios.zero_interval).
  reflexivity.
Defined.

Section Frames.

Variable cfg : Config.

(** The candidate the scan retains is read at one index of the scores of one
    prompt, with the box and the mask of the same index. *)
Lemma scan_scores_taken frame prompts prompt out now :
  In prompt prompts ->
  set_text_prompt frame prompt = Ok out ->
  forall rest i acc,
    (forall k, nth_error rest k = nth_error (scores out) (i + k)) ->
    (forall c, snd acc = Some c -> taken_from frame prompts c) ->
    forall c, snd (scan_scores cfg prompt out now i rest acc) = Some c ->
              taken_from frame prompts c.
Proof.
  intros Hin Hout.
  induction rest as [| score rest IH]; intros i acc Hsuffix Hacc;
    cbn [scan_scores].
  - exact Hacc.
  - apply IH.
    + intros k. pose proof (Hsuffix (S k)) as Hk. cbn [nth_error] in Hk.
      rewrite Hk. f_equal. lia.
    + destruct ((confidence_threshold cfg <? score) && (fst acc <? score))%float.
      * intros c [= <-]. exists prompt, out, i. cbn.
        specialize (Hsuffix 0%nat). cbn in Hsuffix.
        rewrite Nat.add_0_r in Hsuffix. symmetry in Hsuffix.
        repeat split; assumption.
      * exact Hacc.
Qed.

Lemma scan_prompts_taken frame prompts now : forall todo acc acc',
  incl todo prompts ->
  scan_prompts cfg frame now todo acc = Ok acc' ->
  (forall c, snd acc = Some c -> taken_from frame prompts c) ->
  forall c, snd acc' = Some c -> taken_from frame prompts c.
Proof.
  induction todo as [| prompt todo IH]; intros acc acc' Hincl;
    cbn [scan_prompts].
  - intros [= <-] Hacc. exact Hacc.
  - destruct (set_text_prompt frame prompt) as [out | e] eqn:Hout;
      [| discriminate].
    intros Hscan Hacc.
    eapply IH; [| exact Hscan |].
    + intros p Hp. apply Hincl. right. exact Hp.
    + apply (scan_scores_taken frame prompts prompt out now);
        [apply Hincl; left; reflexivity | exact Hout | | exact Hacc].
      intros k. reflexivity.
Qed.

Lemma best_detection_taken frame now cand :
  best_detection cfg frame now = Ok (Some cand) ->
  taken_from frame sleep_prompts cand.
Proof.
  unfold best_detection.
  destruct (set_image frame); [| discriminate].
  destruct (scan_prompts cfg frame now sleep_prompts (0%float, None))
    as [[best_score best] | e] eqn:Hscan; [| discriminate].
  intros [= ->].
  eapply (scan_prompts_taken frame sleep_prompts now _ _ _ _ Hscan);
    [| reflexivity].
  cbn. discriminate.
  Unshelve. apply incl_refl.
Qed.

(** An exception of the processor on one prompt leaves the scan. *)
Lemma scan_prompts_raises frame now : forall todo acc,
  (exists prompt e, In prompt todo /\ set_text_prompt frame prompt = Raise e) ->
  exists e, scan_prompts cfg frame now todo acc = Raise e.
Proof.
  induction todo as [| prompt todo IH]; intros acc (p & e & Hin & Hraise).
  - destruct Hin.
  - cbn [scan_prompts].
    destruct (set_text_prompt frame prompt) as [out | e'] eqn:Hout;
      [| exists e'; reflexivity].
    apply IH. destruct Hin as [-> | Hin]; [congruence |].
    exists p, e. split; assumption.
Qed.

Lemma failing_frame_raises frame now :
  failing_frame frame -> exists e, best_detection cfg frame now = Raise e.
Proof.
  unfold best_detection.
  intros [[e He] | Hprompt].
  - rewrite He. exists e. reflexivity.
  - destruct (set_image frame) as [[] | e]; [| exists e; reflexivity].
    destruct (scan_prompts_raises frame now sleep_prompts (0%float, None) Hprompt)
      as [e He].
    rewrite He. exists e. reflexivity.
Qed.

Lemma quiet_frame_no_candidate frame now cand :
  quiet_frame cfg frame -> best_detection cfg frame now <> Ok (Some cand).
Proof.
  intros Hquiet Hbest.
  destruct (best_detection_candidate cfg frame now cand Hbest) as [_ Habove].
  destruct (best_detection_taken frame now cand Hbest)
    as (prompt & out & i & Hin & Hout & Hscore & _).
  apply nth_error_In in Hscore.
  rewrite (Hquiet prompt out (c_score cand) Hin Hout Hscore) in Habove.
  discriminate.
Qed.

(** Upstream failures are absorbed. When the processor raises for the frame
    (on the image or on any prompt), or when the box of the retained
    detection does not have four coordinates, a call that passes the
    interval gate returns [None] and changes nothing but [last_check_time]. *)
Theorem upstream_failure_absorbed self frame now :
  should_check_frame cfg self now = true ->
  failing_frame frame
  \/ (exists cand box,
        best_detection cfg frame now = Ok (Some cand)
        /\ truthy_box (c_box cand) = Some box
        /\ List.length box <> 4%nat) ->
  detect_sleeping_person cfg self frame now
  = (mkState (detections_history self) (Some now) (alert_cooldown_until self),
     None).
Proof.
  intros Hgate Hfail.
  assert (Hnot : forall cand box,
             best_detection cfg frame now = Ok (Some cand) ->
             truthy_box (c_box cand) = Some box ->
             _analyze_orientation box <> Ok horizontal).
  { intros cand box Hbest Hbox.
    destruct Hfail as [Hfail | (cand' & box' & Hbest' & Hbox' & Hlen)].
    - destruct (failing_frame_raises frame now Hfail) as [e He]. congruence.
    - assert (cand' = cand) by congruence. subst cand'.
      assert (box' = box) by congruence. subst box'.
      destruct box as [| x1 [| y1 [| x2 [| y2 [| z box]]]]]; cbn;
        try discriminate.
      exfalso. apply Hlen. reflexivity. }
  call_cases cfg self frame now; try congruence; try reflexivity.
  - exfalso. exact (Hnot c b Hb Ht Ho).
  - exfalso. exact (Hnot c b Hb Ht Ho).
Qed.

(** Frames without a score above the threshold never alert and store
    nothing: along a run made of such frames every call returns [None] and
    the history stays as it was. *)
Theorem quiet_frames_never_alert : forall calls self,
  Forall (fun call => quiet_frame cfg (fst call)) calls ->
  Forall (fun r => r = None) (snd (run cfg self calls))
  /\ detections_history (fst (run cfg self calls)) = detections_history self.
Proof.
  induction calls as [| [frame now] calls IH]; intros self Hquiet; cbn [run].
  - split; [constructor | reflexivity].
  - inversion Hquiet as [| call calls' Hq Hrest]; subst. cbn [fst] in Hq.
    destruct (detect_keeps_history cfg self frame now) as [Hhist Hnone].
    { right. right. intros cand box Hbest _ _.
      exact (quiet_frame_no_candidate frame now cand Hq Hbest). }
    destruct (detect_sleeping_person cfg self frame now) as [self' r].
    cbn [fst snd] in Hhist, Hnone.
    destruct (IH self' Hrest) as [IHnone IHhist].
    destruct (run cfg self' calls) as [self'' rs]. cbn [fst snd] in *.
    split; [constructor; assumption | congruence].
Qed.

(** The shape of an alert: it is stamped with the call, reports the
    orientation "horizontal" and a box of four coordinates, and counts the
    history the call leaves, at least two samples. *)
Theorem alert_shape self frame now self' alert :
  detect_sleeping_person cfg self frame now = (self', Some alert) ->
  when alert = now
  /\ alert_orientation alert = horizontal
  /\ (exists x1 y1 x2 y2, bounding_box alert = Some [x1; y1; x2; y2])
  /\ detection_count_in_period alert = List.length (detections_history self')
  /\ (2 <= detection_count_in_period alert)%nat
  /\ alert_persistence_seconds alert = persistence_seconds cfg.
Proof.
  intros Hfire.
  pose proof (fired_persisted cfg self frame now self' alert Hfire) as Hper.
  apply check_persistence_true in Hper as [Hlen _].
  pose proof (detect_outcome cfg self frame now) as Hout.
  rewrite Hfire in Hout.
  inversion Hout as [ | | | | c b Hg Hc Hb Ht Ho d h st Hp]; subst.
  cbn in Hlen |- *.
  repeat split; try reflexivity; try exact Hlen.
  apply truthy_box_some in Ht. rewrite Ht.
  destruct b as [| x1 [| y1 [| x2 [| y2 [| z b]]]]]; try discriminate.
  exists x1, y1, x2, y2. reflexivity.
Qed.

(** The provenance of an alert: its score, box and prompt are read at one
    index of what the processor answered, for this frame, to one of the
    three prompts. *)
Theorem alert_provenance self frame now self' alert :
  detect_sleeping_person cfg self frame now = (self', Some alert) ->
  exists prompt out i,
    In prompt sleep_prompts
    /\ set_text_prompt frame prompt = Ok out
    /\ nth_error (scores out) i = Some (confidence_score alert)
    /\ nth_error (boxes out) i = bounding_box alert
    /\ prompt_used alert = prompt.
Proof.
  intros Hfire.
  pose proof (detect_outcome cfg self frame now) as Hout.
  rewrite Hfire in Hout.
  inversion Hout as [ | | | | c b Hg Hc Hb Ht Ho d h st Hp]; subst.
  destruct (best_detection_taken frame now c Hb)
    as (prompt & out & i & Hin & Hans & Hscore & Hbox & _ & Hprompt).
  exists prompt, out, i. cbn. auto.
Qed.

End Frames.

Lemma upstream_failure_absorbed_witness :
  detect_sleeping_person Scenario.defaults Scenario.after_three
    MoreScenarios.broken_frame (Scenario.at_s 6)
  = (mkState (detections_history Scenario.after_three) (Some (Scenario.at_s 6))
             (alert_cooldown_until Scenario.after_three), None)
  /\ detect_sleeping_person Scenario.defaults Scenario.after_three
       (Scenario.frame_with Scenario.half MoreScenarios.short_box)
       (Scenario.at_s 6)
     = (mkState (detections_history Scenario.after_three) (Some (Scenario.at_s 6))
                (alert_cooldown_until Scenario.after_three), None).
Proof.
  split.
  - apply (upstream_failure_absorbed Scenario.defaults Scenario.after_three
             MoreScenarios.broken_frame (Scenario.at_s 6)).
    + reflexivity.
    + left. right. exists "person lying down"%string, OtherException.
      split; [cbn; auto | reflexivity].
  - apply (upstream_failure_absorbed Scenario.defaults Scenario.after_three
             (Scenario.frame_with Scenario.half MoreScenarios.short_box)
             (Scenario.at_s 6)).
    + reflexivity.
    + right. eexists. exists MoreScenarios.short_box.
      split; [reflexivity |]. split; [reflexivity | cbn; lia].
Defined.

Lemma quiet_frames_never_alert_witness :
  Forall (fun r => r = None)
         (snd (run Scenario.defaults Scenario.after_three
                 [(Scenario.lying Scenario.low, Scenario.at_s 6);
                  (Scenario.empty_frame, Scenario.at_s 8)]))
  /\ detections_history
       (fst (run Scenario.defaults Scenario.after_three
               [(Scenario.lying Scenario.low, Scenario.at_s 6);
                (Scenario.empty_frame, Scenario.at_s 8)]))
     = detections_history Scenario.after_three.
Proof.
  apply (quiet_frames_never_alert Scenario.defaults).
  constructor; [| constructor; [| constructor]];
    cbn [fst]; intros prompt out score _ Hout Hin; cbn in Hout.
  - destruct (String.eqb prompt "person sleeping");
      injection Hout as <-; cbn in Hin; [| destruct Hin].
    destruct Hin as [<- | []]. reflexivity.
  - injection Hout as <-. destruct Hin.
Defined.

Lemma alert_shape_witness :
  Scenario.at_s 6 = Scenario.at_s 6
  /\ horizontal = horizontal
  /\ (exists x1 y1 x2 y2, Some Scenario.lying_box = Some [x1; y1; x2; y2])
  /\ 4%nat = List.length (detections_history Scenario.after_alert)
  /\ (2 <= 4)%nat
  /\ 10 = persistence_seconds Scenario.defaults.
Proof.
  apply (alert_shape Scenario.defaults Scenario.after_three
           (Scenario.lying Scenario.half) (Scenario.at_s 6)
           Scenario.after_alert
           (mkAlert (Scenario.at_s 6) (Some Scenario.lying_box) horizontal
                    "person sleeping" Scenario.half 4 10)).
  reflexivity.
Defined.

Lemma alert_provenance_witness :
  exists prompt out i,
    In prompt sleep_prompts
    /\ set_text_prompt (Scenario.lying Scenario.half) prompt = Ok out
    /\ nth_error (scores out) i = Some Scenario.half
    /\ nth_error (boxes out) i = Some Scenario.lying_box
    /\ "person sleeping"%string = prompt.
Proof.
  apply (alert_provenance Scenario.defaults Scenario.after_three
           (Scenario.lying Scenario.half) (Scenario.at_s 6)
           Scenario.after_alert
           (mkAlert (Scenario.at_s 6) (Some Scenario.lying_box) horizontal
                    "person sleeping" Scenario.half 4 10)).
  reflexivity.
Defined.

(** ** The history along a run *)

Section History.

Variable cfg : Config.
Hypothesis interval_nonneg : 0 <= check_interval cfg.

Lemma ForallOrdPairs_filter {A} (R : A -> A -> Prop) (f : A -> bool) l :
  ForallOrdPairs R l -> ForallOrdPairs R (filter f l).
Proof.
  induction 1 as [| a l Ha _ IH]; cbn [filter]; [constructor |].
  destruct (f a); [| exact IH].
  constructor; [| exact IH].
  apply Forall_forall. intros x Hx. apply filter_In in Hx.
  exact (proj1 (Forall_forall _ _) Ha x (proj1 Hx)).
Qed.

Lemma ForallOrdPairs_snoc {A} (R : A -> A -> Prop) l x :
  ForallOrdPairs R l -> Forall (fun a => R a x) l ->
  ForallOrdPairs R (l ++ [x]).
Proof.
  induction 1 as [| a l Ha _ IH]; intros Hx; cbn [app].
  - constructor; constructor.
  - inversion Hx as [| a' l' Hax Hlx]; subst.
    constructor; [| exact (IH Hlx)].
    apply Forall_app. split; [exact Ha | constructor; [exact Hax | constructor]].
Qed.

(** Under a spacing [gap], the entry [k + 1] places after [a] is at least
    [(k + 1) * gap] later. *)
Lemma spaced_nth gap : 0 <= gap -> forall l a k b,
  spaced gap (a :: l) ->
  nth_error l k = Some b ->
  d_timestamp a + Z.of_nat (S k) * gap <= d_timestamp b.
Proof.
  intros Hgap. induction l as [| c l IH]; intros a k b Hsp Hk.
  - destruct k; discriminate.
  - inversion Hsp as [| a' l' Ha Hrest]; subst.
    inversion Ha as [| c' l' Hac _]; subst.
    destruct k as [| k]; cbn [nth_error] in Hk.
    + injection Hk as <-. lia.
    + specialize (IH c k b Hrest Hk). nia.
Qed.

(** Appending a detection stamped [now] to a history whose entries are all
    at least [gap] older keeps the history spaced, not later than [now] and
    within the retention. *)
Lemma history_after_add_keeps gap self detection now :
  0 <= gap ->
  d_timestamp detection = now ->
  spaced gap (detections_history self) ->
  Forall (fun d => d_timestamp d + gap <= now) (detections_history self) ->
  spaced gap (history_after_add self detection)
  /\ Forall (fun d => d_timestamp d <= now) (history_after_add self detection)
  /\ within_retention (history_after_add self detection).
Proof.
  intros Hgap Hts Hsp Hold.
  assert (Hall : Forall (fun d => d_timestamp d <= now)
                        (history_after_add self detection)).
  { apply Forall_forall. intros x Hx. unfold history_after_add in Hx.
    apply filter_In in Hx. destruct Hx as [Hx _].
    apply in_app_or in Hx. destruct Hx as [Hx | [<- | []]]; [| lia].
    pose proof (proj1 (Forall_forall _ _) Hold x Hx) as Hle. cbn in Hle. lia. }
  split; [| split; [exact Hall |]].
  - unfold history_after_add. apply ForallOrdPairs_filter.
    apply ForallOrdPairs_snoc; [exact Hsp |].
    rewrite Hts. exact Hold.
  - intros a b Ha Hb.
    pose proof (proj1 (Forall_forall _ _) Hall b Hb) as Hle. cbn in Hle.
    unfold history_after_add in Ha. apply filter_In in Ha.
    destruct Ha as [_ Ha]. apply Z.ltb_lt in Ha. lia.
Qed.

(** The three facts kept by every call. *)
Lemma history_step self frame now :
  spaced (timedelta_seconds (check_interval cfg)) (detections_history self)
  /\ seen_by_last_check self
  /\ within_retention (detections_history self) ->
  let self' := fst (detect_sleeping_person cfg self frame now) in
  spaced (timedelta_seconds (check_interval cfg)) (detections_history self')
  /\ seen_by_last_check self'
  /\ within_retention (detections_history self').
Proof.
  intros (Hsp & Hseen & Hwin). cbv zeta.
  assert (Hbefore : should_check_frame cfg self now = true ->
                    Forall (fun d => d_timestamp d
                                     + timedelta_seconds (check_interval cfg)
                                     <= now)
                           (detections_history self)).
  { unfold should_check_frame, seen_by_last_check in *.
    destruct (last_check_time self) as [last |].
    - intros Hg. apply Z.leb_le in Hg.
      apply Forall_forall. intros d Hd.
      pose proof (proj1 (Forall_forall _ _) Hseen d Hd) as Hle.
      cbn in Hle. lia.
    - intros _. rewrite Hseen. constructor. }
  assert (Hpos : 0 <= timedelta_seconds (check_interval cfg))
    by (unfold timedelta_seconds; lia).
  assert (Hmoved : should_check_frame cfg self now = true ->
                   Forall (fun d => d_timestamp d <= now)
                          (detections_history self)).
  { intros Hg. eapply Forall_impl; [| exact (Hbefore Hg)].
    cbn. intros; lia. }
  call_cases cfg self frame now; try subst st; try subst h; try subst d;
    cbn [fst detections_history].
  - auto.
  - split; [exact Hsp |]. split; [exact (Hmoved Hg) | exact Hwin].
  - split; [exact Hsp |]. split; [exact (Hmoved Hg) | exact Hwin].
  - destruct (best_detection_candidate cfg frame now c Hb) as [Hts _].
    exact (history_after_add_keeps _ self (mkDetection c horizontal) now
             Hpos Hts Hsp (Hbefore Hg)).
  - destruct (best_detection_candidate cfg frame now c Hb) as [Hts _].
    exact (history_after_add_keeps _ self (mkDetection c horizontal) now
             Hpos Hts Hsp (Hbefore Hg)).
Qed.

Lemma history_run calls :
  let self := fst (run cfg init calls) in
  spaced (timedelta_seconds (check_interval cfg)) (detections_history self)
  /\ seen_by_last_check self
  /\ within_retention (detections_history self).
Proof.
  apply (run_invariant cfg
           (fun self =>
              spaced (timedelta_seconds (check_interval cfg))
                     (detections_history self)
              /\ seen_by_last_check self
              /\ within_retention (detections_history self))).
  - intros self frame now. apply history_step.
  - split; [constructor |]. split; [reflexivity |]. intros a b [].
Qed.

(** With a non-negative check_interval, the history of a detector run from
    its initial state is ordered in time and its entries follow each other
    by at least check_interval seconds, whatever the order of the timestamps
    of the calls. *)
Theorem history_spaced calls :
  ForallOrdPairs
    (fun a b => d_timestamp a + timedelta_seconds (check_interval cfg)
                <= d_timestamp b)
    (detections_history (fst (run cfg init calls))).
Proof.
  exact (proj1 (history_run calls)).
Qed.

(** With a non-negative check_interval, any two samples retained in the
    history of a detector run from its initial state are less than 60 s
    apart, also after calls that store nothing. *)
Theorem history_within_retention calls a b :
  In a (detections_history (fst (run cfg init calls))) ->
  In b (detections_history (fst (run cfg init calls))) ->
  d_timestamp b - timedelta_seconds 60 < d_timestamp a.
Proof.
  exact (proj2 (proj2 (history_run calls)) a b).
Qed.

End History.

(** With a positive check_interval, the history of a detector run from its
    initial state has bounded length: [(length - 1) * check_interval < 60]. *)
Theorem history_length_bound cfg calls :
  0 < check_interval cfg ->
  (Z.of_nat (List.length (detections_history (fst (run cfg init calls)))) - 1)
  * check_interval cfg < 60.
Proof.
  intros Hpos.
  assert (Hnn : 0 <= check_interval cfg) by lia.
  destruct (history_run cfg Hnn calls) as (Hsp & _ & Hwin).
  destruct (detections_history (fst (run cfg init calls))) as [| a l];
    [cbn [List.length]; lia |].
  destruct l as [| c l] using rev_ind; [cbn [List.length]; lia |].
  clear IHl.
  assert (Hk : nth_error (l ++ [c]) (List.length l) = Some c).
  { rewrite nth_error_app2 by lia. rewrite Nat.sub_diag. reflexivity. }
  pose proof (spaced_nth (timedelta_seconds (check_interval cfg))
                ltac:(unfold timedelta_seconds; lia) _ a _ c Hsp Hk) as Hfar.
  assert (Hnear : d_timestamp c - timedelta_seconds 60 < d_timestamp a).
  { apply Hwin; [left; reflexivity |].
    right. apply in_or_app. right. left. reflexivity. }
  cbn [List.length]. rewrite length_app. cbn [List.length].
  unfold timedelta_seconds in *. nia.
Qed.

Lemma history_spaced_witness :
  ForallOrdPairs
    (fun a b => d_timestamp a + timedelta_seconds 2 <= d_timestamp b)
    (detections_history (fst (run Scenario.defaults init MoreScenarios.long_run))).
Proof.
  apply (history_spaced Scenario.defaults). cbn. lia.
Defined.

Lemma history_within_retention_witness :
  d_timestamp (Scenario.sample Scenario.half 42) - timedelta_seconds 60
  < d_timestamp (Scenario.sample Scenario.half 0).
Proof.
  apply (history_within_retention Scenario.defaults) with
    (calls := MoreScenarios.long_run).
  - cbn. lia.
  - vm_compute. left. reflexivity.
  - vm_compute. do 7 right. left. reflexivity.
Defined.

Lemma history_length_bound_witness :
  (Z.of_nat (List.length
               (detections_history
                  (fst (run Scenario.defaults init MoreScenarios.long_run)))) - 1)
  * 2 < 60.
Proof.
  apply (history_length_bound Scenario.defaults MoreScenarios.long_run).
  cbn. lia.
Defined.

(** * Further properties of the webhook sender *)

Section Sending.

Context {host : Host}.
Variable self : WebhookSender.
Variable endpoint : Endpoint.

Lemma range_from_In a n k :
  a <= k < a + Z.of_nat n -> In k (range_from a n).
Proof.
  revert a. induction n as [| n IH]; intros a Hk; [lia |].
  cbn [range_from In].
  destruct (Z.eq_dec a k) as [-> | Hne]; [left; reflexivity |].
  right. apply IH. lia.
Qed.

Lemma attempts_loop_result :
  0 <= retry_delay self <= 9223372036 ->
  timer (retry_delay self * 1000000000) = Ok tt ->
  forall todo trace,
    fst (attempts_loop self endpoint todo trace)
    = Ok (existsb (delivered_at endpoint) todo).
Proof.
  intros Hdelay Htimer. induction todo as [| k todo IH]; intros trace;
    cbn [attempts_loop existsb]; [reflexivity |].
  unfold delivered_at at 1.
  destruct (match endpoint k with Ok status => accepted status | Raise _ => false end).
  - reflexivity.
  - cbn [orb]. destruct (k <? retry_attempts self); [| apply IH].
    rewrite (sleep_accepted _ _ Hdelay Htimer).
    apply IH.
Qed.

(** With a retry_delay that [time.sleep] takes (a length from 0 to
    9223372036 seconds that the timer of the host accepts), [send_alert]
    never raises, whatever the endpoint does, and it returns [True] exactly
    when one of the attempts 1 to retry_attempts is answered with a status
    among 200, 201, 202. *)
Theorem send_alert_result :
  0 <= retry_delay self <= 9223372036 ->
  timer (retry_delay self * 1000000000) = Ok tt ->
  (exists b, fst (send_alert self endpoint) = Ok b)
  /\ (fst (send_alert self endpoint) = Ok true
      <-> exists k, 1 <= k <= retry_attempts self
                    /\ delivered_at endpoint k = true).
Proof.
  intros Hdelay Htimer. unfold send_alert.
  rewrite (attempts_loop_result Hdelay Htimer).
  split; [eexists; reflexivity |].
  split.
  - intros [= Hex]. apply existsb_exists in Hex as (k & Hin & Hk).
    exists k. split; [| exact Hk].
    apply range_from_bounds in Hin. lia.
  - intros (k & Hk & Hdel). f_equal. apply existsb_exists.
    exists k. split; [| exact Hdel].
    apply range_from_In. lia.
Qed.

Lemma attempts_loop_bound : forall todo trace,
  (attempts_made (snd (attempts_loop self endpoint todo trace))
   <= attempts_made trace + List.length todo)%nat.
Proof.
  induction todo as [| k todo IH]; intros trace; cbn [attempts_loop].
  - cbn [snd List.length]. lia.
  - assert (Hposted : attempts_made (trace ++ [Posted k (endpoint k)])
                      = S (attempts_made trace)).
    { rewrite attempts_made_app. cbn. lia. }
    destruct (match endpoint k with Ok status => accepted status | Raise _ => false end).
    + cbn [snd List.length]. lia.
    + destruct (k <? retry_attempts self).
      * destruct (sleep (retry_delay self) (trace ++ [Posted k (endpoint k)]))
          as [trace' | e] eqn:Hsleep.
        -- apply sleep_returns in Hsleep. subst trace'.
           specialize (IH ((trace ++ [Posted k (endpoint k)])
                             ++ [Slept (retry_delay self)])).
           rewrite attempts_made_app in IH. cbn [List.length].
           change (attempts_made [Slept (retry_delay self)]) with 0%nat in IH.
           lia.
        -- cbn [snd List.length]. lia.
      * specialize (IH (trace ++ [Posted k (endpoint k)])).
        cbn [List.length]. lia.
Qed.

(** Whatever the endpoint answers and whatever the delay, [send_alert]
    makes at most retry_attempts requests. *)
Theorem send_alert_attempts_bound :
  (attempts_made (snd (send_alert self endpoint))
   <= Z.to_nat (retry_attempts self))%nat.
Proof.
  unfold send_alert.
  pose proof (attempts_loop_bound (range 1 (retry_attempts self + 1)) []) as H.
  unfold range in H. rewrite range_from_length in H.
  cbn in H. unfold range. lia.
Qed.

(** When the first attempt fails and another one is due, [send_alert]
    goes on as the first wait allows. *)
Lemma send_alert_first_wait :
  2 <= retry_attempts self ->
  delivered_at endpoint 1 = false ->
  send_alert self endpoint
  = match sleep (retry_delay self) [Posted 1 (endpoint 1)] with
    | Ok trace' =>
        attempts_loop self endpoint
          (range_from (1 + 1) (Z.to_nat (retry_attempts self - 1))) trace'
    | Raise e => (Raise e, [Posted 1 (endpoint 1)])
    end.
Proof.
  intros Hn Hfail. unfold send_alert, range.
  replace (Z.to_nat (retry_attempts self + 1 - 1))
    with (S (Z.to_nat (retry_attempts self - 1))) by lia.
  cbn [range_from attempts_loop app].
  unfold delivered_at in Hfail. rewrite Hfail.
  replace (1 <? retry_attempts self) with true
    by (symmetry; apply Z.ltb_lt; lia).
  reflexivity.
Qed.

(** A retry_delay that [time.sleep] rejects makes it raise outside the
    [try]: when the first attempt fails and another one is due,
    [send_alert] raises after a single request. The exception is
    [ValueError] for a negative delay down to -9223372036 seconds,
    [OverflowError] for a delay beyond 9223372036 seconds in absolute
    value, negative or not, and, for a delay between the two, what the
    timer of the host raises when it refuses the wait. *)
Theorem send_alert_rejected_delay :
  2 <= retry_attempts self ->
  delivered_at endpoint 1 = false ->
  (-9223372036 <= retry_delay self < 0 ->
   send_alert self endpoint = (Raise ValueError, [Posted 1 (endpoint 1)]))
  /\ (retry_delay self < -9223372036 \/ 9223372036 < retry_delay self ->
      send_alert self endpoint = (Raise OverflowError, [Posted 1 (endpoint 1)]))
  /\ (forall e,
         0 <= retry_delay self <= 9223372036 ->
         timer (retry_delay self * 1000000000) = Raise e ->
         send_alert self endpoint = (Raise e, [Posted 1 (endpoint 1)])).
Proof.
  intros Hn Hfail.
  rewrite (send_alert_first_wait Hn Hfail). unfold sleep.
  split; [| split].
  - intros Hdelay.
    replace (retry_delay self <? -9223372036) with false
      by (symmetry; apply Z.ltb_ge; lia).
    replace (9223372036 <? retry_delay self) with false
      by (symmetry; apply Z.ltb_ge; lia).
    replace (retry_delay self <? 0) with true
      by (symmetry; apply Z.ltb_lt; lia).
    reflexivity.
  - intros [Hdelay | Hdelay].
    + replace (retry_delay self <? -9223372036) with true
        by (symmetry; apply Z.ltb_lt; lia).
      reflexivity.
    + replace (9223372036 <? retry_delay self) with true
        by (symmetry; apply Z.ltb_lt; lia).
      rewrite orb_true_r. reflexivity.
  - intros e Hdelay Htimer.
    replace (retry_delay self <? -9223372036) with false
      by (symmetry; apply Z.ltb_ge; lia).
    replace (9223372036 <? retry_delay self) with false
      by (symmetry; apply Z.ltb_ge; lia).
    replace (retry_delay self <? 0) with false
      by (symmetry; apply Z.ltb_ge; lia).
    rewrite Htimer. reflexivity.
Qed.

Lemma attempts_loop_extends : forall todo trace,
  exists more,
    snd (attempts_loop self endpoint todo trace) = trace ++ more.
Proof.
  induction todo as [| k todo IH]; intros trace; cbn [attempts_loop].
  - exists []. cbn. rewrite app_nil_r. reflexivity.
  - destruct (match endpoint k with Ok status => accepted status | Raise _ => false end).
    + exists [Posted k (endpoint k)]. reflexivity.
    + destruct (k <? retry_attempts self).
      * destruct (sleep (retry_delay self) (trace ++ [Posted k (endpoint k)]))
          as [trace' | e] eqn:Hsleep.
        -- apply sleep_returns in Hsleep. subst trace'.
           destruct (IH ((trace ++ [Posted k (endpoint k)])
                           ++ [Slept (retry_delay self)])) as [more Hmore].
           exists (Posted k (endpoint k) :: Slept (retry_delay self) :: more).
           rewrite Hmore, <- !app_assoc. reflexivity.
        -- exists [Posted k (endpoint k)]. reflexivity.
      * destruct (IH (trace ++ [Posted k (endpoint k)])) as [more Hmore].
        exists (Posted k (endpoint k) :: more).
        rewrite Hmore, <- app_assoc. reflexivity.
Qed.

(** Whether anything is sent depends on retry_attempts alone: at most 0,
    the loop is empty, [send_alert] makes no request and returns [False];
    at least 1, the first thing [send_alert] does is the request of
    attempt 1. *)
Theorem send_alert_first_request :
  (retry_attempts self <= 0 -> send_alert self endpoint = (Ok false, []))
  /\ (1 <= retry_attempts self ->
      exists more,
        snd (send_alert self endpoint) = Posted 1 (endpoint 1) :: more).
Proof.
  unfold send_alert, range. split; intros Hn.
  - replace (Z.to_nat (retry_attempts self + 1 - 1)) with 0%nat by lia.
    reflexivity.
  - replace (Z.to_nat (retry_attempts self + 1 - 1))
      with (S (Z.to_nat (retry_attempts self - 1))) by lia.
    cbn [range_from attempts_loop app].
    destruct (match endpoint 1 with Ok status => accepted status | Raise _ => false end).
    + exists []. reflexivity.
    + destruct (1 <? retry_attempts self).
      * destruct (sleep (retry_delay self) [Posted 1 (endpoint 1)])
          as [trace' | e] eqn:Hsleep.
        -- apply sleep_returns in Hsleep. subst trace'. cbn [app].
           destruct (attempts_loop_extends
                       (range_from (1 + 1) (Z.to_nat (retry_attempts self - 1)))
                       [Posted 1 (endpoint 1); Slept (retry_delay self)])
             as [more Hmore].
           eexists. rewrite Hmore. reflexivity.
        -- exists []. reflexivity.
      * destruct (attempts_loop_extends
                    (range_from (1 + 1) (Z.to_nat (retry_attempts self - 1)))
                    [Posted 1 (endpoint 1)])
          as [more Hmore].
        eexists. rewrite Hmore. reflexivity.
Qed.

Lemma not_ends_with_wait_posted trace k outcome :
  ~ ends_with_wait (trace ++ [Posted k outcome]).
Proof.
  intros (before & seconds & Heq).
  apply app_inj_tail in Heq. destruct Heq as [_ Heq]. discriminate.
Qed.

Lemma attempts_loop_last b : forall len a trace,
  a + Z.of_nat len = retry_attempts self + 1 ->
  (len = 0%nat -> ~ ends_with_wait trace) ->
  fst (attempts_loop self endpoint (range_from a len) trace) = Ok b ->
  ~ ends_with_wait (snd (attempts_loop self endpoint (range_from a len) trace)).
Proof.
  induction len as [| len IH]; intros a trace Hlast Htrace;
    cbn [range_from attempts_loop].
  - intros _. cbn [snd]. apply Htrace. reflexivity.
  - destruct (match endpoint a with Ok status => accepted status | Raise _ => false end).
    + intros _. cbn [snd]. apply not_ends_with_wait_posted.
    + destruct (a <? retry_attempts self) eqn:Hlt.
      * destruct (sleep (retry_delay self) (trace ++ [Posted a (endpoint a)]))
          as [trace' | e]; [| discriminate].
        apply IH; [lia |].
        intros ->. apply Z.ltb_lt in Hlt. lia.
      * apply IH; [lia |].
        intros _. apply not_ends_with_wait_posted.
Qed.

(** When [send_alert] returns, the last thing it did was not to wait: no
    wait follows the last request. *)
Theorem send_alert_no_trailing_wait b :
  fst (send_alert self endpoint) = Ok b ->
  ~ ends_with_wait (snd (send_alert self endpoint)).
Proof.
  unfold send_alert, range.
  destruct (Z.le_gt_cases 0 (retry_attempts self)) as [Hn | Hn].
  - apply attempts_loop_last; [lia |].
    intros _ (before & seconds & Heq). destruct before; discriminate.
  - replace (Z.to_nat (retry_attempts self + 1 - 1)) with 0%nat by lia.
    intros _ (before & seconds & Heq). destruct before; discriminate.
Qed.

(** A sender with a single attempt does what the probe does: the same
    request, the same answer, no wait. *)
Theorem send_alert_single_attempt :
  retry_attempts self = 1 ->
  send_alert self endpoint = test_connection self endpoint.
Proof.
  intros Hone. unfold send_alert, test_connection, range. rewrite Hone.
  change (Z.to_nat (1 + 1 - 1)) with 1%nat.
  cbn [range_from attempts_loop app]. rewrite Hone.
  change (1 <? 1) with false.
  destruct (endpoint 1) as [status | e]; [destruct (accepted status) |];
    reflexivity.
Qed.

End Sending.

Lemma send_alert_result_witness :
  (exists b, fst (send_alert Scenario.sender Scenario.recovering) = Ok b)
  /\ (fst (send_alert Scenario.sender Scenario.recovering) = Ok true
      <-> exists k, 1 <= k <= 3
                    /\ delivered_at Scenario.recovering k = true).
Proof.
  apply (send_alert_result Scenario.sender Scenario.recovering).
  - cbn. lia.
  - reflexivity.
Defined.

(** The three cases: a delay of -1 s, delays of 9223372037 s either side
    of zero, and a delay of 9223372036 s on a Linux host whose clock reads
    13962 s, where the wait would end after the clock's last second. *)
Lemma send_alert_rejected_delay_witness :
  send_alert MoreSenders.hasty Scenario.down
  = (Raise ValueError, [Posted 1 (Raise Timeout)])
  /\ send_alert MoreSenders.reckless Scenario.down
     = (Raise OverflowError, [Posted 1 (Raise Timeout)])
  /\ send_alert MoreSenders.patient Scenario.down
     = (Raise OverflowError, [Posted 1 (Raise Timeout)])
  /\ @send_alert (Hosts.linux 13962000000000) MoreSenders.lasting Scenario.down
     = (Raise OSError, [Posted 1 (Raise Timeout)]).
Proof.
  assert (Hthree : 2 <= 3) by lia.
  split; [| split; [| split]].
  - apply (proj1 (send_alert_rejected_delay MoreSenders.hasty Scenario.down
                    Hthree eq_refl)).
    cbn. lia.
  - apply (proj1 (proj2 (send_alert_rejected_delay MoreSenders.reckless
                           Scenario.down Hthree eq_refl))).
    left. cbn. lia.
  - apply (proj1 (proj2 (send_alert_rejected_delay MoreSenders.patient
                           Scenario.down Hthree eq_refl))).
    right. cbn. lia.
  - apply (proj2 (proj2 (@send_alert_rejected_delay
                           (Hosts.linux 13962000000000) MoreSenders.lasting
                           Scenario.down Hthree eq_refl))).
    + cbn. lia.
    + reflexivity.
Defined.

Lemma send_alert_first_request_witness :
  send_alert MoreSenders.idle Scenario.recovering = (Ok false, [])
  /\ exists more,
       snd (send_alert Scenario.sender Scenario.recovering)
       = Posted 1 (Scenario.recovering 1) :: more.
Proof.
  split.
  - apply (proj1 (send_alert_first_request MoreSenders.idle Scenario.recovering)).
    cbn. lia.
  - apply (proj2 (send_alert_first_request Scenario.sender Scenario.recovering)).
    cbn. lia.
Defined.

Lemma send_alert_no_trailing_wait_witness :
  ~ ends_with_wait (snd (send_alert Scenario.sender Scenario.down)).
Proof.
  apply (send_alert_no_trailing_wait Scenario.sender Scenario.down false).
  reflexivity.
Defined.

Lemma send_alert_single_attempt_witness :
  send_alert MoreSenders.single Scenario.down
  = test_connection MoreSenders.single Scenario.down.
Proof.
  apply (send_alert_single_attempt MoreSenders.single Scenario.down).
  reflexivity.
Defined.

(** * The pink detector *)

(** An instant that is computed is the instant plus the length. *)
Lemma datetime_plus_seconds_ok t n until :
  datetime_plus_seconds t n = Ok until -> until = t + timedelta_seconds n.
Proof.
  unfold datetime_plus_seconds.
  destruct (negb (timedelta_in_range n)); [discriminate |].
  destruct (datetime_in_range _); [| discriminate].
  intros [= <-]. reflexivity.
Qed.

Lemma datetime_plus_seconds_in_range t n :
  timedelta_in_range n = true ->
  datetime_in_range (t + timedelta_seconds n) = true ->
  datetime_plus_seconds t n = Ok (t + timedelta_seconds n).
Proof.
  intros Hn Ht. unfold datetime_plus_seconds. rewrite Hn, Ht. reflexivity.
Qed.

Lemma datetime_in_range_bounds t :
  datetime_min <= t <= datetime_max -> datetime_in_range t = true.
Proof.
  intros Ht. unfold datetime_in_range.
  apply andb_true_intro. split; apply Z.leb_le; lia.
Qed.

Section PinkFacts.

Variable cfg : Pink.Config.

(** [_add_to_history] keeps the cooldown and the last check. *)
Lemma pink_add_keeps self detection :
  Pink.alert_cooldown_until (fst (Pink._add_to_history self detection))
  = Pink.alert_cooldown_until self.
Proof.
  unfold Pink._add_to_history.
  destruct (datetime_minus_seconds _ 60); reflexivity.
Qed.

(** The scan of the contours touches the cooldown only when it alerts, and
    then sets it 10 s after the call. *)
Lemma pink_scan_cooldown now : forall contours self,
  match Pink.scan_contours cfg now contours self with
  | (self', Ok (Some _)) =>
      Pink.alert_cooldown_until self' = Some (now + timedelta_seconds 10)
  | (self', _) =>
      Pink.alert_cooldown_until self' = Pink.alert_cooldown_until self
  end.
Proof.
  induction contours as [| contour contours IH]; intros self;
    cbn [Pink.scan_contours]; [reflexivity |].
  destruct (Pink.large cfg contour); [| apply IH].
  pose proof (pink_add_keeps self (Pink.detection_of contour now)) as Hkeep.
  destruct (Pink._add_to_history self (Pink.detection_of contour now))
    as [self1 [[] | e]]; cbn [fst] in Hkeep; [| exact Hkeep].
  destruct (Pink._check_persistence cfg now self1) as [[|] | e];
    [| | exact Hkeep].
  - destruct (datetime_plus_seconds now 10) as [until | e] eqn:Hplus;
      [| exact Hkeep].
    apply datetime_plus_seconds_ok in Hplus. subst until. reflexivity.
  - specialize (IH self1). rewrite Hkeep in IH. exact IH.
Qed.

Lemma pink_cooling_step bound self frame now :
  Pink.cooling_until bound self ->
  Pink.cooling_until bound (fst (Pink.detect_pink_object cfg self frame now))
  /\ (now < bound -> snd (Pink.detect_pink_object cfg self frame now) = None).
Proof.
  intros (until & Hset & Hle). unfold Pink.detect_pink_object.
  destruct (Pink.should_check_frame cfg self now); cbn [negb fst snd];
    [| split; [exists until; auto | reflexivity]].
  destruct (Pink.in_cooldown _ now) eqn:Hcool; cbn [fst snd].
  { split; [exists until; auto | reflexivity]. }
  unfold Pink.in_cooldown in Hcool. cbn [Pink.alert_cooldown_until] in Hcool.
  rewrite Hset in Hcool. apply Z.ltb_ge in Hcool.
  destruct frame as [contours | e]; cbn [fst snd];
    [| split; [exists until; auto | intros; lia]].
  pose proof (pink_scan_cooldown now contours
                (Pink.mkState (Pink.detections_history self) (Some now)
                              (Pink.alert_cooldown_until self))) as Hscan.
  destruct (Pink.scan_contours cfg now contours _) as [self' [[alert |] | e]];
    cbn [fst snd Pink.alert_cooldown_until] in *.
  - split; [| intros; lia].
    exists (now + timedelta_seconds 10). split; [exact Hscan |].
    unfold timedelta_seconds. lia.
  - split; [| reflexivity]. exists until. split; [congruence | exact Hle].
  - split; [| reflexivity]. exists until. split; [congruence | exact Hle].
Qed.

Lemma pink_cooling_run bound calls : forall self,
  Pink.cooling_until bound self ->
  Forall2 (fun call r => snd call < bound -> r = None)
          calls (snd (Pink.run cfg self calls)).
Proof.
  induction calls as [| [frame now] calls IH]; intros self Hc; cbn [Pink.run].
  - constructor.
  - destruct (pink_cooling_step bound self frame now Hc) as [Hc' Hnone].
    destruct (Pink.detect_pink_object cfg self frame now) as [self' r].
    cbn [fst snd] in Hc', Hnone. specialize (IH self' Hc').
    destruct (Pink.run cfg self' calls) as [self'' rs]. cbn [snd] in IH |- *.
    constructor; [exact Hnone | exact IH].
Qed.

(** The cooldown of the pink detector: an alert returned at [T] leaves
    [alert_cooldown_until = T + 10 s], and in every continuation of the run
    each call stamped before [T + 10 s] returns [None]. *)
Theorem pink_cooldown self frame T self1 alert :
  Pink.detect_pink_object cfg self frame T = (self1, Some alert) ->
  Pink.alert_cooldown_until self1 = Some (T + timedelta_seconds 10)
  /\ forall calls,
       Forall2 (fun call r => snd call < T + timedelta_seconds 10 -> r = None)
               calls (snd (Pink.run cfg self1 calls)).
Proof.
  unfold Pink.detect_pink_object.
  destruct (Pink.should_check_frame cfg self T); cbn [negb]; [| discriminate].
  destruct (Pink.in_cooldown _ T); [discriminate |].
  destruct frame as [contours | e]; [| discriminate].
  pose proof (pink_scan_cooldown T contours
                (Pink.mkState (Pink.detections_history self) (Some T)
                              (Pink.alert_cooldown_until self))) as Hscan.
  destruct (Pink.scan_contours cfg T contours _) as [self' [[a |] | e]];
    try discriminate.
  intros [= <- <-].
  split; [exact Hscan |].
  intros calls. apply pink_cooling_run.
  exists (T + timedelta_seconds 10). split; [exact Hscan | lia].
Qed.

(** When the instant 60 s before the detection is a datetime,
    [_add_to_history] returns, and the entries stamped [now] survive the
    pruning. *)
Lemma pink_stamped_add self detection now :
  Pink.timestamp detection = now ->
  datetime_min + timedelta_seconds 60 <= now <= datetime_max ->
  exists self1,
    Pink._add_to_history self detection = (self1, Ok tt)
    /\ Pink.stamped now (Pink.detections_history self1)
       = S (Pink.stamped now (Pink.detections_history self)).
Proof.
  intros Hts Hnow. unfold Pink._add_to_history. rewrite Hts.
  rewrite datetime_minus_seconds_in_range;
    [| reflexivity
     | apply datetime_in_range_bounds;
       unfold timedelta_seconds, datetime_max in *; lia].
  eexists. split; [reflexivity |].
  unfold Pink.stamped. cbn [Pink.detections_history].
  induction (Pink.detections_history self) as [| d h IH]; cbn [app filter].
  - replace (now - timedelta_seconds 60 <? Pink.timestamp detection) with true
      by (symmetry; apply Z.ltb_lt; unfold timedelta_seconds; lia).
    cbn [filter]. rewrite Hts, Z.eqb_refl. reflexivity.
  - destruct (Pink.timestamp d =? now) eqn:Hd.
    + apply Z.eqb_eq in Hd.
      replace (now - timedelta_seconds 60 <? Pink.timestamp d) with true
        by (symmetry; apply Z.ltb_lt; unfold timedelta_seconds; lia).
      cbn [filter]. rewrite (proj2 (Z.eqb_eq _ _) Hd).
      cbn [List.length]. rewrite IH. reflexivity.
    + destruct (now - timedelta_seconds 60 <? Pink.timestamp d);
        [cbn [filter]; rewrite Hd |]; exact IH.
Qed.

Lemma pink_stamped_le_length now history :
  (Pink.stamped now history <= List.length history)%nat.
Proof.
  unfold Pink.stamped. apply filter_length_le.
Qed.

(** Entries stamped [now] count as recent. *)
Lemma pink_stamped_le_recent now history :
  0 < Pink.persistence_seconds cfg ->
  (Pink.stamped now history
   <= List.length
        (Pink.recent_since
           (now - timedelta_seconds (Pink.persistence_seconds cfg))%Z
           history))%nat.
Proof.
  intros Hp. unfold Pink.stamped, Pink.recent_since.
  induction history as [| d h IH]; cbn [filter]; [lia |].
  destruct (Pink.timestamp d =? now) eqn:Hd.
  - apply Z.eqb_eq in Hd.
    replace (now - timedelta_seconds (Pink.persistence_seconds cfg)
             <? Pink.timestamp d) with true
      by (symmetry; apply Z.ltb_lt; unfold timedelta_seconds; lia).
    cbn [List.length]. lia.
  - destruct (_ <? Pink.timestamp d); cbn [List.length]; lia.
Qed.

Lemma pink_detection_of_timestamp contour now :
  Pink.timestamp (Pink.detection_of contour now) = now.
Proof.
  unfold Pink.detection_of. destruct (Pink.boundingRect contour) as [[[x y] w] h].
  reflexivity.
Qed.

(** A length of seconds that fits between two datetimes is one of a
    timedelta. *)
Lemma timedelta_in_range_between n now :
  0 < n ->
  datetime_min + timedelta_seconds n <= now <= datetime_max ->
  timedelta_in_range n = true.
Proof.
  intros Hn Hnow. unfold timedelta_in_range.
  unfold timedelta_seconds, datetime_min, datetime_max in Hnow.
  assert (0 <= n / 86400) by (apply Z.div_pos; lia).
  assert (n / 86400 <= 999999999).
  { apply Z.lt_succ_r. apply Z.div_lt_upper_bound; lia. }
  apply andb_true_intro. split; apply Z.leb_le; lia.
Qed.

Lemma pink_scan_burst now r :
  Pink.required cfg = Ok r ->
  0 < Pink.persistence_seconds cfg ->
  datetime_min + timedelta_seconds 60 <= now ->
  datetime_min + timedelta_seconds (Pink.persistence_seconds cfg) <= now ->
  now + timedelta_seconds 10 <= datetime_max ->
  forall contours self k,
    (k <= Pink.stamped now (Pink.detections_history self))%nat ->
    Z.max 2 r <= Z.of_nat k
                 + Z.of_nat (List.length (filter (Pink.large cfg) contours)) ->
    (1 <= List.length (filter (Pink.large cfg) contours))%nat ->
    exists self' alert,
      Pink.scan_contours cfg now contours self = (self', Ok (Some alert)).
Proof.
  intros Hreq Hp H60 Hcut H10.
  assert (Hmax : now <= datetime_max) by (unfold timedelta_seconds in H10; lia).
  assert (Hminus : datetime_minus_seconds now (Pink.persistence_seconds cfg)
                   = Ok (now - timedelta_seconds (Pink.persistence_seconds cfg))).
  { apply datetime_minus_seconds_in_range.
    - apply (timedelta_in_range_between _ now Hp). lia.
    - apply datetime_in_range_bounds. unfold timedelta_seconds in *. lia. }
  assert (Hplus : datetime_plus_seconds now 10
                  = Ok (now + timedelta_seconds 10)).
  { apply datetime_plus_seconds_in_range; [reflexivity |].
    apply datetime_in_range_bounds.
    unfold timedelta_seconds, datetime_min in *. lia. }
  induction contours as [| contour contours IH]; intros self k Hk Hmany Hone;
    cbn [filter Pink.scan_contours] in *; [cbn in Hone; lia |].
  destruct (Pink.large cfg contour); [| exact (IH self k Hk Hmany Hone)].
  cbn [List.length] in Hmany.
  destruct (pink_stamped_add self (Pink.detection_of contour now) now
              (pink_detection_of_timestamp _ _) (conj H60 Hmax))
    as (self1 & Hadd & Hstamped).
  rewrite Hadd.
  assert (Hk1 : (S k <= Pink.stamped now (Pink.detections_history self1))%nat)
    by lia.
  pose proof (pink_stamped_le_length now (Pink.detections_history self1)) as Hlen.
  pose proof (pink_stamped_le_recent now (Pink.detections_history self1) Hp)
    as Hrec.
  unfold Pink._check_persistence. rewrite Hminus, Hreq, Hplus.
  destruct (Z.le_gt_cases (Z.max 2 r) (Z.of_nat (S k))) as [Henough | Hmore].
  - replace (List.length (Pink.detections_history self1) <? 2)%nat with false
      by (symmetry; apply Nat.ltb_ge; lia).
    replace (r <=? _) with true by (symmetry; apply Z.leb_le; lia).
    eexists. eexists. reflexivity.
  - destruct (List.length (Pink.detections_history self1) <? 2)%nat.
    + apply (IH self1 (S k) Hk1); lia.
    + destruct (r <=? _).
      * eexists. eexists. reflexivity.
      * apply (IH self1 (S k) Hk1); lia.
Qed.

(** One frame is enough for the pink detector: when a call passes both
    gates and its frame shows at least [max(2, required)] contours above
    the area threshold, the call returns an alert, whatever the history
    was. Each large contour of a frame is a sample of its own. The call is
    taken where the dates the code computes exist: the instants 60 s and
    persistence_seconds before it, and the instant 10 s after it, are
    within the years 1 to 9999. *)
Theorem pink_single_frame_alert self contours now r :
  Pink.should_check_frame cfg self now = true ->
  Pink.in_cooldown self now = false ->
  Pink.required cfg = Ok r ->
  0 < Pink.persistence_seconds cfg ->
  datetime_min + timedelta_seconds 60 <= now ->
  datetime_min + timedelta_seconds (Pink.persistence_seconds cfg) <= now ->
  now + timedelta_seconds 10 <= datetime_max ->
  Z.max 2 r <= Z.of_nat (List.length (filter (Pink.large cfg) contours)) ->
  exists alert,
    snd (Pink.detect_pink_object cfg self (Ok contours) now) = Some alert.
Proof.
  intros Hgate Hcool Hreq Hp H60 Hcut H10 Hmany. unfold Pink.detect_pink_object.
  rewrite Hgate. cbn [negb].
  change (Pink.in_cooldown
            (Pink.mkState (Pink.detections_history self) (Some now)
                          (Pink.alert_cooldown_until self)) now)
    with (Pink.in_cooldown self now).
  rewrite Hcool.
  destruct (pink_scan_burst now r Hreq Hp H60 Hcut H10 contours
              (Pink.mkState (Pink.detections_history self) (Some now)
                            (Pink.alert_cooldown_until self)) 0)
    as (self' & alert & Hscan); [lia | lia | lia |].
  rewrite Hscan. exists alert. reflexivity.
Qed.

(** What the scan of the contours reports when it alerts: the contour that
    made it alert, and the history it leaves. *)
Lemma pink_scan_alert now : forall contours self self' alert,
  Pink.scan_contours cfg now contours self = (self', Ok (Some alert)) ->
  exists contour x y w h,
    In contour contours
    /\ Pink.large cfg contour = true
    /\ Pink.boundingRect contour = (x, y, w, h)
    /\ Pink.bounding_box alert = [x; y; x + w; y + h]
    /\ Pink.area_pixels alert = Pink.contourArea contour
    /\ Pink.confidence_score alert
       = PyFloat.min (Pink.contourArea contour / 50000)%float 1%float
    /\ Pink.when alert = now
    /\ Pink.detection_count_in_period alert
       = List.length (Pink.detections_history self')
    /\ (2 <= Pink.detection_count_in_period alert)%nat.
Proof.
  induction contours as [| contour contours IH]; intros self self' alert;
    cbn [Pink.scan_contours]; [discriminate |].
  assert (Hlater : forall self0,
    Pink.scan_contours cfg now contours self0 = (self', Ok (Some alert)) ->
    exists contour0 x y w h,
      In contour0 (contour :: contours)
      /\ Pink.large cfg contour0 = true
      /\ Pink.boundingRect contour0 = (x, y, w, h)
      /\ Pink.bounding_box alert = [x; y; x + w; y + h]
      /\ Pink.area_pixels alert = Pink.contourArea contour0
      /\ Pink.confidence_score alert
         = PyFloat.min (Pink.contourArea contour0 / 50000)%float 1%float
      /\ Pink.when alert = now
      /\ Pink.detection_count_in_period alert
         = List.length (Pink.detections_history self')
      /\ (2 <= Pink.detection_count_in_period alert)%nat).
  { intros self0 Hscan.
    destruct (IH self0 self' alert Hscan) as (c & x & y & w & h & Hin & Hrest).
    exists c, x, y, w, h. split; [right; exact Hin | exact Hrest]. }
  destruct (Pink.large cfg contour) eqn:Hlarge; [| apply Hlater].
  destruct (Pink._add_to_history self (Pink.detection_of contour now))
    as [self1 [[] | e]]; [| discriminate].
  destruct (Pink._check_persistence cfg now self1) as [[|] | e] eqn:Hper;
    [| apply Hlater | discriminate].
  assert (Hlen : (2 <= List.length (Pink.detections_history self1))%nat).
  { unfold Pink._check_persistence in Hper.
    destruct (List.length _ <? 2)%nat eqn:Hlen; [discriminate |].
    apply Nat.ltb_ge in Hlen. exact Hlen. }
  destruct (datetime_plus_seconds now 10) as [until | e]; [| discriminate].
  intros [= <- <-]. unfold Pink._create_alert, Pink.detection_of.
  destruct (Pink.boundingRect contour) as [[[x y] w] h] eqn:Hrect.
  cbn [Pink.confidence_score Pink.area_pixels Pink.bounding_box Pink.when
       Pink.detection_count_in_period Pink.score Pink.area Pink.box
       Pink.detections_history].
  exists contour, x, y, w, h.
  split; [left; reflexivity |].
  split; [exact Hlarge |]. split; [exact Hrect |].
  repeat (split; [reflexivity |]). exact Hlen.
Qed.

(** What a pink alert reports comes from one contour of the frame whose
    area exceeds the area threshold: its box is [x, y, x + w, y + h] for the
    bounding rectangle [(x, y, w, h)] of that contour, its area is the
    area of that contour, its score is [min(area / 50000, 1.0)], which is
    not above 1; it is stamped with the call, and it counts the samples of
    the history the call leaves, at least two. *)
Theorem pink_alert_shape self frame now self' alert :
  Pink.detect_pink_object cfg self frame now = (self', Some alert) ->
  exists contours contour x y w h,
    frame = Ok contours
    /\ In contour contours
    /\ PyFloat.gt_int (Pink.contourArea contour) (Pink.area_threshold cfg)
       = true
    /\ Pink.boundingRect contour = (x, y, w, h)
    /\ Pink.bounding_box alert = [x; y; x + w; y + h]
    /\ Pink.area_pixels alert = Pink.contourArea contour
    /\ Pink.confidence_score alert
       = PyFloat.min (Pink.contourArea contour / 50000)%float 1%float
    /\ (1 <? Pink.confidence_score alert)%float = false
    /\ Pink.when alert = now
    /\ Pink.detection_count_in_period alert
       = List.length (Pink.detections_history self')
    /\ (2 <= Pink.detection_count_in_period alert)%nat.
Proof.
  unfold Pink.detect_pink_object.
  destruct (Pink.should_check_frame cfg self now); cbn [negb]; [| discriminate].
  destruct (Pink.in_cooldown _ now); [discriminate |].
  destruct frame as [contours | e]; [| discriminate].
  destruct (Pink.scan_contours cfg now contours _) as [s [[a |] | e]] eqn:Hscan;
    try discriminate.
  intros [= <- <-].
  destruct (pink_scan_alert now contours _ _ _ Hscan)
    as (contour & x & y & w & h & Hin & Hlarge & Hrect & Hbox & Harea & Hscore
        & Hwhen & Hcount & Htwo).
  exists contours, contour, x, y, w, h.
  split; [reflexivity |]. split; [exact Hin |]. split; [exact Hlarge |].
  split; [exact Hrect |]. split; [exact Hbox |]. split; [exact Harea |].
  split; [exact Hscore |]. split.
  { rewrite Hscore. unfold PyFloat.min.
    destruct (1 <? Pink.contourArea contour / 50000)%float eqn:Hbig;
      [reflexivity | exact Hbig]. }
  split; [exact Hwhen |]. split; [exact Hcount | exact Htwo].
Qed.

End PinkFacts.

Lemma pink_cooldown_witness :
  Pink.alert_cooldown_until
    (fst (Pink.detect_pink_object Pink.defaults Pink.init
            (Ok [Pink.speck; Pink.blob 0; Pink.blob 300; Pink.blob 600])
            (Scenario.at_s 0)))
  = Some (Scenario.at_s 0 + timedelta_seconds 10)
  /\ forall calls,
       Forall2 (fun call r =>
                  snd call < Scenario.at_s 0 + timedelta_seconds 10 -> r = None)
               calls
               (snd (Pink.run Pink.defaults
                       (fst (Pink.detect_pink_object Pink.defaults Pink.init
                               (Ok [Pink.speck; Pink.blob 0; Pink.blob 300;
                                    Pink.blob 600])
                               (Scenario.at_s 0)))
                       calls)).
Proof.
  apply (pink_cooldown Pink.defaults Pink.init
           (Ok [Pink.speck; Pink.blob 0; Pink.blob 300; Pink.blob 600])
           (Scenario.at_s 0) _
           (Pink.mkAlert (Scenario.at_s 0) [300; 10; 500; 110] 20000%float
              (Pink.score (Pink.detection_of (Pink.blob 300) (Scenario.at_s 0)))
              500 2 3)).
  reflexivity.
Defined.

Lemma pink_single_frame_alert_witness :
  exists alert,
    snd (Pink.detect_pink_object Pink.defaults Pink.init
           (Ok [Pink.speck; Pink.blob 0; Pink.blob 300; Pink.blob 600])
           (Scenario.at_s 0))
    = Some alert.
Proof.
  apply (pink_single_frame_alert Pink.defaults Pink.init
           [Pink.speck; Pink.blob 0; Pink.blob 300; Pink.blob 600]
           (Scenario.at_s 0) 2).
  - reflexivity.
  - reflexivity.
  - reflexivity.
  - cbn. lia.
  - vm_compute. discriminate.
  - vm_compute. discriminate.
  - vm_compute. discriminate.
  - vm_compute. discriminate.
Defined.

Lemma pink_alert_shape_witness :
  exists contours contour x y w h,
    Ok [Pink.speck; Pink.blob 0; Pink.blob 300; Pink.blob 600] = Ok contours
    /\ In contour contours
    /\ PyFloat.gt_int (Pink.contourArea contour)
         (Pink.area_threshold Pink.defaults) = true
    /\ Pink.boundingRect contour = (x, y, w, h)
    /\ [300; 10; 500; 110] = [x; y; x + w; y + h]
    /\ 20000%float = Pink.contourArea contour
    /\ Pink.score (Pink.detection_of (Pink.blob 300) (Scenario.at_s 0))
       = PyFloat.min (Pink.contourArea contour / 50000)%float 1%float
    /\ (1 <? Pink.score (Pink.detection_of (Pink.blob 300) (Scenario.at_s 0)))%float
       = false
    /\ Scenario.at_s 0 = Scenario.at_s 0
    /\ 2%nat
       = List.length
           (Pink.detections_history
              (fst (Pink.detect_pink_object Pink.defaults Pink.init
                      (Ok [Pink.speck; Pink.blob 0; Pink.blob 300; Pink.blob 600])
                      (Scenario.at_s 0))))
    /\ (2 <= 2)%nat.
Proof.
  apply (pink_alert_shape Pink.defaults Pink.init
           (Ok [Pink.speck; Pink.blob 0; Pink.blob 300; Pink.blob 600])
           (Scenario.at_s 0)
           (fst (Pink.detect_pink_object Pink.defaults Pink.init
                   (Ok [Pink.speck; Pink.blob 0; Pink.blob 300; Pink.blob 600])
                   (Scenario.at_s 0)))
           (Pink.mkAlert (Scenario.at_s 0) [300; 10; 500; 110] 20000%float
              (Pink.score (Pink.detection_of (Pink.blob 300) (Scenario.at_s 0)))
              500 2 3)).
  reflexivity.
Defined.

(** * The stream *)

Section StreamFacts.

Context {host : Host} {F W : Type}.
Variable callback : Rtsp.Callback F W.
Variable clock : nat -> Rtsp.Tick.






Lemma stream_loop_handed frame_interval max_frames :
  Rtsp.returns callback ->
  Rtsp.accepted_waits frame_interval clock ->
  forall answers count w done slept,
    let e := Rtsp.stream_loop frame_interval max_frames callback clock
                              answers count w done slept in
    Rtsp.raised e = Ok tt
    /\ map fst (Rtsp.handed e)
       = map fst done ++ Rtsp.quota max_frames count (Rtsp.leading answers).
Proof.
  intros Hret Hfin.
  induction answers as [| [frame |] answers IH]; intros count w done slept;
    cbn [Rtsp.stream_loop Rtsp.leading].
  - cbn. split; [reflexivity |].
    unfold Rtsp.quota. destruct max_frames as [m |]; [destruct (m =? 0) |];
      rewrite ?firstn_nil, app_nil_r; reflexivity.
  - specialize (Hret frame (Rtsp.timestamp (clock count)) w).
    destruct (callback frame (Rtsp.timestamp (clock count)) w) as [w' sig].
    cbn [snd] in Hret. subst sig.
    destruct (Rtsp.limit_reached max_frames (S count)) eqn:Hlimit.
    + cbn [Rtsp.raised Rtsp.handed]. split; [reflexivity |].
      rewrite map_app. cbn [map fst]. f_equal.
      unfold Rtsp.limit_reached in Hlimit. unfold Rtsp.quota.
      destruct max_frames as [m |]; [| discriminate].
      destruct (m =? 0); [discriminate |]. cbn [negb andb] in Hlimit.
      apply Z.leb_le in Hlimit.
      replace (Z.to_nat (Z.max 1 (m - Z.of_nat count))) with 1%nat by lia.
      cbn [firstn]. reflexivity.
    + rewrite (Hfin count).
      destruct (IH (S count) w' (done ++ [(frame, Rtsp.timestamp (clock count))])
                   (slept ++ [Rtsp.sleep_time frame_interval (clock count)]))
        as [Hok Hhanded].
      split; [exact Hok |]. rewrite Hhanded.
      rewrite map_app, <- app_assoc. cbn [map fst app]. f_equal.
      unfold Rtsp.limit_reached in Hlimit. unfold Rtsp.quota.
      destruct max_frames as [m |]; [| reflexivity].
      destruct (m =? 0); [reflexivity |]. cbn [negb andb] in Hlimit.
      apply Z.leb_gt in Hlimit.
      replace (Z.to_nat (Z.max 1 (m - Z.of_nat count)))
        with (S (Z.to_nat (Z.max 1 (m - Z.of_nat (S count))))) by lia.
      cbn [firstn]. reflexivity.
  - cbn. split; [reflexivity |].
    unfold Rtsp.quota. destruct max_frames as [m |]; [destruct (m =? 0) |];
      rewrite ?firstn_nil, app_nil_r; reflexivity.
Qed.

(** Each turn of the loop takes the answer [get_frame] returns on a
    connected stream, and leaves the capture what [get_frame] leaves. *)
Lemma get_frame_takes_next (self : Rtsp.RTSPStream F) c answer rest :
  Rtsp.cap self = Some c ->
  Rtsp.reads c = answer :: rest ->
  exists c',
    Rtsp.get_frame self = (Rtsp.mkStream (Rtsp.fps_target self) (Some c'),
                           Ok answer)
    /\ Rtsp.reads c' = rest
    /\ Rtsp.released c' = Rtsp.released c.
Proof.
  intros Hcap Hreads. unfold Rtsp.get_frame. rewrite Hcap, Hreads.
  eexists. split; [reflexivity |]. split; reflexivity.
Qed.

(** The frame limit. With a callback that returns, on a connected stream
    whose fps_target gives a frame interval (it is not 0 and converts to a
    float), and with clocks whose waits [time.sleep] accepts,
    [process_stream] ends without raising and hands to the callback the
    frames the capture gives up to its first failed read: all of them when
    max_frames is [None] or 0, the first max_frames of them when max_frames
    is positive, and the first one alone when max_frames is negative. *)
Theorem process_stream_frame_limit (self : Rtsp.RTSPStream F) c max_frames w
    interval :
  Rtsp.returns callback ->
  Rtsp.frame_interval self = Ok interval ->
  Rtsp.accepted_waits interval clock ->
  Rtsp.cap self = Some c ->
  let e := snd (Rtsp.process_stream self callback max_frames clock w) in
  Rtsp.raised e = Ok tt
  /\ map fst (Rtsp.handed e)
     = match max_frames with
       | None => Rtsp.leading (Rtsp.reads c)
       | Some m =>
           if m =? 0 then Rtsp.leading (Rtsp.reads c)
           else firstn (Z.to_nat (Z.max 1 m)) (Rtsp.leading (Rtsp.reads c))
       end.
Proof.
  intros Hret Hfps Hfin Hcap. unfold Rtsp.process_stream.
  rewrite Hfps, Hcap. cbn [snd].
  destruct (stream_loop_handed _ max_frames Hret Hfin (Rtsp.reads c) 0 w [] [])
    as [Hok Hhanded].
  split; [exact Hok |]. rewrite Hhanded. cbn [map app]. unfold Rtsp.quota.
  destruct max_frames as [m |]; [| reflexivity].
  destruct (m =? 0); [reflexivity |]. do 2 f_equal. lia.
Qed.

Lemma stream_loop_zero_limit frame_interval :
  forall answers count w done slept,
    Rtsp.stream_loop frame_interval (Some 0) callback clock
                     answers count w done slept
    = Rtsp.stream_loop frame_interval None callback clock
                       answers count w done slept.
Proof.
  induction answers as [| [frame |] answers IH]; intros count w done slept;
    cbn [Rtsp.stream_loop]; try reflexivity.
  destruct (callback frame (Rtsp.timestamp (clock count)) w) as [w' [| e |]];
    try reflexivity.
  change (Rtsp.limit_reached (Some 0) (S count)) with false.
  change (Rtsp.limit_reached None (S count)) with false.
  destruct (Rtsp.sleep _); [apply IH | reflexivity].
Qed.

(** A limit of 0 frames is no limit: [max_frames = 0] does what
    [max_frames = None] does. *)
Theorem process_stream_zero_limit (self : Rtsp.RTSPStream F) w :
  Rtsp.process_stream self callback (Some 0) clock w
  = Rtsp.process_stream self callback None clock w.
Proof.
  unfold Rtsp.process_stream.
  destruct (Rtsp.frame_interval self); [| reflexivity].
  destruct (Rtsp.cap self) as [c |]; [| reflexivity].
  rewrite stream_loop_zero_limit. reflexivity.
Qed.

(** The loop takes the answers of the capture in order, and at most one
    more than the frames it hands over. *)
Lemma stream_loop_pending frame_interval max_frames :
  forall answers count w done slept,
    let e := Rtsp.stream_loop frame_interval max_frames callback clock
                              answers count w done slept in
    exists used,
      answers = used ++ Rtsp.pending e
      /\ (List.length done + List.length used
          <= S (List.length (Rtsp.handed e)))%nat.
Proof.
  induction answers as [| [frame |] answers IH]; intros count w done slept;
    cbn [Rtsp.stream_loop].
  - exists []. cbn. split; [reflexivity | lia].
  - assert (Hone : exists used,
               Some frame :: answers = used ++ answers
               /\ (List.length done + List.length used
                   <= S (List.length
                           (done ++ [(frame, Rtsp.timestamp (clock count))])))%nat).
    { exists [Some frame]. rewrite length_app. cbn. split; [reflexivity | lia]. }
    destruct (callback frame (Rtsp.timestamp (clock count)) w) as [w' [| e |]];
      try exact Hone.
    destruct (Rtsp.limit_reached max_frames (S count)); [exact Hone |].
    destruct (Rtsp.sleep _); [| exact Hone].
    destruct (IH (S count) w' (done ++ [(frame, Rtsp.timestamp (clock count))])
                 (slept ++ [Rtsp.sleep_time frame_interval (clock count)]))
      as (used & Heq & Hlen).
    exists (Some frame :: used). split.
    + cbn [app]. f_equal. exact Heq.
    + rewrite length_app in Hlen. cbn [List.length] in Hlen |- *. lia.
  - exists [None]. cbn. split; [reflexivity | lia].
Qed.

(** The [finally]. When the division [1.0 / fps_target] gives a frame
    interval, the capture of a connected stream is released when
    [process_stream] ends, however the callback and the waits end, and it
    still holds the answers that were not taken: the loop takes them in
    order, at most one more than the frames handed to the callback. When
    the division raises, it does so before the [try]: the exception leaves
    [process_stream], nothing is read and the capture is left as it was,
    not released. The division raises [ZeroDivisionError] for fps_target =
    0, and [OverflowError] for an fps_target beyond the floats, such as
    10^400. *)
Theorem process_stream_release (self : Rtsp.RTSPStream F) c max_frames w :
  Rtsp.cap self = Some c ->
  (forall interval,
      Rtsp.frame_interval self = Ok interval ->
      exists c' used,
        Rtsp.cap (fst (Rtsp.process_stream self callback max_frames clock w))
        = Some c'
        /\ Rtsp.released c' = true
        /\ Rtsp.reads c = used ++ Rtsp.reads c'
        /\ (List.length used
            <= S (List.length
                    (Rtsp.handed
                       (snd (Rtsp.process_stream self callback max_frames
                                                 clock w)))))%nat)
  /\ (forall e,
         Rtsp.frame_interval self = Raise e ->
         Rtsp.process_stream self callback max_frames clock w
         = (self, Rtsp.mkEnding (Raise e) w (Rtsp.reads c) [] []))
  /\ (Rtsp.fps_target self = 0 ->
      Rtsp.frame_interval self = Raise ZeroDivisionError)
  /\ (Rtsp.fps_target self = 10 ^ 400 ->
      Rtsp.frame_interval self = Raise OverflowError).
Proof.
  intros Hcap. unfold Rtsp.process_stream. rewrite Hcap.
  split; [| split; [| split]].
  - intros interval Hfps. rewrite Hfps.
    destruct (stream_loop_pending interval max_frames (Rtsp.reads c) 0 w [] [])
      as (used & Heq & Hlen).
    cbn. eexists. exists used. split; [reflexivity |].
    split; [reflexivity |]. split; [exact Heq | exact Hlen].
  - intros e Hfps. rewrite Hfps. reflexivity.
  - intros Hfps. unfold Rtsp.frame_interval. rewrite Hfps. reflexivity.
  - intros Hfps. unfold Rtsp.frame_interval. rewrite Hfps.
    vm_compute. reflexivity.
Qed.





(** What every call of the callback keeps, the loop keeps. *)
Lemma stream_loop_world (I : W -> Prop) frame_interval max_frames :
  (forall frame now w, I w -> I (fst (callback frame now w))) ->
  forall answers count w done slept,
    I w ->
    I (Rtsp.world (Rtsp.stream_loop frame_interval max_frames callback clock
                                    answers count w done slept)).
Proof.
  intros Hkeep.
  induction answers as [| [frame |] answers IH]; intros count w done slept Hw;
    cbn [Rtsp.stream_loop]; try exact Hw.
  specialize (Hkeep frame (Rtsp.timestamp (clock count)) w Hw).
  destruct (callback frame (Rtsp.timestamp (clock count)) w) as [w' [| e |]];
    cbn [fst] in Hkeep; try exact Hkeep.
  destruct (Rtsp.limit_reached max_frames (S count)); [exact Hkeep |].
  destruct (Rtsp.sleep _); [apply IH |]; exact Hkeep.
Qed.

End StreamFacts.

Lemma process_stream_frame_limit_witness :
  Rtsp.raised
    (snd (Rtsp.process_stream (Rtsp.mkStream 1 (Some Rtsp.camera))
            Rtsp.counting (Some 2) Rtsp.steady 0%nat))
  = Ok tt
  /\ map fst
       (Rtsp.handed
          (snd (Rtsp.process_stream (Rtsp.mkStream 1 (Some Rtsp.camera))
                  Rtsp.counting (Some 2) Rtsp.steady 0%nat)))
     = firstn 2 [7; 8; 9]%nat.
Proof.
  apply (process_stream_frame_limit Rtsp.counting Rtsp.steady
           (Rtsp.mkStream 1 (Some Rtsp.camera)) Rtsp.camera (Some 2) 0%nat
           1%float).
  - intros frame now w. reflexivity.
  - reflexivity.
  - intros n. reflexivity.
  - reflexivity.
Defined.

Lemma process_stream_release_witness :
  (exists c' used,
      Rtsp.cap (fst (Rtsp.process_stream (Rtsp.mkStream 1 (Some Rtsp.camera))
                       Rtsp.counting (Some 2%Z) Rtsp.steady 0%nat))
      = Some c'
      /\ Rtsp.released c' = true
      /\ Rtsp.reads Rtsp.camera = used ++ Rtsp.reads c'
      /\ (List.length used
          <= S (List.length
                  (Rtsp.handed
                     (snd (Rtsp.process_stream
                             (Rtsp.mkStream 1 (Some Rtsp.camera))
                             Rtsp.counting (Some 2%Z) Rtsp.steady 0%nat)))))%nat)
  /\ Rtsp.process_stream (Rtsp.mkStream 0 (Some Rtsp.camera))
       Rtsp.counting (Some 2%Z) Rtsp.steady 0%nat
     = (Rtsp.mkStream 0 (Some Rtsp.camera),
        Rtsp.mkEnding (Raise ZeroDivisionError) 0%nat (Rtsp.reads Rtsp.camera)
                      [] [])
  /\ Rtsp.process_stream (Rtsp.mkStream (10 ^ 400) (Some Rtsp.camera))
       Rtsp.counting (Some 2%Z) Rtsp.steady 0%nat
     = (Rtsp.mkStream (10 ^ 400) (Some Rtsp.camera),
        Rtsp.mkEnding (Raise OverflowError) 0%nat (Rtsp.reads Rtsp.camera)
                      [] []).
Proof.
  split; [| split].
  - apply (proj1 (process_stream_release Rtsp.counting Rtsp.steady
                    (Rtsp.mkStream 1 (Some Rtsp.camera)) Rtsp.camera (Some 2%Z)
                    0%nat eq_refl) 1%float).
    reflexivity.
  - apply (proj1 (proj2 (process_stream_release Rtsp.counting Rtsp.steady
                    (Rtsp.mkStream 0 (Some Rtsp.camera)) Rtsp.camera (Some 2%Z)
                    0%nat eq_refl))).
    reflexivity.
  - apply (proj1 (proj2 (process_stream_release Rtsp.counting Rtsp.steady
                    (Rtsp.mkStream (10 ^ 400) (Some Rtsp.camera)) Rtsp.camera
                    (Some 2%Z) 0%nat eq_refl))).
    vm_compute. reflexivity.
Defined.

(** * The orchestrator *)

Section Orchestrator.

Context {host : Host}.
Variable setup : Main.Setup.

Lemma process_frame_returns : Rtsp.returns (Main.process_frame setup).
Proof.
  intros frame now p. unfold Main.process_frame.
  destruct (Main.shutdown_requested p); [reflexivity |].
  destruct (detect_sleeping_person _ _ frame now) as [d [a |]]; [| reflexivity].
  destruct (send_alert _ _) as [[b | e] trace];
    [destruct (Main.save_log_at setup now) |]; reflexivity.
Qed.

(** One call of [process_frame] on a pipeline that is not shut down: the
    detector makes its call, and an alert, if any, is sent once. *)
Lemma process_frame_step frame now p :
  Main.shutdown_requested p = false ->
  let p' := fst (Main.process_frame setup frame now p) in
  let call := detect_sleeping_person (Main.detector_config setup)
                                     (Main.detector p) frame now in
  Main.shutdown_requested p' = false
  /\ Main.detector p' = fst call
  /\ Main.deliveries p'
     = Main.deliveries p
       ++ match snd call with
          | Some a => [(a, snd (send_alert (Main.webhook setup)
                                           (Main.endpoint_at setup (when a))))]
          | None => []
          end.
Proof.
  intros Hrun. cbv zeta. unfold Main.process_frame. rewrite Hrun.
  destruct (detect_sleeping_person _ _ frame now) as [d [a |]] eqn:Hcall;
    cbn [fst snd].
  - rewrite (alert_when _ _ _ _ _ _ Hcall).
    destruct (send_alert _ _) as [[b | e] trace];
      [destruct (Main.save_log_at setup now) |]; cbn; auto.
  - cbn. rewrite app_nil_r. auto.
Qed.

(** The orchestrator delivers the alerts of the detector. Fed the frames of
    some calls, a pipeline that is not shut down steps its detector as the
    detector alone would run, and it calls the webhook sender once for each
    alert of that run, in order, and for nothing else. *)
Theorem feed_delivers_alerts : forall calls p,
  Main.shutdown_requested p = false ->
  let results := run (Main.detector_config setup) (Main.detector p) calls in
  Main.detector (Main.feed setup p calls) = fst results
  /\ Main.deliveries (Main.feed setup p calls)
     = Main.deliveries p
       ++ map (fun a => (a, snd (send_alert (Main.webhook setup)
                                            (Main.endpoint_at setup (when a)))))
              (Main.alerts (snd results)).
Proof.
  induction calls as [| [frame now] calls IH]; intros p Hrun; cbv zeta;
    cbn [Main.feed run].
  - cbn. rewrite app_nil_r. auto.
  - destruct (process_frame_step frame now p Hrun) as (Hrun' & Hdet & Hdel).
    specialize (IH (fst (Main.process_frame setup frame now p)) Hrun').
    cbv zeta in IH. rewrite Hdet, Hdel in IH.
    destruct (detect_sleeping_person _ _ frame now) as [d r].
    cbn [fst snd] in IH.
    destruct (run (Main.detector_config setup) d calls) as [d' rs].
    cbn [fst snd] in IH |- *.
    destruct IH as [IHdet IHdel]. split; [exact IHdet |].
    rewrite IHdel, <- app_assoc. f_equal.
    destruct r as [a |]; reflexivity.
Qed.

(** After [signal_handler] the stream is not stopped, it is drained:
    [process_stream], called as [main] calls it on a stream whose
    fps_target gives a frame interval and with clocks whose waits
    [time.sleep] accepts, still takes every frame the capture gives up to
    its first failed read and hands it to [process_frame], which drops it;
    the detector, the deliveries and the logs stay as they were. *)
Theorem shutdown_drains_stream (self : Rtsp.RTSPStream Frame) c clock p
    interval :
  Rtsp.frame_interval self = Ok interval ->
  Rtsp.accepted_waits interval clock ->
  Rtsp.cap self = Some c ->
  let e := snd (Rtsp.process_stream self (Main.process_frame setup) None clock
                                    (Main.signal_handler p)) in
  Rtsp.raised e = Ok tt
  /\ Rtsp.world e = Main.signal_handler p
  /\ map fst (Rtsp.handed e) = Rtsp.leading (Rtsp.reads c).
Proof.
  intros Hfps Hfin Hcap. cbv zeta. unfold Rtsp.process_stream.
  rewrite Hfps, Hcap. cbn [snd].
  destruct (stream_loop_handed (Main.process_frame setup) clock _ None
              process_frame_returns Hfin (Rtsp.reads c) 0
              (Main.signal_handler p) [] [])
    as [Hok Hhanded].
  split; [exact Hok |]. split; [| exact Hhanded].
  apply (stream_loop_world (Main.process_frame setup) clock
           (fun w => w = Main.signal_handler p)); [| reflexivity].
  intros frame now w ->. reflexivity.
Qed.

(** The local log does not depend on the delivery: when the detector
    alerts, the sender has a retry_delay that [time.sleep] accepts (from 0
    to 9223372036 seconds, and the timer of the host takes it) and saving
    does not raise, the alert is logged whatever the endpoint answers. With
    a retry_delay that [time.sleep] refuses (negative, above 9223372036, or
    refused by the timer of the host), an alert whose first attempt fails
    with another one due is not logged: the exception of the wait skips the
    log, and the detector is left in its cooldown. *)
Theorem alert_logged_unless_sender_raises frame now p d a :
  Main.shutdown_requested p = false ->
  detect_sleeping_person (Main.detector_config setup) (Main.detector p) frame now
  = (d, Some a) ->
  (0 <= retry_delay (Main.webhook setup) <= 9223372036 ->
   timer (retry_delay (Main.webhook setup) * 1000000000) = Ok tt ->
   Main.save_log_at setup now = Ok tt ->
   Main.logs (fst (Main.process_frame setup frame now p)) = Main.logs p ++ [a])
  /\ (retry_delay (Main.webhook setup) < 0
      \/ 9223372036 < retry_delay (Main.webhook setup)
      \/ (exists e,
            timer (retry_delay (Main.webhook setup) * 1000000000) = Raise e) ->
      2 <= retry_attempts (Main.webhook setup) ->
      delivered_at (Main.endpoint_at setup now) 1 = false ->
      Main.logs (fst (Main.process_frame setup frame now p)) = Main.logs p
      /\ alert_cooldown_until
           (Main.detector (fst (Main.process_frame setup frame now p)))
         = Some (now + timedelta_seconds 30)).
Proof.
  intros Hrun Hcall. unfold Main.process_frame. rewrite Hrun, Hcall. split.
  - intros Hdelay Htimer Hsave.
    pose proof (attempts_loop_result (Main.webhook setup)
                  (Main.endpoint_at setup now) Hdelay Htimer
                  (range 1 (retry_attempts (Main.webhook setup) + 1)) [])
      as Hsent.
    fold (send_alert (Main.webhook setup) (Main.endpoint_at setup now)) in Hsent.
    destruct (send_alert _ _) as [sent trace]. cbn [fst] in Hsent.
    rewrite Hsent, Hsave. reflexivity.
  - intros Hdelay Hn Hfail.
    assert (Hsent : exists e,
              send_alert (Main.webhook setup) (Main.endpoint_at setup now)
              = (Raise e, [Posted 1 (Main.endpoint_at setup now 1)])).
    { rewrite (send_alert_first_wait _ _ Hn Hfail).
      destruct (sleep_refused (retry_delay (Main.webhook setup))
                  [Posted 1 (Main.endpoint_at setup now 1)] Hdelay)
        as [e He].
      rewrite He. exists e. reflexivity. }
    destruct Hsent as [e Hsent].
    rewrite Hsent. cbn [fst Main.logs Main.detector].
    split; [reflexivity |].
    pose proof (detect_outcome (Main.detector_config setup) (Main.detector p)
                               frame now) as Hout.
    rewrite Hcall in Hout. inversion Hout; subst. reflexivity.
Qed.

End Orchestrator.

Lemma feed_delivers_alerts_witness :
  Main.detector (Main.feed Main.setup Main.fresh MoreScenarios.five_calls)
  = fst (run Scenario.defaults init MoreScenarios.five_calls)
  /\ Main.deliveries (Main.feed Main.setup Main.fresh MoreScenarios.five_calls)
     = [] ++ map (fun a => (a, snd (send_alert Scenario.sender
                                               Scenario.recovering)))
                 (Main.alerts
                    (snd (run Scenario.defaults init MoreScenarios.five_calls))).
Proof.
  apply (feed_delivers_alerts Main.setup MoreScenarios.five_calls Main.fresh).
  reflexivity.
Defined.

Lemma shutdown_drains_stream_witness :
  Rtsp.raised
    (snd (Rtsp.process_stream (Rtsp.mkStream 1 (Some Main.bedroom))
            (Main.process_frame Main.setup) None Rtsp.steady
            (Main.signal_handler Main.fresh)))
  = Ok tt
  /\ Rtsp.world
       (snd (Rtsp.process_stream (Rtsp.mkStream 1 (Some Main.bedroom))
               (Main.process_frame Main.setup) None Rtsp.steady
               (Main.signal_handler Main.fresh)))
     = Main.signal_handler Main.fresh
  /\ map fst
       (Rtsp.handed
          (snd (Rtsp.process_stream (Rtsp.mkStream 1 (Some Main.bedroom))
                  (Main.process_frame Main.setup) None Rtsp.steady
                  (Main.signal_handler Main.fresh))))
     = Rtsp.leading (Rtsp.reads Main.bedroom).
Proof.
  apply (shutdown_drains_stream Main.setup
           (Rtsp.mkStream 1 (Some Main.bedroom)) Main.bedroom Rtsp.steady
           Main.fresh 1%float).
  - reflexivity.
  - intros n. reflexivity.
  - reflexivity.
Defined.


Lemma alert_logged_unless_sender_raises_witness :
  Main.logs (fst (Main.process_frame MoreSetups.offline
                    (Scenario.lying Scenario.half) (Scenario.at_s 6)
                    MoreSetups.primed))
  = [] ++ [mkAlert (Scenario.at_s 6) (Some Scenario.lying_box) horizontal
                   "person sleeping" Scenario.half 4 10]
  /\ (Main.logs (fst (Main.process_frame MoreSetups.offline_hasty
                        (Scenario.lying Scenario.half) (Scenario.at_s 6)
                        MoreSetups.primed))
      = []
      /\ alert_cooldown_until
           (Main.detector
              (fst (Main.process_frame MoreSetups.offline_hasty
                      (Scenario.lying Scenario.half) (Scenario.at_s 6)
                      MoreSetups.primed)))
         = Some (Scenario.at_s 6 + timedelta_seconds 30))
  /\ (Main.logs (fst (Main.process_frame MoreSetups.offline_patient
                        (Scenario.lying Scenario.half) (Scenario.at_s 6)
                        MoreSetups.primed))
      = []
      /\ alert_cooldown_until
           (Main.detector
              (fst (Main.process_frame MoreSetups.offline_patient
                      (Scenario.lying Scenario.half) (Scenario.at_s 6)
                      MoreSetups.primed)))
         = Some (Scenario.at_s 6 + timedelta_seconds 30))
  /\ (Main.logs (fst (@Main.process_frame (Hosts.linux 13962000000000)
                        MoreSetups.offline_lasting
                        (Scenario.lying Scenario.half) (Scenario.at_s 6)
                        MoreSetups.primed))
      = []
      /\ alert_cooldown_until
           (Main.detector
              (fst (@Main.process_frame (Hosts.linux 13962000000000)
                      MoreSetups.offline_lasting
                      (Scenario.lying Scenario.half) (Scenario.at_s 6)
                      MoreSetups.primed)))
         = Some (Scenario.at_s 6 + timedelta_seconds 30)).
Proof.
  split; [| split; [| split]].
  - apply (proj1 (alert_logged_unless_sender_raises MoreSetups.offline
                    (Scenario.lying Scenario.half) (Scenario.at_s 6)
                    MoreSetups.primed Scenario.after_alert
                    (mkAlert (Scenario.at_s 6) (Some Scenario.lying_box)
                             horizontal "person sleeping" Scenario.half 4 10)
                    eq_refl eq_refl)).
    + cbn. lia.
    + reflexivity.
    + reflexivity.
  - apply (proj2 (alert_logged_unless_sender_raises MoreSetups.offline_hasty
                    (Scenario.lying Scenario.half) (Scenario.at_s 6)
                    MoreSetups.primed Scenario.after_alert
                    (mkAlert (Scenario.at_s 6) (Some Scenario.lying_box)
                             horizontal "person sleeping" Scenario.half 4 10)
                    eq_refl eq_refl)).
    + left. cbn. lia.
    + cbn. lia.
    + reflexivity.
  - apply (proj2 (alert_logged_unless_sender_raises MoreSetups.offline_patient
                    (Scenario.lying Scenario.half) (Scenario.at_s 6)
                    MoreSetups.primed Scenario.after_alert
                    (mkAlert (Scenario.at_s 6) (Some Scenario.lying_box)
                             horizontal "person sleeping" Scenario.half 4 10)
                    eq_refl eq_refl)).
    + right. left. cbn. lia.
    + cbn. lia.
    + reflexivity.
  - apply (proj2 (@alert_logged_unless_sender_raises
                    (Hosts.linux 13962000000000) MoreSetups.offline_lasting
                    (Scenario.lying Scenario.half) (Scenario.at_s 6)
                    MoreSetups.primed Scenario.after_alert
                    (mkAlert (Scenario.at_s 6) (Some Scenario.lying_box)
                             horizontal "person sleeping" Scenario.half 4 10)
                    eq_refl eq_refl)).
    + right. right. exists OSError. reflexivity.
    + cbn. lia.
    + reflexivity.
Defined.
